(** * Attendance automation: the reconciliation engine, embedded and verified

    Shallow embedding of [utils.py] and [processor.py]: the value
    parsers ([normalize_email], [parse_duration_to_minutes], [parse_date]),
    the column resolvers, the two loaders and [process_attendance].

    Conventions of the embedding.
    - Python [str] values are [string]s; a character is its code point,
      restricted to the range 0..255.
    - Python [int] is [Z]; Python [float] is [pyfloat] below (binary64 with
      round-to-nearest-even, infinities and NaN).
    - A [dict] is a [gmap]; a pandas [DataFrame] is an ordered list of named
      columns of equal length; a row label is its position (the
      [RangeIndex] that [read_csv] produces).
    - A raised exception is the [Raise] outcome of the [result] monad. *)

From Stdlib Require Import ZArith QArith Qreduction Qcanon Lia String Ascii.
From Stdlib Require Import DecimalString DecimalNat DecimalFacts.
From stdpp Require Import gmap strings list sorting.

Local Open Scope string_scope.
Local Open Scope list_scope.
Local Open Scope nat_scope.

(** ** Characters and strings *)

Module Str.

Definition code (c : ascii) : nat := nat_of_ascii c.

(** [str.isspace] on code points below 256; also the class [\s] of [re]
    for [str] patterns. *)
Definition is_space (c : ascii) : bool :=
  let n := code c in
  ((9 <=? n) && (n <=? 13)) || ((28 <=? n) && (n <=? 32))
  || (n =? 133) || (n =? 160).

(** The class [\d] (decimal digits) on code points below 256. *)
Definition is_digit (c : ascii) : bool :=
  let n := code c in (48 <=? n) && (n <=? 57).

(** [str.lower] on one code point below 256. *)
Definition lower_char (c : ascii) : ascii :=
  let n := code c in
  if ((65 <=? n) && (n <=? 90))
     || ((192 <=? n) && (n <=? 222) && negb (n =? 215))
  then ascii_of_nat (n + 32) else c.

Fixpoint lower (s : string) : string :=
  match s with
  | EmptyString => EmptyString
  | String c s' => String (lower_char c) (lower s')
  end.

Fixpoint lstrip (s : string) : string :=
  match s with
  | String c s' => if is_space c then lstrip s' else s
  | EmptyString => EmptyString
  end.

Fixpoint rstrip (s : string) : string :=
  match s with
  | String c s' =>
      match rstrip s' with
      | EmptyString => if is_space c then EmptyString else String c EmptyString
      | r => String c r
      end
  | EmptyString => EmptyString
  end.

(** [s.strip()] *)
Definition strip (s : string) : string := rstrip (lstrip s).

Fixpoint starts_with (p s : string) : bool :=
  match p, s with
  | EmptyString, _ => true
  | String a p', String b s' => if Ascii.eqb a b then starts_with p' s' else false
  | String _ _, EmptyString => false
  end.

(** [needle in hay] *)
Fixpoint contains (needle hay : string) : bool :=
  starts_with needle hay ||
  match hay with
  | String _ hay' => contains needle hay'
  | EmptyString => false
  end.

(** [s.replace(a, b)] for one-character [a] and [b]. *)
Fixpoint replace_char (a b : ascii) (s : string) : string :=
  match s with
  | String c s' => String (if Ascii.eqb c a then b else c) (replace_char a b s')
  | EmptyString => EmptyString
  end.

(** [sep.join(l)] *)
Fixpoint join (sep : string) (l : list string) : string :=
  match l with
  | [] => ""
  | [x] => x
  | x :: l' => x +:+ sep +:+ join sep l'
  end.

(** Every character of [s] is in the class [p]. *)
Fixpoint all (p : ascii -> bool) (s : string) : bool :=
  match s with
  | String c s' => p c && all p s'
  | EmptyString => true
  end.

(** The class of the decimal point. *)
Definition is_dot : ascii -> bool := Ascii.eqb ".".

(** The last character of [s], if there is one, is not white space. *)
Fixpoint ends_ok (s : string) : bool :=
  match s with
  | EmptyString => true
  | String c EmptyString => negb (is_space c)
  | String _ s' => ends_ok s'
  end.

(** [s] is empty or starts outside the class [p]. *)
Definition stops (p : ascii -> bool) (s : string) : bool :=
  match s with
  | String c _ => negb (p c)
  | EmptyString => true
  end.

(** The prefix of [s] that was consumed when [rest] is what remains. *)
Definition consumed (s rest : string) : string :=
  substring 0 (String.length s - String.length rest) s.

(** [int(s)] for a string of decimal digits (Horner's rule). *)
Definition digit_val (c : ascii) : Z := Z.of_nat (code c - 48).

Fixpoint int_of_digits_acc (s : string) (acc : Z) : Z :=
  match s with
  | String c s' => int_of_digits_acc s' (10 * acc + digit_val c)
  | EmptyString => acc
  end.

Definition int_of_digits (s : string) : Z := int_of_digits_acc s 0.

(** [str(n)] for a non-negative integer. *)
Definition of_nat (n : nat) : string := NilEmpty.string_of_uint (Nat.to_uint n).

Definition of_Z (z : Z) : string :=
  match z with
  | Zneg p => "-" +:+ of_nat (Pos.to_nat p)
  | _ => of_nat (Z.to_nat z)
  end.

(** [f"{n:0{w}d}"]: decimal, left-padded with zeros to width [w]. *)
Definition pad0 (w : nat) (n : Z) : string :=
  let s := of_Z n in
  String.concat "" (replicate (w - String.length s) "0") +:+ s.

End Str.

(** ** Regular expressions

    The fragment of Python's [re] that the sources use, with its
    backtracking semantics: alternatives are tried in order, repetition is
    greedy, and the first successful path decides the captures.  Repetition
    is only ever applied to a character class in the sources. *)

Module Re.

Inductive re : Type :=
| Eps
| Chr (p : ascii -> bool)          (* one character of a class *)
| Seq (r1 r2 : re)
| Alt (r1 r2 : re)                 (* r1|r2, r1 first *)
| Star (p : ascii -> bool)         (* p*, greedy *)
| Eol                              (* $ : at the end, or before a final newline *)
| Grp (n : nat) (r : re).          (* capturing group number n *)

Abbreviation captures := (gmap nat string).

Section Matcher.
Context {A : Type}.

Fixpoint star (p : ascii -> bool) (s : string)
         (k : string -> option A) : option A :=
  match s with
  | String c s' =>
      if p c then
        match star p s' k with
        | Some x => Some x
        | None => k s
        end
      else k s
  | EmptyString => k s
  end.

Fixpoint run (r : re) (s : string) (caps : captures)
         (k : string -> captures -> option A) : option A :=
  match r with
  | Eps => k s caps
  | Chr p =>
      match s with
      | String c s' => if p c then k s' caps else None
      | EmptyString => None
      end
  | Seq r1 r2 => run r1 s caps (fun s' caps' => run r2 s' caps' k)
  | Alt r1 r2 =>
      match run r1 s caps k with
      | Some x => Some x
      | None => run r2 s caps k
      end
  | Star p => star p s (fun s' => k s' caps)
  | Eol =>
      match s with
      | EmptyString => k s caps
      | String c EmptyString => if Ascii.eqb c "010" then k s caps else None
      | _ => None
      end
  | Grp n r' =>
      run r' s caps (fun s' caps' => k s' (<[n := Str.consumed s s']> caps'))
  end.
End Matcher.

(** [re.match(r, s)]: the captures and the unconsumed rest. *)
Definition match_ (r : re) (s : string) : option (captures * string) :=
  run r s ∅ (fun rest caps => Some (caps, rest)).

(** [re.search(r, s)]: the leftmost position where [r] matches. *)
Fixpoint search (r : re) (s : string) : option (captures * string) :=
  match match_ r s with
  | Some m => Some m
  | None =>
      match s with
      | String _ s' => search r s'
      | EmptyString => None
      end
  end.

(** [m.group(n)] of a group that took part in the match. *)
Definition group (m : captures * string) (n : nat) : string :=
  default "" (m.1 !! n).

(** Building blocks. *)
Definition lit (c : ascii) : re := Chr (Ascii.eqb c).
(** A letter under [re.IGNORECASE]. *)
Definition ilit (c : ascii) : re := Chr (fun x => Ascii.eqb (Str.lower_char x) c).
Definition digit : re := Chr Str.is_digit.
Definition plus (p : ascii -> bool) : re := Seq (Chr p) (Star p).
Definition opt (r : re) : re := Alt r Eps.
Fixpoint word (f : ascii -> re) (s : string) : re :=
  match s with
  | EmptyString => Eps
  | String c s' => Seq (f c) (word f s')
  end.
Fixpoint alts (l : list re) : re :=
  match l with
  | [] => Chr (fun _ => false)
  | [r] => r
  | r :: l' => Alt r (alts l')
  end.
Definition range (a b : nat) : re :=
  Chr (fun c => (a <=? Str.code c) && (Str.code c <=? b)).

End Re.

(** ** Python floats

    A binary64 value is an infinity, NaN, or a rational that binary64
    represents; every operation is the exact operation followed by
    [round], IEEE 754 round-to-nearest-even.  The two zeros are
    identified: they compare equal and no duration is ever printed. *)

Module Float.

Inductive pyfloat : Type :=
| FFin (q : Q)
| FInf (neg : bool)
| FNaN.

Definition prec : Z := 53.
Definition emin : Z := -1074.
Definition emax : Z := 1024.

(** The fraction (n/d) / 2^e. *)
Definition scale2 (n d e : Z) : Z * Z :=
  if (0 <=? e)%Z then (n, d * 2 ^ e)%Z else (n * 2 ^ (- e), d)%Z.

(** floor (log2 (n/d)) for positive [n] and [d]. *)
Definition ilog2 (n d : Z) : Z :=
  let e0 := (Z.log2 n - Z.log2 d)%Z in
  let '(n', d') := scale2 n d e0 in
  if (d' <=? n')%Z then e0 else (e0 - 1)%Z.

(** The integer nearest to n/d, ties to the even one. *)
Definition nearest_even (n d : Z) : Z :=
  let m := (n / d)%Z in
  let r := (n mod d)%Z in
  if (d <? 2 * r)%Z || ((2 * r =? d)%Z && Z.odd m) then (m + 1)%Z else m.

(** m * 2^e as a reduced fraction. *)
Definition dyadic (m e : Z) : Q :=
  Qred (if (0 <=? e)%Z then inject_Z (m * 2 ^ e)
        else Qmake m (Z.to_pos (2 ^ (- e)))).

(** Rounding of the positive rational n/d; [None] when the rounded value
    exceeds the binary64 range. *)
Definition round_pos (n d : Z) : option Q :=
  let e := Z.max (ilog2 n d - (prec - 1)) emin in
  let '(n', d') := scale2 n d e in
  let m := nearest_even n' d' in
  if (0 <=? e)%Z && (2 ^ emax <=? m * 2 ^ e)%Z then None
  else Some (dyadic m e).

Definition round (q : Q) : pyfloat :=
  match Qnum q with
  | Z0 => FFin 0
  | Zpos n =>
      match round_pos (Zpos n) (Zpos (Qden q)) with
      | Some r => FFin r
      | None => FInf false
      end
  | Zneg n =>
      match round_pos (Zpos n) (Zpos (Qden q)) with
      | Some r => FFin (Qred (- r))
      | None => FInf true
      end
  end.

Definition zero : pyfloat := FFin 0.
Definition of_Z_exact (z : Z) : pyfloat := FFin (inject_Z z).

(** x + y *)
Definition add (x y : pyfloat) : pyfloat :=
  match x, y with
  | FNaN, _ | _, FNaN => FNaN
  | FInf a, FInf b => if Bool.eqb a b then FInf a else FNaN
  | FInf a, FFin _ | FFin _, FInf a => FInf a
  | FFin a, FFin b => round (a + b)
  end.

(** x - y *)
Definition sub (x y : pyfloat) : pyfloat :=
  match x, y with
  | FNaN, _ | _, FNaN => FNaN
  | FInf a, FInf b => if Bool.eqb a b then FNaN else FInf a
  | FInf a, FFin _ => FInf a
  | FFin _, FInf b => FInf (negb b)
  | FFin a, FFin b => round (a - b)
  end.

Definition is_zero (q : Q) : bool := (Qnum q =? 0)%Z.
Definition is_neg (q : Q) : bool := (Qnum q <? 0)%Z.

(** x * y *)
Definition mul (x y : pyfloat) : pyfloat :=
  match x, y with
  | FNaN, _ | _, FNaN => FNaN
  | FInf a, FInf b => FInf (xorb a b)
  | FInf a, FFin q | FFin q, FInf a =>
      if is_zero q then FNaN else FInf (xorb a (is_neg q))
  | FFin a, FFin b => round (a * b)
  end.

(** x >= y; false as soon as one side is NaN. *)
Definition ge (x y : pyfloat) : bool :=
  match x, y with
  | FNaN, _ | _, FNaN => false
  | FInf a, FInf b => implb a b
  | FInf a, FFin _ => negb a
  | FFin _, FInf b => b
  | FFin a, FFin b => Qle_bool b a
  end.


Definition is_nan (x : pyfloat) : bool :=
  match x with FNaN => true | _ => false end.

(** [float(z)] for an [int]: [None] is [OverflowError]. *)
Definition of_int (z : Z) : option pyfloat :=
  match round (inject_Z z) with
  | FFin q => Some (FFin q)
  | _ => None
  end.

(** [a / b] for two [int]s with [b] positive (true division, correctly
    rounded): [None] is [OverflowError]. *)
Definition int_div (a : Z) (b : positive) : option pyfloat :=
  match round (Qmake a b) with
  | FFin q => Some (FFin q)
  | _ => None
  end.

(** *** [float(s)] for a string

    The grammar of the language reference: an optional sign, then
    [inf], [infinity], [nan] (any case) or a decimal number with an
    optional exponent; digits may be grouped with single underscores. *)

(** [(["_"] digit)*]: the digits taken and the rest. *)
Fixpoint digits_tail (s : string) : string * string :=
  match s with
  | String c s' =>
      if Str.is_digit c then
        let '(ds, r) := digits_tail s' in (String c ds, r)
      else if Ascii.eqb c "_" then
        match s' with
        | String c' s'' =>
            if Str.is_digit c' then
              let '(ds, r) := digits_tail s'' in (String c' ds, r)
            else (EmptyString, s)
        | EmptyString => (EmptyString, s)
        end
      else (EmptyString, s)
  | EmptyString => (EmptyString, EmptyString)
  end.

(** [digitpart]: [None] unless [s] starts with a digit. *)
Definition digitpart (s : string) : option (string * string) :=
  match s with
  | String c s' =>
      if Str.is_digit c then
        let '(ds, r) := digits_tail s' in Some (String c ds, r)
      else None
  | EmptyString => None
  end.

Definition sign (s : string) : bool * string :=
  match s with
  | String "-" s' => (true, s')
  | String "+" s' => (false, s')
  | _ => (false, s)
  end.

(** [exponent]: the value of the exponent and the rest; [None] when an
    [e] is not followed by a well-formed exponent. *)
Definition exponent (s : string) : option (Z * string) :=
  match s with
  | String c s' =>
      if Ascii.eqb (Str.lower_char c) "e" then
        let '(neg, s1) := sign s' in
        match digitpart s1 with
        | Some (ds, r) =>
            let v := Str.int_of_digits ds in
            Some (if neg then (- v)%Z else v, r)
        | None => None
        end
      else Some (0%Z, s)
  | EmptyString => Some (0%Z, s)
  end.

(** [number [exponent]] with nothing left over: the digits of the
    mantissa, and the power of ten that scales them. *)
Definition floatnumber (s : string) : option (string * Z) :=
  let '(ip, r1) := default (EmptyString, s) (digitpart s) in
  let '(fp, r2) :=
    match r1 with
    | String "." r1' =>
        match digitpart r1' with
        | Some (fp, r2) => (Some fp, r2)
        | None => (None, r1')
        end
    | _ => (Some EmptyString, r1)
    end in
  match ip, fp with
  | EmptyString, None | EmptyString, Some EmptyString => None
  | _, _ =>
      let fp := default EmptyString fp in
      match exponent r2 with
      | Some (e, EmptyString) =>
          Some (ip +:+ fp, (e - Z.of_nat (String.length fp))%Z)
      | _ => None
      end
  end.

(** m * 10^e, exactly. *)
Definition decimal (m e : Z) : Q :=
  if (0 <=? e)%Z then inject_Z (m * 10 ^ e)
  else Qmake m (Z.to_pos (10 ^ (- e))).

(** [float(s)]: [None] is [ValueError]. *)
Definition of_string (s : string) : option pyfloat :=
  let '(neg, body) := sign (Str.strip s) in
  let word := Str.lower body in
  if String.eqb word "inf" || String.eqb word "infinity" then Some (FInf neg)
  else if String.eqb word "nan" then Some FNaN
  else
    match floatnumber body with
    | Some (ds, e) =>
        let m := Str.int_of_digits ds in
        Some (round (decimal (if neg then (- m)%Z else m) e))
    | None => None
    end.

End Float.

Import Float.

(** ** Exceptions *)

Inductive exn : Type :=
| KeyError (key : string)
| ValueError
| OverflowError.

Inductive result (A : Type) : Type :=
| Ok (a : A)
| Raise (e : exn).
Arguments Ok {A} a.
Arguments Raise {A} e.

#[global] Instance result_ret : MRet result := fun A a => Ok a.
#[global] Instance result_bind : MBind result := fun A B f m =>
  match m with
  | Ok a => f a
  | Raise e => Raise e
  end.

Definition of_option {A} (e : exn) (o : option A) : result A :=
  match o with
  | Some a => Ok a
  | None => Raise e
  end.

Definition returns {A} (m : result A) : Prop := exists a, m = Ok a.

(** ** Cell values *)

Record date : Type := Date { year : Z; month : Z; day : Z }.

#[global] Instance date_eq_dec : EqDecision date.
Proof. solve_decision. Defined.

Record time : Type := Time { hour : Z; minute : Z; second : Z }.

(** What a table cell or an argument of a value parser can be.  A missing
    value is [None] or the float NaN (what [read_csv] puts in an empty
    field). *)
Inductive cell : Type :=
| CNone
| CStr (s : string)
| CInt (z : Z)
| CFloat (f : pyfloat)
| CDate (d : date)                  (* a [datetime.date] *)
| CDatetime (d : date) (t : time).  (* a [datetime] or a pandas [Timestamp] *)

Abbreviation CNaN := (CFloat FNaN).

(** [pd.isna(v)] *)
Definition isna (v : cell) : bool :=
  match v with
  | CNone => true
  | CFloat FNaN => true
  | _ => false
  end.

(** [d.isoformat()], which is also [str(d)] *)
Definition isoformat (d : date) : string :=
  Str.pad0 4 (year d) +:+ "-" +:+ Str.pad0 2 (month d) +:+ "-" +:+ Str.pad0 2 (day d).

Definition str_datetime (d : date) (t : time) : string :=
  isoformat d +:+ " " +:+ Str.pad0 2 (hour t) +:+ ":" +:+ Str.pad0 2 (minute t)
  +:+ ":" +:+ Str.pad0 2 (second t).

(** ** utils.py: value parsers *)

(** [normalize_email] *)
Definition normalize_email (email : cell) : string :=
  if isna email then ""
  else match email with
       | CStr s => Str.lower (Str.strip s)
       | _ => ""
       end.

Module DurationRe.
Import Re.

(** [\d+(?:\.\d+)?] *)
Definition number : re :=
  Seq (plus Str.is_digit) (opt (Seq (lit ".") (plus Str.is_digit))).

(** [^(\d+):(\d+):(\d+)$] *)
Definition hms : re :=
  Seq (Grp 1 (plus Str.is_digit))
    (Seq (lit ":") (Seq (Grp 2 (plus Str.is_digit))
      (Seq (lit ":") (Seq (Grp 3 (plus Str.is_digit)) Eol)))).

(** [^(\d+):(\d+)$] *)
Definition ms : re :=
  Seq (Grp 1 (plus Str.is_digit))
    (Seq (lit ":") (Seq (Grp 2 (plus Str.is_digit)) Eol)).

(** [(\d+(?:\.\d+)?)\s*(?:h|hr|hour|hours)], ignoring case *)
Definition hours : re :=
  Seq (Grp 1 number)
    (Seq (Star Str.is_space)
       (alts [word ilit "h"; word ilit "hr"; word ilit "hour"; word ilit "hours"])).

(** [(\d+(?:\.\d+)?)\s*(?:m|min|mins|minute|minutes)], ignoring case *)
Definition minutes : re :=
  Seq (Grp 1 number)
    (Seq (Star Str.is_space)
       (alts [word ilit "m"; word ilit "min"; word ilit "mins";
              word ilit "minute"; word ilit "minutes"])).

(** [(\d+(?:\.\d+)?)] *)
Definition any_number : re := Grp 1 number.
End DurationRe.

(** [float(s)] where a [ValueError] is not caught *)
Definition float_of_str (s : string) : result pyfloat :=
  of_option ValueError (Float.of_string s).

(** [i + x] for an [int] and a [float] *)
Definition int_add_float (i : Z) (x : pyfloat) : result pyfloat :=
  y ← of_option OverflowError (Float.of_int i); Ok (Float.add y x).

(** [x * i] for a [float] and an [int] *)
Definition float_mul_int (x : pyfloat) (i : Z) : result pyfloat :=
  y ← of_option OverflowError (Float.of_int i); Ok (Float.mul x y).

(** [str(v)] for the values that reach the string branch of
    [parse_duration_to_minutes]. *)
Definition duration_text (v : cell) : string :=
  match v with
  | CStr s => s
  | CDate d => isoformat d
  | CDatetime d t => str_datetime d t
  | _ => ""
  end.

(** The string branch of [parse_duration_to_minutes], from the plain
    numeric parse on. *)
Definition parse_duration_string (duration_str : string) : result pyfloat :=
  match Float.of_string duration_str with
  | Some f => Ok f
  | None =>
      match Re.match_ DurationRe.hms duration_str with
      | Some m =>
          let hours := Str.int_of_digits (Re.group m 1) in
          let minutes := Str.int_of_digits (Re.group m 2) in
          let seconds := Str.int_of_digits (Re.group m 3) in
          q ← of_option OverflowError (Float.int_div seconds 60);
          int_add_float (hours * 60 + minutes) q
      | None =>
          match Re.match_ DurationRe.ms duration_str with
          | Some m =>
              let minutes := Str.int_of_digits (Re.group m 1) in
              let seconds := Str.int_of_digits (Re.group m 2) in
              q ← of_option OverflowError (Float.int_div seconds 60);
              int_add_float minutes q
          | None =>
              let hour_match := Re.search DurationRe.hours duration_str in
              let min_match := Re.search DurationRe.minutes duration_str in
              total ← match hour_match with
                      | Some m =>
                          h ← float_of_str (Re.group m 1);
                          x ← float_mul_int h 60;
                          int_add_float 0 x
                      | None => Ok Float.zero
                      end;
              total ← match min_match with
                      | Some m =>
                          x ← float_of_str (Re.group m 1);
                          Ok (Float.add total x)
                      | None => Ok total
                      end;
              if bool_decide (is_Some hour_match) || bool_decide (is_Some min_match)
              then Ok total
              else
                match Re.search DurationRe.any_number duration_str with
                | Some m => float_of_str (Re.group m 1)
                | None => Ok Float.zero
                end
          end
      end
  end.

(** [parse_duration_to_minutes].  The integer [0] that two of its exits
    return is the float zero here. *)
Definition parse_duration_to_minutes (duration_value : cell) : result pyfloat :=
  if isna duration_value then Ok Float.zero
  else
    match duration_value with
    | CInt z => of_option OverflowError (Float.of_int z)
    | CFloat f => Ok f
    | _ => parse_duration_string (Str.strip (duration_text duration_value))
    end.

(** ** Dates and [datetime.strptime] *)

Module Strptime.
Import Re.

Definition is_leap (y : Z) : bool :=
  ((y mod 4 =? 0) && negb (y mod 100 =? 0) || (y mod 400 =? 0))%Z.

Definition days_in_month (y m : Z) : Z :=
  match m with
  | 2 => if is_leap y then 29 else 28
  | 4 | 6 | 9 | 11 => 30
  | _ => 31
  end%Z.

(** What the [date] constructor accepts. *)
Definition valid_date (y m d : Z) : bool :=
  ((1 <=? y) && (y <=? 9999) && (1 <=? m) && (m <=? 12)
   && (1 <=? d) && (d <=? days_in_month y m))%Z.

(** Directives and literal text of a format string. *)
Inductive item : Type :=
| Dd          (* %d *)
| Dm          (* %m *)
| DY          (* %Y *)
| Dy          (* %y *)
| Db          (* %b *)
| DB          (* %B *)
| Lit (c : ascii)
| Spaces.     (* a run of whitespace in the format: \s+ *)

Definition month_abbr : list string :=
  ["jan"; "feb"; "mar"; "apr"; "may"; "jun";
   "jul"; "aug"; "sep"; "oct"; "nov"; "dec"].
Definition month_name : list string :=
  ["january"; "february"; "march"; "april"; "may"; "june"; "july";
   "august"; "september"; "october"; "november"; "december"].

(** The names of a directive's alternation, longest first (a stable
    sort of the locale's list by decreasing length). *)
Fixpoint insert_by_length (x : string) (l : list string) : list string :=
  match l with
  | [] => [x]
  | y :: l' =>
      if String.length y <=? String.length x then x :: l
      else y :: insert_by_length x l'
  end.
Definition by_length (l : list string) : list string :=
  foldr insert_by_length [] l.

(** Capture groups: 1 = d, 2 = m, 3 = Y, 4 = y, 5 = b, 6 = B. *)
Definition item_re (i : item) : re :=
  match i with
  | Dd => Grp 1 (alts [Seq (lit "3") (range 48 49);
                       Seq (range 49 50) digit;
                       Seq (lit "0") (range 49 57);
                       range 49 57;
                       Seq (lit " ") (range 49 57)])
  | Dm => Grp 2 (alts [Seq (lit "1") (range 48 50);
                       Seq (lit "0") (range 49 57);
                       range 49 57])
  | DY => Grp 3 (Seq digit (Seq digit (Seq digit digit)))
  | Dy => Grp 4 (Seq digit digit)
  | Db => Grp 5 (alts (map (word ilit) (by_length month_abbr)))
  | DB => Grp 6 (alts (map (word ilit) (by_length month_name)))
  | Lit c => ilit (Str.lower_char c)
  | Spaces => plus Str.is_space
  end.

Fixpoint format_re (fmt : list item) : re :=
  match fmt with
  | [] => Eps
  | i :: fmt' => Seq (item_re i) (format_re fmt')
  end.

(** [l.index(x) + 1] *)
Fixpoint index_of (x : string) (l : list string) : option Z :=
  match l with
  | [] => None
  | y :: l' => if String.eqb x y then Some 1%Z else Z.succ <$> index_of x l'
  end.

(** [int(s)] of a captured field (a leading blank is skipped). *)
Definition to_int (s : string) : Z := Str.int_of_digits (Str.lstrip s).

(** [datetime.strptime(s, fmt).date()]; [None] is [ValueError]. *)
Definition strptime (s : string) (fmt : list item) : option date :=
  m ← match_ (format_re fmt) s;
  guard (m.2 = "");;
  let cap := m.1 in
  let y := match cap !! 3, cap !! 4 with
           | Some yyyy, _ => to_int yyyy
           | None, Some yy =>
               let v := to_int yy in
               if (v <=? 68)%Z then (2000 + v)%Z else (1900 + v)%Z
           | None, None => 1900%Z
           end in
  mo ← match cap !! 2, cap !! 5, cap !! 6 with
       | Some mm, _, _ => Some (to_int mm)
       | None, Some b, _ => index_of (Str.lower b) month_abbr
       | None, None, Some b => index_of (Str.lower b) month_name
       | None, None, None => Some 1%Z
       end;
  let d := from_option to_int 1%Z (cap !! 1) in
  guard (valid_date y mo d = true);;
  Some (Date y mo d).

(** The format strings of [parse_date], in its order. *)
Definition formats : list (list item) :=
  [ [Dd; Lit "-"; Dm; Lit "-"; DY];      (* %d-%m-%Y *)
    [Dd; Lit "/"; Dm; Lit "/"; DY];      (* %d/%m/%Y *)
    [DY; Lit "-"; Dm; Lit "-"; Dd];      (* %Y-%m-%d *)
    [Dd; Lit "-"; Dm; Lit "-"; Dy];      (* %d-%m-%y *)
    [Dd; Lit "/"; Dm; Lit "/"; Dy];      (* %d/%m/%y *)
    [Dm; Lit "-"; Dd; Lit "-"; DY];      (* %m-%d-%Y *)
    [Dm; Lit "/"; Dd; Lit "/"; DY];      (* %m/%d/%Y *)
    [Dd; Spaces; Db; Spaces; DY];        (* %d %b %Y *)
    [Dd; Spaces; DB; Spaces; DY];        (* %d %B %Y *)
    [DY; Lit "/"; Dm; Lit "/"; Dd] ].    (* %Y/%m/%d *)

End Strptime.

(** ** Data frames *)

Module Frame.

(** Named columns in their order, each holding one cell per row. *)
Record DataFrame : Type := mk { nrows : nat; cols : list (string * list cell) }.

(** [df.columns] *)
Definition columns (df : DataFrame) : list string := (cols df).*1.

Fixpoint find_col (c : string) (l : list (string * list cell)) : option (list cell) :=
  match l with
  | [] => None
  | (c', vals) :: l' => if String.eqb c' c then Some vals else find_col c l'
  end.

Fixpoint put_col (c : string) (vals : list cell) (l : list (string * list cell))
  : list (string * list cell) :=
  match l with
  | [] => [(c, vals)]
  | (c', vals') :: l' =>
      if String.eqb c' c then (c, vals) :: l' else (c', vals') :: put_col c vals l'
  end.

(** [df[c]]: [KeyError] for an unknown column. *)
Definition getitem (df : DataFrame) (c : string) : result (list cell) :=
  of_option (KeyError c) (find_col c (cols df)).

(** [df[c] = vals]: replaces the column, or appends a new last column. *)
Definition setitem (df : DataFrame) (c : string) (vals : list cell) : DataFrame :=
  mk (nrows df) (put_col c vals (cols df)).

(** [df[c] = v] for a scalar [v] *)
Definition setitem_scalar (df : DataFrame) (c : string) (v : cell) : DataFrame :=
  setitem df c (replicate (nrows df) v).

(** [df.at[i, c]] *)
Definition at_ (df : DataFrame) (i : nat) (c : string) : result cell :=
  vals ← getitem df c; of_option (KeyError (Str.of_nat i)) (vals !! i).

(** [df.at[i, c] = v] for a row and a column that exist. *)
Definition set_at (df : DataFrame) (i : nat) (c : string) (v : cell) : DataFrame :=
  mk (nrows df)
     (map (fun p : string * list cell =>
             if String.eqb p.1 c then (p.1, <[i := v]> p.2) else p) (cols df)).

(** [df.drop(columns=names, errors='ignore')] *)
Definition drop (df : DataFrame) (names : list string) : DataFrame :=
  mk (nrows df) (filter (fun p : string * list cell => p.1 ∉ names) (cols df)).

(** [df[mask].index]: the positions where the mask holds. *)
Fixpoint where_from (i : nat) (mask : list bool) : list nat :=
  match mask with
  | [] => []
  | b :: mask' => if b then i :: where_from (S i) mask' else where_from (S i) mask'
  end.
Definition where_ (mask : list bool) : list nat := where_from 0 mask.

(** Every column has one cell per row. *)
Definition rectangular (df : DataFrame) : Prop :=
  Forall (fun p : string * list cell => length p.2 = nrows df) (cols df).

End Frame.

Import Frame.

(** The order of [sorted] on strings: lexicographic on code points. *)
Definition str_le (a b : string) : Prop := String.leb a b = true.
#[global] Instance str_le_dec a b : Decision (str_le a b).
Proof. unfold str_le. apply _. Defined.

(** ** utils.py and processor.py over their environment *)

(** What the engine takes from Python, pandas and the operating system. *)
Class Platform : Type := {
  (** [repr] of a finite float: Python's shortest round-trip decimal. *)
  float_repr : Q -> string;
  (** [pd.to_datetime(s, dayfirst=True).date()]: [None] when it raises, or
      yields the null timestamp. *)
  to_datetime_dayfirst : string -> option date;
  (** [pd.read_csv] under [read_csv_safe]'s two encodings, with the
      header cells stripped: the frame, or the message of the failure. *)
  read_csv_safe : string -> DataFrame + string;
  (** [df.to_csv(path, index=False, encoding='utf-8-sig')]: [Some msg] when
      it raises an exception whose text is [msg]. *)
  to_csv : DataFrame -> string -> option string;
  (** [os.path.dirname] and [os.path.join] *)
  path_dirname : string -> string;
  path_join : string -> string -> string
}.

Section Engine.
Context `{Platform}.

(** [str(v)] *)
Definition py_str (v : cell) : string :=
  match v with
  | CNone => "None"
  | CStr s => s
  | CInt z => Str.of_Z z
  | CFloat (FFin q) => float_repr q
  | CFloat (FInf neg) => if neg then "-inf" else "inf"
  | CFloat FNaN => "nan"
  | CDate d => isoformat d
  | CDatetime d t => str_datetime d t
  end.

Fixpoint try_formats (date_str : string) (fmts : list (list Strptime.item))
  : option date :=
  match fmts with
  | [] => None
  | fmt :: fmts' =>
      match Strptime.strptime date_str fmt with
      | Some d => Some d
      | None => try_formats date_str fmts'
      end
  end.

(** [parse_date]: a date, or [None]. *)
Definition parse_date (date_value : cell) : option date :=
  if isna date_value then None
  else
    match date_value with
    | CDatetime d _ => Some d
    | _ =>
        let date_str := Str.strip (py_str date_value) in
        match try_formats date_str Strptime.formats with
        | Some d => Some d
        | None => to_datetime_dayfirst date_str
        end
    end.

Definition cell_of_date (d : option date) : cell :=
  match d with
  | Some d => CDate d
  | None => CNone
  end.

(** [k not in col_map] *)
Definition not_in (k : string) (col_map : gmap string string) : bool :=
  bool_decide (col_map !! k = None).

(** [detect_registration_columns] *)
Definition detect_registration_columns (df : DataFrame) : gmap string string :=
  foldl (fun col_map col =>
    let col_lower := Str.strip (Str.lower col) in
    if Str.contains "email" col_lower && not_in "Email" col_map
    then <["Email" := col]> col_map
    else if (Str.contains "training date" col_lower
             || Str.contains "training_date" col_lower)
            && not_in "Training date" col_map
    then <["Training date" := col]> col_map
    else if Str.contains "attendance" col_lower && Str.contains "day 1" col_lower
            && not_in "Attendance - Day 1" col_map
    then <["Attendance - Day 1" := col]> col_map
    else if Str.contains "attendance" col_lower && Str.contains "day 2" col_lower
            && not_in "Attendance - Day 2" col_map
    then <["Attendance - Day 2" := col]> col_map
    else if (String.eqb col_lower "name" || String.eqb col_lower "participant name")
            && not_in "Name" col_map
    then <["Name" := col]> col_map
    else if (Str.contains "version" col_lower || Str.contains "program" col_lower)
            && not_in "Version" col_map
    then <["Version" := col]> col_map
    else col_map) ∅ (columns df).

(** [detect_zoom_columns] *)
Definition detect_zoom_columns (df : DataFrame) : gmap string string :=
  foldl (fun col_map col =>
    let col_lower := Str.strip (Str.lower col) in
    if Str.contains "email" col_lower && not_in "Email" col_map
    then <["Email" := col]> col_map
    else if Str.contains "duration" col_lower && not_in "Duration" col_map
    then <["Duration" := col]> col_map
    else if Str.contains "name" col_lower && not_in "Name" col_map
    then <["Name" := col]> col_map
    else col_map) ∅ (columns df).

(** [[r for r in required if r not in col_map]] *)
Definition missing_keys (required : list string) (col_map : gmap string string)
  : list string :=
  filter (fun r => col_map !! r = None) required.

(** [load_registration_csv]: [(df, col_map)], or [(None, message)]. *)
Definition load_registration_csv (filepath : string)
    (col_map_override : option (gmap string string))
  : DataFrame * gmap string string + string :=
  match read_csv_safe filepath with
  | inr err => inr err
  | inl df =>
      let col_map :=
        match col_map_override with
        | Some m => m
        | None => detect_registration_columns df
        end in
      let required := ["Email"; "Training date"] in
      let missing := missing_keys required col_map in
      match missing with
      | _ :: _ => inr ("Missing required columns: " +:+ Str.join ", " missing)
      | [] => inl (df, col_map)
      end
  end.

(** [load_zoom_csv] *)
Definition load_zoom_csv (filepath : string)
    (col_map_override : option (gmap string string))
  : DataFrame * gmap string string + string :=
  match read_csv_safe filepath with
  | inr err => inr err
  | inl df =>
      let col_map :=
        match col_map_override with
        | Some m => m
        | None => detect_zoom_columns df
        end in
      let required := ["Email"; "Duration"] in
      let missing := missing_keys required col_map in
      match missing with
      | _ :: _ => inr ("Missing required columns in Zoom CSV: " +:+ Str.join ", " missing)
      | [] => inl (df, col_map)
      end
  end.

(** *** processor.py *)

Record AttendanceResult : Type := mkResult {
  total_registrations : nat;
  total_zoom_participants : nat;
  matched_present : nat;
  matched_below_threshold : nat;
  not_found_in_zoom : nat;
  unmatched_zoom_emails : list string;
  output_filepath : string;
  errors : list string;
  warnings : list string
}.

(** [AttendanceResult()] with one message appended to [errors] *)
Definition failed (msg : string) : AttendanceResult :=
  mkResult 0 0 0 0 0 [] "" [msg] [].

(** [col_map[k]] *)
Definition dict_get (col_map : gmap string string) (k : string) : result string :=
  of_option (KeyError k) (col_map !! k).

(** [program_filter and program_filter != "All"] *)
Definition filter_given (program_filter : option string) : bool :=
  match program_filter with
  | Some p => negb (String.eqb p "") && negb (String.eqb p "All")
  | None => false
  end.

(** [.fillna("").astype(str)] on one cell *)
Definition coerce (v : cell) : cell := CStr (if isna v then "" else py_str v).

(** The key of the attendance field for [attendance_day]. *)
Definition att_col_key (attendance_day : Z) : string :=
  if (attendance_day =? 1)%Z then "Attendance - Day 1" else "Attendance - Day 2".

(** Step 2: the attendance column, created when its key is unmapped and
    coerced to strings in every row. *)
Definition attendance_column (reg_df : DataFrame) (reg_col_map : gmap string string)
    (attendance_day : Z)
  : result (DataFrame * gmap string string * string) :=
  let att_col_key := att_col_key attendance_day in
  let '(reg_df, reg_col_map) :=
    if not_in att_col_key reg_col_map then
      let att_col_name := "Attendance - Day " +:+ Str.of_Z attendance_day in
      (setitem_scalar reg_df att_col_name (CStr ""),
       <[att_col_key := att_col_name]> reg_col_map)
    else (reg_df, reg_col_map) in
  att_col_name ← dict_get reg_col_map att_col_key;
  col ← getitem reg_df att_col_name;
  Ok (setitem reg_df att_col_name (map coerce col), reg_col_map, att_col_name).

(** [x == selected_date] for one element of an object column *)
Definition eq_date (x : cell) (selected_date : date) : bool :=
  match x with
  | CDate d => bool_decide (d = selected_date)
  | _ => false
  end.

(** Step 3: the column names of the identities and the durations, and
    the working column [_normalized_email] of both frames. *)
Definition normalize_emails (reg_df : DataFrame) (reg_col_map : gmap string string)
    (zoom_df : DataFrame) (zoom_col_map : gmap string string)
  : result (DataFrame * DataFrame * string) :=
  email_col_reg ← dict_get reg_col_map "Email";
  email_col_zoom ← dict_get zoom_col_map "Email";
  duration_col_zoom ← dict_get zoom_col_map "Duration";
  emails ← getitem reg_df email_col_reg;
  let reg_df :=
    setitem reg_df "_normalized_email" (map (fun v => CStr (normalize_email v)) emails) in
  emails ← getitem zoom_df email_col_zoom;
  let zoom_df :=
    setitem zoom_df "_normalized_email" (map (fun v => CStr (normalize_email v)) emails) in
  Ok (reg_df, zoom_df, duration_col_zoom).

(** [program_filter and program_filter != "All" and 'Version' in reg_col_map] *)
Definition filter_applies (program_filter : option string)
    (reg_col_map : gmap string string) : bool :=
  filter_given program_filter && negb (not_in "Version" reg_col_map).

(** Step 4: the working column [_parsed_date] and the rows in scope. *)
Definition scope_rows (reg_df : DataFrame) (reg_col_map : gmap string string)
    (selected_date : date) (program_filter : option string)
  : result (DataFrame * list nat) :=
  date_col ← dict_get reg_col_map "Training date";
  dates ← getitem reg_df date_col;
  let reg_df :=
    setitem reg_df "_parsed_date" (map (fun v => cell_of_date (parse_date v)) dates) in
  parsed ← getitem reg_df "_parsed_date";
  let date_mask := map (fun x => eq_date x selected_date) parsed in
  date_mask ←
    (if filter_applies program_filter reg_col_map then
       version_col ← dict_get reg_col_map "Version";
       versions ← getitem reg_df version_col;
       let program_mask :=
         map (fun v => String.eqb (Str.strip (py_str v)) (default "" program_filter))
             versions in
       Ok (zip_with andb date_mask program_mask)
     else Ok date_mask);
  Ok (reg_df, where_ date_mask).

(** One row of the loop of [group_sum], the routine of pandas behind
    [groupby(...).sum()] on a float column: compensated (Kahan) summation,
    [sumx] the running sum and [compensation] the running error; a
    compensation that comes out as NaN (an infinite value was added) is
    put back to zero. *)
Definition kahan_step (acc : pyfloat * pyfloat) (val : pyfloat)
  : pyfloat * pyfloat :=
  let '(sumx, compensation) := acc in
  let y := Float.sub val compensation in
  let t := Float.add sumx y in
  let compensation := Float.sub (Float.sub t sumx) y in
  (t, if Float.is_nan compensation then Float.zero else compensation).

(** The sum of one group: missing values are skipped, the others are
    added up in row order by [kahan_step], starting from zero. *)
Definition series_sum (l : list pyfloat) : pyfloat :=
  (foldl kahan_step (Float.zero, Float.zero)
         (filter (fun x => Float.is_nan x = false) l)).1.

(** [groupby(key)[value].sum()] as [dict(zip(keys, sums))]: every key
    that occurs, with the sum of the values of its rows. *)
Fixpoint group_rows (keys : list string) (vals : list pyfloat)
  : gmap string (list pyfloat) :=
  match keys, vals with
  | k :: keys', v :: vals' =>
      let g := group_rows keys' vals' in
      <[k := v :: default [] (g !! k)]> g
  | _, _ => ∅
  end.
Definition groupby_sum (keys : list string) (vals : list pyfloat)
  : gmap string pyfloat :=
  series_sum <$> group_rows keys vals.

(** The string held by a cell of a working column. *)
Definition str_of (v : cell) : string :=
  match v with
  | CStr s => s
  | _ => ""
  end.

(** Step 5: the working columns [_normalized_email] and
    [_duration_minutes] of the participation log, and [zoom_dict]. *)
Definition aggregate (zoom_df : DataFrame) (duration_col_zoom : string)
  : result (list string * list pyfloat * gmap string pyfloat) :=
  durations ← getitem zoom_df duration_col_zoom;
  minutes ← mapM parse_duration_to_minutes durations;
  keys ← getitem zoom_df "_normalized_email";
  let keys := map str_of keys in
  Ok (keys, minutes, delete "" (groupby_sum keys minutes)).

Record counts : Type := mkCounts {
  present : nat;
  below_threshold : nat;
  not_found : nat
}.

(** Step 6, the body of the loop for the row [idx]. *)
Definition mark_row (zoom_dict : gmap string pyfloat) (min_duration : pyfloat)
    (att_col_name : string) (st : DataFrame * counts) (idx : nat)
  : result (DataFrame * counts) :=
  let '(reg_df, n) := st in
  email ← at_ reg_df idx "_normalized_email";
  let email := str_of email in
  if String.eqb email "" then
    Ok (set_at reg_df idx att_col_name (CStr "N"),
        mkCounts (present n) (below_threshold n) (S (not_found n)))
  else
    match zoom_dict !! email with
    | Some total_duration =>
        if Float.ge total_duration min_duration then
          Ok (set_at reg_df idx att_col_name (CStr "Y"),
              mkCounts (S (present n)) (below_threshold n) (not_found n))
        else
          Ok (set_at reg_df idx att_col_name (CStr "N"),
              mkCounts (present n) (S (below_threshold n)) (not_found n))
    | None =>
        Ok (set_at reg_df idx att_col_name (CStr "N"),
            mkCounts (present n) (below_threshold n) (S (not_found n)))
    end.

Fixpoint mark_rows (zoom_dict : gmap string pyfloat) (min_duration : pyfloat)
    (att_col_name : string) (st : DataFrame * counts) (indices : list nat)
  : result (DataFrame * counts) :=
  match indices with
  | [] => Ok st
  | idx :: indices' =>
      st' ← mark_row zoom_dict min_duration att_col_name st idx;
      mark_rows zoom_dict min_duration att_col_name st' indices'
  end.

(** Step 6b: the identities of the log that no row in scope carries. *)
Definition unmatched (reg_df : DataFrame) (filtered_indices : list nat)
    (zoom_dict : gmap string pyfloat) : result (list string) :=
  emails ← mapM (fun idx => at_ reg_df idx "_normalized_email") filtered_indices;
  let reg_emails_for_date : gset string :=
    list_to_set (filter (fun e => e ≠ "") (map str_of emails)) in
  Ok (merge_sort str_le
        (filter (fun email => email ∉ reg_emails_for_date)
                (map fst (map_to_list zoom_dict)))).
(** The local variables of [process_attendance] when step 7 starts. *)
Record run : Type := mkRun {
  att_col_name : string;
  scoped_df : DataFrame;             (* [reg_df] when the loop starts *)
  filtered_indices : list nat;
  zoom_keys : list string;           (* [zoom_df['_normalized_email']] *)
  zoom_minutes : list pyfloat;       (* [zoom_df['_duration_minutes']] *)
  zoom_dict : gmap string pyfloat;
  marked_df : DataFrame;             (* [reg_df] when the loop ends *)
  tally : counts;
  unmatched_emails : list string;
  output_df : DataFrame
}.

(** Steps 2 to 6b, and the table that step 7 writes. *)
Definition reconcile (reg_df : DataFrame) (reg_col_map : gmap string string)
    (zoom_df : DataFrame) (zoom_col_map : gmap string string)
    (selected_date : date) (attendance_day : Z)
    (program_filter : option string) (min_duration : pyfloat) : result run :=
  '(reg_df, reg_col_map, att_col_name) ←
    attendance_column reg_df reg_col_map attendance_day;
  '(reg_df, zoom_df, duration_col_zoom) ←
    normalize_emails reg_df reg_col_map zoom_df zoom_col_map;
  '(reg_df, filtered_indices) ←
    scope_rows reg_df reg_col_map selected_date program_filter;
  '(keys, minutes, zoom_dict) ← aggregate zoom_df duration_col_zoom;
  '(marked, n) ←
    mark_rows zoom_dict min_duration att_col_name (reg_df, mkCounts 0 0 0)
              filtered_indices;
  unmatched_zoom_emails ← unmatched marked filtered_indices zoom_dict;
  Ok (mkRun att_col_name reg_df filtered_indices keys minutes zoom_dict marked n
            unmatched_zoom_emails
            (drop marked ["_normalized_email"; "_parsed_date"])).

(** [d.strftime('%d-%m-%Y')] and [d.strftime('%Y-%m-%d')] *)
Definition strftime_dmy (d : date) : string :=
  Str.pad0 2 (day d) +:+ "-" +:+ Str.pad0 2 (month d) +:+ "-" +:+ Str.pad0 4 (year d).
Definition strftime_ymd (d : date) : string := isoformat d.

(** The warning of step 4 when no row is in scope. *)
Definition scope_warnings (total_registrations : nat) (selected_date : date)
    (program_filter : option string) : list string :=
  if total_registrations =? 0 then
    ["No registrations found for date " +:+ strftime_dmy selected_date
     +:+ (if filter_given program_filter
          then " and program '" +:+ default "" program_filter +:+ "'" else "")]
  else [].

(** The path of the output file. *)
Definition output_path (reg_filepath : string) (selected_date : date)
    (attendance_day : Z) (program_filter : option string)
    (output_dir : option string) : string :=
  let output_dir := default (path_dirname reg_filepath) output_dir in
  let date_str := strftime_ymd selected_date in
  let day_str := "Day" +:+ Str.of_Z attendance_day in
  let program_str :=
    if filter_given program_filter then "_" +:+ default "" program_filter else "" in
  let program_str := Str.replace_char "/" "-" (Str.replace_char " " "_" program_str) in
  let filename :=
    "attendance_output_" +:+ date_str +:+ "_" +:+ day_str +:+ program_str +:+ ".csv" in
  path_join output_dir filename.

(** Step 7: writing the table and closing the result. *)
Definition save_output (t : run) (output_path : string) (warnings : list string)
  : AttendanceResult :=
  let stats path errors :=
    mkResult (length (filtered_indices t)) (size (zoom_dict t))
             (present (tally t)) (below_threshold (tally t)) (not_found (tally t))
             (unmatched_emails t) path errors warnings in
  match to_csv (output_df t) output_path with
  | None => stats output_path []
  | Some e => stats "" ["Error saving output: " +:+ e]
  end.

(** [process_attendance] *)
Definition process_attendance (reg_filepath zoom_filepath : string)
    (selected_date : date) (attendance_day : Z)
    (program_filter : option string) (min_duration : pyfloat)
    (output_dir : option string)
    (reg_col_map_override zoom_col_map_override : option (gmap string string))
  : result AttendanceResult :=
  match load_registration_csv reg_filepath reg_col_map_override with
  | inr err => Ok (failed ("Registration CSV: " +:+ err))
  | inl (reg_df, reg_col_map) =>
      match load_zoom_csv zoom_filepath zoom_col_map_override with
      | inr err => Ok (failed ("Zoom CSV: " +:+ err))
      | inl (zoom_df, zoom_col_map) =>
          t ← reconcile reg_df reg_col_map zoom_df zoom_col_map selected_date
                attendance_day program_filter min_duration;
          Ok (save_output t
                (output_path reg_filepath selected_date attendance_day
                             program_filter output_dir)
                (scope_warnings (length (filtered_indices t)) selected_date
                                program_filter))
      end
  end.

End Engine.

(** ** The fixture of the test script *)

Module Fixture.

Definition strs (l : list string) : list cell := map CStr l.

Definition roster : DataFrame :=
  Frame.mk 10
    [("Participant Email",
      strs ["alice@example.com"; "Bob@Example.com"; "charlie@example.com";
            "diana@example.com"; " eve@example.com "; "frank@example.com";
            "grace@example.com"; "henry@example.com"; "ivan@example.com";
            "jack@example.com"]);
     ("Training Date",
      strs ["15-01-2025"; "15-01-2025"; "15/01/2025"; "2025-01-15"; "15-01-25";
            "16-01-2025"; "16-01-2025"; "15-01-2025"; "17-01-2025"; "15-01-2025"]);
     ("Attendance - Day 1", replicate 10 CNaN)].

Definition zoom : DataFrame :=
  Frame.mk 10
    [("User Email",
      strs ["alice@example.com"; "bob@example.com"; "BOB@example.com";
            "charlie@example.com"; "diana@example.com"; "eve@example.com";
            "henry@example.com"; "henry@example.com"; "jack@example.com";
            "unknown@random.com"]);
     ("Duration (Minutes)",
      [CInt 75; CInt 45; CInt 30; CStr "1:30:00"; CInt 55; CInt 62;
       CInt 59; CInt 5; CStr "2 hours"; CInt 80])].

Definition read (path : string) : DataFrame + string :=
  if String.eqb path "registration.csv" then inl roster
  else if String.eqb path "zoom.csv" then inl zoom
  else inr "Error reading file: not found".

(** A platform whose writes succeed, and one whose writes fail. *)
Definition platform (write : DataFrame -> string -> option string) : Platform :=
  {| float_repr := fun _ => "";
     to_datetime_dayfirst := fun _ => None;
     read_csv_safe := read;
     to_csv := write;
     path_dirname := fun _ => ".";
     path_join := fun a b => a +:+ "/" +:+ b |}.
Definition writable : Platform := platform (fun _ _ => None).
Definition read_only : Platform := platform (fun _ _ => Some "Permission denied").

Definition process (P : Platform) (program_filter : option string)
  : result AttendanceResult :=
  @process_attendance P "registration.csv" "zoom.csv" (Date 2025 1 15) 1
    program_filter (Float.of_Z_exact 60) None None None.

Definition roster_map : gmap string string :=
  {[ "Email" := "Participant Email"; "Training date" := "Training Date";
     "Attendance - Day 1" := "Attendance - Day 1" ]}.
Definition zoom_map : gmap string string :=
  {[ "Email" := "User Email"; "Duration" := "Duration (Minutes)" ]}.

(** Steps 2 to 6b on the two tables, for day 1 of 15 January 2025 and a
    threshold of 60 minutes. *)
Definition reconciled (program_filter : option string) : result run :=
  @reconcile writable roster roster_map zoom zoom_map (Date 2025 1 15) 1
    program_filter (Float.of_Z_exact 60).

Definition no_run : run :=
  mkRun "" (Frame.mk 0 []) [] [] [] ∅ (Frame.mk 0 []) (mkCounts 0 0 0) []
        (Frame.mk 0 []).

Definition the_run : run :=
  match reconciled None with
  | Ok t => t
  | Raise _ => no_run
  end.

End Fixture.

(** ** The classification in the words of the specification *)

Inductive verdict : Type := Present | BelowThreshold | NotFound.

#[global] Instance verdict_eq_dec : EqDecision verdict.
Proof. solve_decision. Defined.

(** The classification of an identity as the specification words it. *)
Definition verdict_of (zoom_dict : gmap string pyfloat) (min_duration : pyfloat)
    (identity : string) : verdict :=
  if decide (identity = "") then NotFound
  else match zoom_dict !! identity with
       | Some total => if Float.ge total min_duration then Present else BelowThreshold
       | None => NotFound
       end.

Definition mark_of (v : verdict) : string :=
  match v with
  | Present => "Y"
  | BelowThreshold | NotFound => "N"
  end.

Definition bump (v : verdict) (n : counts) : counts :=
  match v with
  | Present => mkCounts (S (present n)) (below_threshold n) (not_found n)
  | BelowThreshold => mkCounts (present n) (S (below_threshold n)) (not_found n)
  | NotFound => mkCounts (present n) (below_threshold n) (S (not_found n))
  end.

(** The normalized identity that row [idx] carries in [df]. *)
Definition identity (df : DataFrame) (idx : nat) : string :=
  match at_ df idx "_normalized_email" with
  | Ok v => str_of v
  | Raise _ => ""
  end.

(** How many rows of [indices] get the verdict [v]. *)
Definition tally_of (zoom_dict : gmap string pyfloat) (min_duration : pyfloat)
    (df : DataFrame) (v : verdict) (indices : list nat) : nat :=
  length (filter (fun idx => verdict_of zoom_dict min_duration (identity df idx) = v)
                 indices).

(** The durations of the rows of the log whose identity is [k], in row
    order. *)
Definition rows_of (k : string) (keys : list string) (vals : list pyfloat)
  : list pyfloat :=
  (filter (fun p : string * pyfloat => p.1 = k) (zip keys vals)).*2.


(** A row is in scope when its parsed date is the selected one and, where
    the program filter applies, its program, trimmed, is the filter. *)
Definition in_scope `{Platform} (df : DataFrame) (reg_col_map : gmap string string)
    (selected_date : date) (program_filter : option string) (i : nat) : Prop :=
  at_ df i "_parsed_date" = Ok (CDate selected_date) ∧
  (filter_applies program_filter reg_col_map = true →
   ∃ version_col v, reg_col_map !! "Version" = Some version_col ∧
     at_ df i version_col = Ok v ∧
     Str.strip (py_str v) = default "" program_filter).


(** The mapping a loader validates: the override, or what the resolver
    proposes. *)
Definition confirmed (detect : DataFrame → gmap string string)
    (col_map_override : option (gmap string string)) (df : DataFrame)
  : gmap string string :=
  match col_map_override with
  | Some m => m
  | None => detect df
  end.

(** The two spellings of [H] hours and [M] minutes. *)
Definition short_form (H M : nat) : string :=
  Str.of_nat H +:+ "h " +:+ Str.of_nat M +:+ "m".
Definition long_form (H M : nat) : string :=
  Str.of_nat H +:+ " hours " +:+ Str.of_nat M +:+ " minutes".

(** The total of an hour text and a minute text, as the third branch of
    [parse_duration_to_minutes] computes it. *)
Definition units_total (hours_text minutes_text : string) : result pyfloat :=
  total ← (h ← float_of_str hours_text;
           x ← float_mul_int h 60;
           int_add_float 0 x);
  x ← float_of_str minutes_text;
  Ok (Float.add total x).

(** [f >= 0] *)
Definition nonneg (f : pyfloat) : Prop := Float.ge f Float.zero = true.

(** The claim on durations as the specification states it. *)
Definition duration_never_negative : Prop :=
  ∀ v, ∃ f, parse_duration_to_minutes v = Ok f ∧ nonneg f.

(** What the pattern [\d+(?:\.\d+)?] can capture: digits, or digits, a
    point and digits. *)
Definition number_shape (g : string) : Prop :=
  ∃ c a, Str.is_digit c = true ∧ Str.all Str.is_digit a = true ∧
         (g = String c a ∨
          ∃ c' b, Str.is_digit c' = true ∧ Str.all Str.is_digit b = true ∧
                  g = String c a +:+ String "." (String c' b)).

(** A pattern without a capturing group. *)
Fixpoint groupless (r : Re.re) : bool :=
  match r with
  | Re.Grp _ _ => false
  | Re.Seq r1 r2 | Re.Alt r1 r2 => groupless r1 && groupless r2
  | _ => true
  end.


(** ** Two rosters at the edges of the column mapping *)

Module Edge.

(** A log with one participant, ninety minutes long. *)
Definition log : DataFrame :=
  Frame.mk 1 [("Email", [CStr "a@x.com"]); ("Duration", [CInt 90])].
Definition log_map : gmap string string :=
  {[ "Email" := "Email"; "Duration" := "Duration" ]}.


(** A roster that holds the marks of an earlier day-1 run for 16 January,
    and a mapping in which the user left the attendance field unmapped. *)
Definition marked_roster : DataFrame :=
  Frame.mk 2 [("Email", [CStr "a@x.com"; CStr "b@x.com"]);
              ("Training date", [CStr "15-01-2025"; CStr "16-01-2025"]);
              ("Attendance - Day 1", [CStr ""; CStr "Y"])].
Definition unmapped : gmap string string :=
  {[ "Email" := "Email"; "Training date" := "Training date" ]}.
Definition unmapped_run : result run :=
  @reconcile Fixture.writable marked_roster unmapped log log_map (Date 2025 1 15) 1
    None (Float.of_Z_exact 60).

End Edge.

(** * The other functions of the two modules *)

(** ** The loop bodies of the column resolvers *)

(** One turn of the loop of [detect_registration_columns]. *)
Definition registration_step (col_map : gmap string string) (col : string)
  : gmap string string :=
  let col_lower := Str.strip (Str.lower col) in
  if Str.contains "email" col_lower && not_in "Email" col_map
  then <["Email" := col]> col_map
  else if (Str.contains "training date" col_lower
           || Str.contains "training_date" col_lower)
          && not_in "Training date" col_map
  then <["Training date" := col]> col_map
  else if Str.contains "attendance" col_lower && Str.contains "day 1" col_lower
          && not_in "Attendance - Day 1" col_map
  then <["Attendance - Day 1" := col]> col_map
  else if Str.contains "attendance" col_lower && Str.contains "day 2" col_lower
          && not_in "Attendance - Day 2" col_map
  then <["Attendance - Day 2" := col]> col_map
  else if (String.eqb col_lower "name" || String.eqb col_lower "participant name")
          && not_in "Name" col_map
  then <["Name" := col]> col_map
  else if (Str.contains "version" col_lower || Str.contains "program" col_lower)
          && not_in "Version" col_map
  then <["Version" := col]> col_map
  else col_map.

(** One turn of the loop of [detect_zoom_columns]. *)
Definition zoom_step (col_map : gmap string string) (col : string)
  : gmap string string :=
  let col_lower := Str.strip (Str.lower col) in
  if Str.contains "email" col_lower && not_in "Email" col_map
  then <["Email" := col]> col_map
  else if Str.contains "duration" col_lower && not_in "Duration" col_map
  then <["Duration" := col]> col_map
  else if Str.contains "name" col_lower && not_in "Name" col_map
  then <["Name" := col]> col_map
  else col_map.

(** The keys of [REGISTRATION_FIELDS] and of [ZOOM_FIELDS]. *)
Definition registration_keys : list string :=
  ["Email"; "Training date"; "Attendance - Day 1"; "Attendance - Day 2";
   "Name"; "Version"].
Definition zoom_keys_std : list string := ["Email"; "Duration"; "Name"].

(** [kw in col.lower().strip()] *)
Definition mentions (kw col : string) : bool :=
  Str.contains kw (Str.strip (Str.lower col)).

(** ** utils.py: the helpers that fill the program and date lists *)

#[global] Instance time_eq_dec : EqDecision time.
Proof. solve_decision. Defined.

(** [x == y] for two floats *)
Definition float_eqb (x y : pyfloat) : bool :=
  match x, y with
  | FFin a, FFin b => Qeq_bool a b
  | FInf a, FInf b => Bool.eqb a b
  | _, _ => false
  end.

(** [a == b] for two values of a column: numbers compare by value, a
    date and a datetime are never equal. *)
Definition cell_eqb (a b : cell) : bool :=
  match a, b with
  | CNone, CNone => true
  | CStr s, CStr t => String.eqb s t
  | CInt x, CInt y => Z.eqb x y
  | CInt x, CFloat f | CFloat f, CInt x => float_eqb (FFin (inject_Z x)) f
  | CFloat f, CFloat g => float_eqb f g
  | CDate d, CDate e => bool_decide (d = e)
  | CDatetime d t, CDatetime e u => bool_decide (d = e) && bool_decide (t = u)
  | _, _ => false
  end.

(** [s.dropna()] *)
Definition dropna (l : list cell) : list cell :=
  filter (fun v => isna v = false) l.

(** [s.unique()]: one value of each class of equal values, in the order
    of first appearance. *)
Fixpoint series_unique (l : list cell) : list cell :=
  match l with
  | [] => []
  | x :: l' => x :: filter (fun y => cell_eqb x y = false) (series_unique l')
  end.

(** The order of [sorted] on dates. *)
Definition date_le (a b : date) : Prop :=
  (year a < year b ∨
   year a = year b ∧ (month a < month b ∨ month a = month b ∧ day a <= day b))%Z.
#[global] Instance date_le_dec a b : Decision (date_le a b).
Proof. unfold date_le. apply _. Defined.

Definition date_lt (a b : date) : Prop := date_le a b ∧ a ≠ b.

Section Lists.
Context `{Platform}.

(** [get_unique_programs] *)
Definition get_unique_programs (df : DataFrame) (col_map : gmap string string)
  : result (list string) :=
  if not_in "Version" col_map then Ok []
  else
    version_col ← dict_get col_map "Version";
    versions ← getitem df version_col;
    let programs := series_unique (dropna versions) in
    Ok (merge_sort str_le (map py_str programs)).

(** [get_unique_dates] *)
Definition get_unique_dates (df : DataFrame) (col_map : gmap string string)
  : result (list date) :=
  date_col ← dict_get col_map "Training date";
  values ← getitem df date_col;
  let dates := omap parse_date (series_unique (dropna values)) in
  Ok (merge_sort date_le (remove_dups dates)).

End Lists.

(** ** processor.py: what the caller reads off the result *)

(** [AttendanceResult.success] *)
Definition success (r : AttendanceResult) : bool := length (errors r) =? 0.

Section FileName.
Context `{Platform}.

(** The name of the output file, [filename] in step 7. *)
Definition output_filename (selected_date : date) (attendance_day : Z)
    (program_filter : option string) : string :=
  let date_str := strftime_ymd selected_date in
  let day_str := "Day" +:+ Str.of_Z attendance_day in
  let program_str :=
    if filter_given program_filter then "_" +:+ default "" program_filter else "" in
  let program_str := Str.replace_char "/" "-" (Str.replace_char " " "_" program_str) in
  "attendance_output_" +:+ date_str +:+ "_" +:+ day_str +:+ program_str +:+ ".csv".

End FileName.

(** ** column_mapping_dialog.py: the decisions of the mapping dialog *)

(** An entry of [REGISTRATION_FIELDS] or [ZOOM_FIELDS]. *)
Record field_spec : Type := Field {
  spec_key : string;
  spec_label : string;
  spec_required : bool
}.

Definition REGISTRATION_FIELDS : list field_spec :=
  [Field "Email" "Email *" true;
   Field "Training date" "Training Date *" true;
   Field "Attendance - Day 1" "Attendance - Day 1" false;
   Field "Attendance - Day 2" "Attendance - Day 2" false;
   Field "Name" "Name" false;
   Field "Version" "Version / Program" false].

Definition ZOOM_FIELDS : list field_spec :=
  [Field "Email" "Email *" true;
   Field "Duration" "Duration *" true;
   Field "Name" "Name" false].

Definition NOT_MAPPED : string := "-- Not Mapped --".

(** What the combobox of a field shows after the dialog is built and
    after [_reset_auto_detect]: the detected column when there is one
    among the columns of the file. *)
Definition prefill (csv_columns : list string) (auto_detected : gmap string string)
    (k : string) : string :=
  match auto_detected !! k with
  | Some auto_value =>
      if negb (String.eqb auto_value "") && bool_decide (auto_value ∈ csv_columns)
      then auto_value else NOT_MAPPED
  | None => NOT_MAPPED
  end.

(** [_on_confirm]: the mapping built from the selections [combo]. *)
Definition on_confirm (field_specs : list field_spec) (combo : string -> string)
  : gmap string string :=
  foldl (fun col_map spec =>
           let val := combo (spec_key spec) in
           if negb (String.eqb val NOT_MAPPED)
           then <[spec_key spec := val]> col_map else col_map)
        ∅ field_specs.

(** The required fields that [_update_status] finds unmapped, and the
    state it gives the confirm button: disabled when there is one. *)
Definition missing_required (field_specs : list field_spec) (combo : string -> string)
  : list field_spec :=
  filter (fun spec => spec_required spec = true
                      ∧ combo (spec_key spec) = NOT_MAPPED) field_specs.
Definition confirm_enabled (field_specs : list field_spec) (combo : string -> string)
  : bool :=
  bool_decide (missing_required field_specs combo = []).

(** ** The spellings of a date that [parse_date] lists

    Day, month and year in two, two and four digits (two for the short
    year), with one separator. *)
Definition date_text (sep : ascii) (a b c : string) : string :=
  a +:+ String sep (b +:+ String sep c).
Definition day_first (sep : ascii) (d : date) : string :=
  date_text sep (Str.pad0 2 (day d)) (Str.pad0 2 (month d)) (Str.pad0 4 (year d)).
Definition year_first (sep : ascii) (d : date) : string :=
  date_text sep (Str.pad0 4 (year d)) (Str.pad0 2 (month d)) (Str.pad0 2 (day d)).
Definition month_first (sep : ascii) (d : date) : string :=
  date_text sep (Str.pad0 2 (month d)) (Str.pad0 2 (day d)) (Str.pad0 4 (year d)).
Definition short_year (sep : ascii) (d : date) : string :=
  date_text sep (Str.pad0 2 (day d)) (Str.pad0 2 (month d))
            (Str.pad0 2 (year d mod 100)).


(** * Properties *)

(** ** The parsers and the engine on concrete inputs *)

Example float_tenth :
  Float.of_string "0.1" = Some (FFin (3602879701896397 # 36028797018963968)).
Proof. vm_compute. reflexivity. Qed.

Example float_big : Float.of_string "1e400" = Some (FInf false).
Proof. vm_compute. reflexivity. Qed.

Example float_max : Float.of_string "1.7976931348623157e308" =
  Some (FFin (inject_Z ((2^53 - 1) * 2 ^ 971))).
Proof. vm_compute. reflexivity. Qed.

Example float_max_tie : Float.of_string "1.7976931348623159e308" = Some (FInf false).
Proof. vm_compute. reflexivity. Qed.

Example float_denorm : Float.of_string "5e-324" = Some (FFin (1 # Z.to_pos (2^1074))).
Proof. vm_compute. reflexivity. Qed.

Example float_denorm0 : Float.of_string "2e-324" = Some (FFin 0).
Proof. vm_compute. reflexivity. Qed.

Example float_53 : Float.of_string "9007199254740993" = Some (FFin (inject_Z 9007199254740992)).
Proof. vm_compute. reflexivity. Qed.

Example float_us : Float.of_string "1_000.5" = Some (FFin (2001 # 2)).
Proof. vm_compute. reflexivity. Qed.

Example float_bad : map Float.of_string ["1_"; "_1"; "."; "1e"; "1 2"; "1__0"; ""; "5."; ".5"; "-5"; "+.5e1"; "NaN"; "-Infinity"]
  = [None; None; None; None; None; None; None; Some (FFin 5); Some (FFin (1#2)); Some (FFin (-5)); Some (FFin 5); Some FNaN; Some (FInf true)].
Proof. vm_compute. reflexivity. Qed.

(** Three stays of 19:01, 20:05 and 20:54 add up to the hour: the
    compensated sum is 60, where adding the three floats one after the
    other gives the float just below. *)
Example compensated_sum :
  (minutes ← mapM parse_duration_to_minutes
                  [CStr "19:01"; CStr "20:05"; CStr "20:54"];
   Ok (series_sum minutes, Float.ge (foldl Float.add Float.zero minutes)
                                    (Float.of_Z_exact 60)))
  = Ok (Float.of_Z_exact 60, false).
Proof. vm_compute. reflexivity. Qed.

Example duration_tests :
  map parse_duration_to_minutes
      [CInt 75; CStr "45"; CStr "1:30:00"; CStr "55"; CStr "1h 30m";
       CStr "90 minutes"; CStr "2 hours"; CNone; CStr "1.5 hr"; CStr "abc";
       CStr "about 7 of them"; CStr "2:00"; CStr "-5"; CStr "1 H 5 MINS"]
  = map (fun z => Ok (Float.of_Z_exact z)) [75; 45; 90; 55; 90; 90; 120; 0; 90; 0; 7; 2; -5; 65]%Z.
Proof. vm_compute. reflexivity. Qed.

Example strptime_tests :
  map (fun s => Strptime.strptime s [Strptime.Dd; Strptime.Lit "-"; Strptime.Dm; Strptime.Lit "-"; Strptime.DY])
      ["15-01-2025"; "5-1-2025"; "31-02-2025"; "29-02-2024"; "15-01-20255"; "15-01-25"; "2025-01-15"; "00-01-2025"; "15-01-0000"]
  = [Some (Date 2025 1 15); Some (Date 2025 1 5); None; Some (Date 2024 2 29); None; None; None; None; None].
Proof. vm_compute. reflexivity. Qed.

Example strptime_names :
  map (fun s => Strptime.strptime s [Strptime.Dd; Strptime.Spaces; Strptime.DB; Strptime.Spaces; Strptime.DY])
      ["15 June 2025"; "15  SEPTEMBER 2025"; "15 Jun 2025"; "1 may 1999"]
  = [Some (Date 2025 6 15); Some (Date 2025 9 15); None; Some (Date 1999 5 1)].
Proof. vm_compute. reflexivity. Qed.

Example by_length_names : Strptime.by_length Strptime.month_name =
  ["september"; "february"; "november"; "december"; "january"; "october";
   "august"; "march"; "april"; "june"; "july"; "may"].
Proof. vm_compute. reflexivity. Qed.

Example fixture_run :
  Fixture.process Fixture.writable None =
  Ok (mkResult 7 8 6 1 0 ["unknown@random.com"]
               "./attendance_output_2025-01-15_Day1.csv" [] []).
Proof. vm_compute. reflexivity. Qed.

(** ** Data frames: reading after writing *)

Section FrameFacts.
Implicit Types (df : DataFrame) (c : string) (vals : list cell) (v : cell).

Lemma find_put_eq c vals l : find_col c (put_col c vals l) = Some vals.
Proof.
  induction l as [|[c' vals'] l IH]; simpl.
  - by rewrite String.eqb_refl.
  - destruct (String.eqb_spec c' c); simpl.
    + by rewrite String.eqb_refl.
    + by destruct (String.eqb_spec c' c).
Qed.

Lemma find_put_ne c c' vals l :
  c ≠ c' → find_col c' (put_col c vals l) = find_col c' l.
Proof.
  intros Hne. induction l as [|[c0 vals0] l IH]; simpl.
  - by destruct (String.eqb_spec c c').
  - destruct (String.eqb_spec c0 c) as [->|]; simpl.
    + destruct (String.eqb_spec c c'); done.
    + destruct (String.eqb_spec c0 c'); done.
Qed.

Lemma getitem_setitem_eq df c vals : getitem (setitem df c vals) c = Ok vals.
Proof. unfold getitem, setitem; simpl. by rewrite find_put_eq. Qed.

Lemma getitem_setitem_ne df c c' vals :
  c ≠ c' → getitem (setitem df c vals) c' = getitem df c'.
Proof.
  intros Hne. unfold getitem, setitem; simpl. by rewrite find_put_ne.
Qed.

Lemma getitem_find df c vals : getitem df c = Ok vals ↔ find_col c (cols df) = Some vals.
Proof.
  unfold getitem. destruct (find_col c (cols df)); simpl; split; congruence.
Qed.

Lemma find_set_at df i c v c' :
  find_col c' (cols (set_at df i c v)) =
  if String.eqb c' c then (fun l => <[i := v]> l) <$> find_col c' (cols df)
  else find_col c' (cols df).
Proof.
  unfold set_at; simpl.
  induction (cols df) as [|[c0 vals0] l IH]; simpl.
  - by destruct (String.eqb c' c).
  - destruct (String.eqb_spec c0 c) as [->|Hc0]; simpl.
    + destruct (String.eqb_spec c c') as [->|Hcc'].
      * by rewrite String.eqb_refl.
      * exact IH.
    + destruct (String.eqb_spec c0 c') as [->|Hc0'].
      * by destruct (String.eqb_spec c' c).
      * exact IH.
Qed.

Lemma at_set_at_other df i j c c' v :
  i ≠ j → at_ (set_at df j c v) i c' = at_ df i c'.
Proof.
  intros Hij. unfold at_, getitem. rewrite find_set_at.
  destruct (String.eqb c' c); [|done].
  destruct (find_col c' (cols df)) as [l|]; simpl; [|done].
  by rewrite list_lookup_insert_ne.
Qed.

Lemma at_set_at_column df i j c c' v :
  c' ≠ c → at_ (set_at df j c v) i c' = at_ df i c'.
Proof.
  intros Hc. unfold at_, getitem. rewrite find_set_at.
  by destruct (String.eqb_spec c' c).
Qed.

Lemma at_set_at_same df i c v old :
  at_ df i c = Ok old → at_ (set_at df i c v) i c = Ok v.
Proof.
  unfold at_, getitem. rewrite find_set_at, String.eqb_refl.
  destruct (find_col c (cols df)) as [l|]; simpl; [|done].
  destruct (l !! i) eqn:Hl; simpl; [|done]. intros _.
  rewrite list_lookup_insert_eq; [done|]. by eapply lookup_lt_Some.
Qed.

Lemma find_drop df names c :
  find_col c (cols (drop df names)) =
  if bool_decide (c ∈ names) then None else find_col c (cols df).
Proof.
  unfold drop; simpl.
  induction (cols df) as [|[c0 vals0] l IH]; simpl.
  - by case_bool_decide.
  - rewrite filter_cons; simpl. destruct (decide (c0 ∉ names)) as [Hin|Hin]; simpl.
    + destruct (String.eqb_spec c0 c) as [->|]; [|done].
      by rewrite bool_decide_eq_false_2.
    + destruct (String.eqb_spec c0 c) as [->|]; [|done].
      rewrite IH. case_bool_decide; [done|]. by destruct Hin.
Qed.

Lemma where_from_elem mask i k :
  k ∈ where_from i mask ↔ ∃ j, k = i + j ∧ mask !! j = Some true.
Proof.
  revert i. induction mask as [|b mask IH]; intros i; simpl.
  - split; [by intros ?%elem_of_nil | by intros (j & _ & ?)].
  - assert (k ∈ where_from (S i) mask ↔ ∃ j, k = i + S j ∧ mask !! j = Some true) as IH'.
    { rewrite IH. by setoid_rewrite Nat.add_succ_r. }
    destruct b.
    + rewrite elem_of_cons, IH'. split.
      * intros [->|(j & -> & Hj)]; [exists 0 | exists (S j)]; split; by try lia.
      * intros ([|j] & -> & Hj); [left; lia | right; eauto].
    + rewrite IH'. split.
      * intros (j & -> & Hj). by exists (S j).
      * intros ([|j] & -> & Hj); [done | eauto].
Qed.

Lemma where_elem mask k : k ∈ where_ mask ↔ mask !! k = Some true.
Proof.
  unfold where_. rewrite where_from_elem. split.
  - by intros (j & -> & Hj).
  - intros Hk. by exists k.
Qed.

Lemma where_from_lower mask i k : k ∈ where_from i mask → i ≤ k.
Proof. rewrite where_from_elem. intros (j & -> & _). lia. Qed.

Lemma where_from_NoDup mask i : NoDup (where_from i mask).
Proof.
  revert i. induction mask as [|b mask IH]; intros i; simpl; [constructor|].
  destruct b; [|done]. constructor; [|done].
  intros Hin%where_from_lower. lia.
Qed.

Lemma where_NoDup mask : NoDup (where_ mask).
Proof. apply where_from_NoDup. Qed.

End FrameFacts.

(** ** The result monad *)

Lemma bind_Ok {A B} (m : result A) (f : A → result B) (b : B) :
  m ≫= f = Ok b ↔ ∃ a, m = Ok a ∧ f a = Ok b.
Proof.
  destruct m as [a|e]; simpl; split.
  - intros Hf. by exists a.
  - by intros (a' & [= ->] & Hf).
  - done.
  - by intros (a' & ? & _).
Qed.

Lemma of_option_Ok {A} (e : exn) (o : option A) (a : A) :
  of_option e o = Ok a ↔ o = Some a.
Proof. destruct o; simpl; split; congruence. Qed.

(** Splits a hypothesis [x ← m; k = Ok r] into the results of its steps. *)
Ltac inv_bind H :=
  repeat match type of H with
         | (_ ≫= _) = Ok _ =>
             let x := fresh "x" in
             let Hx := fresh "H" x in
             apply bind_Ok in H as (x & Hx & H)
         | (let '(_, _) := ?p in _) = Ok _ => destruct p
         end.

(** ** Step 6: the marks and the tallies *)

Section Marking.
Variables (zoom_dict : gmap string pyfloat) (min_duration : pyfloat) (att : string).

Lemma mark_row_spec df n idx df' n' :
  mark_row zoom_dict min_duration att (df, n) idx = Ok (df', n') →
  ∃ v, at_ df idx "_normalized_email" = Ok v ∧
       let w := verdict_of zoom_dict min_duration (str_of v) in
       df' = set_at df idx att (CStr (mark_of w)) ∧ n' = bump w n.
Proof.
  unfold mark_row. intros Hrow. inv_bind Hrow. exists x. split; [done|].
  unfold verdict_of. simpl.
  destruct (String.eqb_spec (str_of x) "") as [He|He].
  - rewrite decide_True by done. by injection Hrow as <- <-.
  - rewrite decide_False by done.
    destruct (zoom_dict !! str_of x) as [total|].
    + destruct (Float.ge total min_duration); by injection Hrow as <- <-.
    + by injection Hrow as <- <-.
Qed.

Lemma identity_set_at_other df i j c v :
  i ≠ j → identity (set_at df j c v) i = identity df i.
Proof. intros Hij. unfold identity. by rewrite at_set_at_other. Qed.

Lemma tally_of_ext df df' v indices :
  (∀ i, i ∈ indices → identity df' i = identity df i) →
  tally_of zoom_dict min_duration df' v indices
  = tally_of zoom_dict min_duration df v indices.
Proof.
  unfold tally_of. intros Hext. f_equal.
  induction indices as [|i indices IH]; [done|].
  rewrite !filter_cons, Hext by left.
  rewrite IH; [done|]. intros j Hj. apply Hext. by right.
Qed.

Lemma tally_of_cons df v i indices :
  tally_of zoom_dict min_duration df v (i :: indices)
  = (if decide (verdict_of zoom_dict min_duration (identity df i) = v) then 1 else 0)
    + tally_of zoom_dict min_duration df v indices.
Proof. unfold tally_of. rewrite filter_cons. by case_decide. Qed.

(** The loop of step 6 over distinct rows: what it leaves alone, what it
    writes, and what it counts. *)
Lemma mark_rows_spec indices : ∀ df n df' n',
  NoDup indices →
  mark_rows zoom_dict min_duration att (df, n) indices = Ok (df', n') →
  (∀ i c, i ∉ indices → at_ df' i c = at_ df i c) ∧
  (∀ c, c ≠ att → find_col c (cols df') = find_col c (cols df)) ∧
  (∀ i old, i ∈ indices → at_ df i att = Ok old →
     at_ df' i att
     = Ok (CStr (mark_of (verdict_of zoom_dict min_duration (identity df i))))) ∧
  (∀ i, i ∈ indices → ∃ e, at_ df i "_normalized_email" = Ok e) ∧
  present n' = present n + tally_of zoom_dict min_duration df Present indices ∧
  below_threshold n'
  = below_threshold n + tally_of zoom_dict min_duration df BelowThreshold indices ∧
  not_found n' = not_found n + tally_of zoom_dict min_duration df NotFound indices.
Proof.
  induction indices as [|idx indices IH]; intros df n df' n' Hnd Hrun.
  - injection Hrun as <- <-. unfold tally_of; simpl.
    repeat split; try done; try lia.
    + by intros i old ?%elem_of_nil.
    + by intros i ?%elem_of_nil.
  - apply NoDup_cons in Hnd as [Hidx Hnd]. simpl in Hrun.
    apply bind_Ok in Hrun as ([df1 n1] & Hrow & Hrun).
    apply mark_row_spec in Hrow as (v & Hv & Hdf1 & Hn1). simpl in Hdf1, Hn1.
    assert (identity df idx = str_of v) as Hid by (unfold identity; by rewrite Hv).
    rewrite <- Hid in Hdf1, Hn1.
    destruct (IH _ _ _ _ Hnd Hrun) as (Hout & Hcol & Hmark & Hemail & Hp & Hb & Hf).
    assert (∀ i, i ∈ indices → identity df1 i = identity df i) as Hsame.
    { intros i Hi. subst df1. apply identity_set_at_other. by intros ->. }
    rewrite !(tally_of_ext df df1) in * by done.
    rewrite !tally_of_cons.
    split; [|split; [|split; [|split]]].
    + intros i c Hi. apply not_elem_of_cons in Hi as [Hne Hi].
      rewrite Hout by done. subst df1. by apply at_set_at_other.
    + intros c Hc. rewrite Hcol by done. subst df1. rewrite find_set_at.
      by destruct (String.eqb_spec c att).
    + intros i old Hi Hold. apply elem_of_cons in Hi as [->|Hi].
      * rewrite Hout by done. subst df1. by eapply at_set_at_same.
      * rewrite <- (Hsame i Hi). apply (Hmark i old Hi).
        subst df1. rewrite at_set_at_other; [done|]. by intros ->.
    + intros i Hi. apply elem_of_cons in Hi as [->|Hi]; [by exists v|].
      destruct (Hemail i Hi) as [e He]. exists e. rewrite <- He. subst df1.
      symmetry. apply at_set_at_other. by intros ->.
    + rewrite Hp, Hb, Hf, Hn1.
      destruct (verdict_of zoom_dict min_duration (identity df idx));
        simpl; repeat case_decide; try done; repeat split; lia.
Qed.

End Marking.

(** ** The stages of [process_attendance] *)

Lemma mapM_Ok {A B} (f : A → result B) (l : list A) (k : list B) :
  mapM f l = Ok k ↔ Forall2 (fun x y => f x = Ok y) l k.
Proof.
  revert k. induction l as [|x l IH]; intros k; simpl.
  - split; [intros [= <-]; constructor | by intros ->%Forall2_nil_inv_l].
  - split.
    + intros Hm. apply bind_Ok in Hm as (y & Hy & Hm).
      apply bind_Ok in Hm as (k' & Hk' & Hm). injection Hm as <-.
      constructor; [done | by apply IH].
    + intros (y & k' & Hy & Hk' & ->)%Forall2_cons_inv_l.
      apply bind_Ok. exists y. split; [done|].
      apply bind_Ok. exists k'. split; [by apply IH | done].
Qed.

Lemma rectangular_find df c vals :
  rectangular df → find_col c (cols df) = Some vals → length vals = nrows df.
Proof.
  unfold rectangular. induction (cols df) as [|[c' vals'] l IH]; simpl; [done|].
  intros [Hlen Hl]%Forall_cons. destruct (String.eqb c' c); [|by auto].
  by intros [= <-].
Qed.

Lemma rectangular_setitem df c vals :
  rectangular df → length vals = nrows df → rectangular (setitem df c vals).
Proof.
  unfold rectangular, setitem; simpl. intros Hrect Hlen.
  induction (cols df) as [|[c' vals'] l IH]; simpl.
  - by repeat constructor.
  - apply Forall_cons in Hrect as [Hc' Hl].
    destruct (String.eqb c' c); constructor; auto.
Qed.

Section Stages.
Context `{Platform}.

Lemma attendance_column_spec reg_df reg_col_map attendance_day df2 cm2 att :
  attendance_column reg_df reg_col_map attendance_day = Ok (df2, cm2, att) →
  let key := att_col_key attendance_day in
  let created := "Attendance - Day " +:+ Str.of_Z attendance_day in
  let df1 := if not_in key reg_col_map
             then setitem_scalar reg_df created (CStr "") else reg_df in
  cm2 = (if not_in key reg_col_map then <[key := created]> reg_col_map
         else reg_col_map) ∧
  cm2 !! key = Some att ∧
  ∃ col, getitem df1 att = Ok col ∧ df2 = setitem df1 att (map coerce col).
Proof.
  unfold attendance_column. intros Hatt. simpl.
  destruct (not_in (att_col_key attendance_day) reg_col_map);
    inv_bind Hatt; injection Hatt as <- <- <-;
    apply of_option_Ok in Hx; (split; [done|]); (split; [done|]); by exists x0.
Qed.

Lemma attendance_column_other_keys reg_df reg_col_map attendance_day df2 cm2 att k :
  attendance_column reg_df reg_col_map attendance_day = Ok (df2, cm2, att) →
  k ≠ att_col_key attendance_day → cm2 !! k = reg_col_map !! k.
Proof.
  intros (-> & _)%attendance_column_spec Hk.
  destruct (not_in _ _); [|done]. by rewrite lookup_insert_ne.
Qed.

Lemma attendance_column_rectangular reg_df reg_col_map attendance_day df2 cm2 att :
  rectangular reg_df →
  attendance_column reg_df reg_col_map attendance_day = Ok (df2, cm2, att) →
  rectangular df2 ∧ nrows df2 = nrows reg_df ∧
  ∃ col, getitem df2 att = Ok col.
Proof.
  intros Hrect (_ & _ & col & Hcol & ->)%attendance_column_spec.
  set (df1 := if not_in _ _ then _ else _) in *.
  assert (rectangular df1 ∧ nrows df1 = nrows reg_df) as [Hrect1 Hn1].
  { subst df1. destruct (not_in _ _); [|done]. split; [|done].
    apply rectangular_setitem; [done|]. by rewrite length_replicate. }
  split; [|split].
  - apply rectangular_setitem; [done|]. rewrite length_map.
    eapply rectangular_find; [done|]. by apply getitem_find.
  - done.
  - eexists. apply getitem_setitem_eq.
Qed.

Lemma normalize_emails_spec reg_df reg_col_map zoom_df zoom_col_map df3 zdf3 dcol :
  normalize_emails reg_df reg_col_map zoom_df zoom_col_map = Ok (df3, zdf3, dcol) →
  ∃ ecol zecol emails zemails,
    reg_col_map !! "Email" = Some ecol ∧ zoom_col_map !! "Email" = Some zecol ∧
    zoom_col_map !! "Duration" = Some dcol ∧
    getitem reg_df ecol = Ok emails ∧ getitem zoom_df zecol = Ok zemails ∧
    df3 = setitem reg_df "_normalized_email"
            (map (fun v => CStr (normalize_email v)) emails) ∧
    zdf3 = setitem zoom_df "_normalized_email"
             (map (fun v => CStr (normalize_email v)) zemails).
Proof.
  unfold normalize_emails, dict_get. intros Hn. inv_bind Hn.
  injection Hn as <- <- <-. apply of_option_Ok in Hx, Hx0, Hx1.
  by exists x, x0, x2, x3.
Qed.

(** The rows in scope in the words of the specification: the parsed date
    is the selected one and, when the filter applies, the trimmed program
    is the filter. *)
Lemma scope_rows_spec reg_df reg_col_map selected_date program_filter df4 indices :
  scope_rows reg_df reg_col_map selected_date program_filter = Ok (df4, indices) →
  ∃ date_col dates,
    reg_col_map !! "Training date" = Some date_col ∧
    getitem reg_df date_col = Ok dates ∧
    df4 = setitem reg_df "_parsed_date"
            (map (fun v => cell_of_date (parse_date v)) dates) ∧
    NoDup indices ∧
    ∀ i, i ∈ indices ↔
         (∃ v, dates !! i = Some v ∧ parse_date v = Some selected_date) ∧
         (filter_applies program_filter reg_col_map = true →
          ∃ version_col v, reg_col_map !! "Version" = Some version_col ∧
            at_ df4 i version_col = Ok v ∧
            Str.strip (py_str v) = default "" program_filter).
Proof.
  unfold scope_rows, dict_get. intros Hs. inv_bind Hs.
  apply of_option_Ok in Hx. rewrite getitem_setitem_eq in Hx1. injection Hx1 as <-.
  injection Hs as <- <-. exists x, x0. split; [done|]. split; [done|].
  split; [done|]. split; [apply where_NoDup|].
  assert (∀ i, map (fun x => eq_date x selected_date)
                   (map (fun v => cell_of_date (parse_date v)) x0) !! i = Some true
               ↔ ∃ v, x0 !! i = Some v ∧ parse_date v = Some selected_date) as Hdate.
  { intros i. rewrite !list_lookup_fmap. destruct (x0 !! i) as [v|]; simpl.
    - split.
      + intros [= Heq]. exists v. split; [done|].
        destruct (parse_date v) as [d|]; simpl in Heq; [|done].
        by apply bool_decide_eq_true in Heq as ->.
      + intros (v' & [= <-] & ->). simpl. by rewrite bool_decide_eq_true_2.
    - split; [done | by intros (? & ? & _)]. }
  intros i. rewrite where_elem.
  destruct (filter_applies program_filter reg_col_map) eqn:Hf.
  - apply bind_Ok in Hx2 as (vcol & Hvcol & Hx2).
    apply bind_Ok in Hx2 as (versions & Hversions & Hx2).
    apply of_option_Ok in Hvcol. injection Hx2 as <-.
    rewrite lookup_zip_with_Some. split.
    + intros (b1 & b2 & Hb & Hb1 & Hb2). symmetry in Hb.
      apply andb_true_iff in Hb as [-> ->].
      rewrite list_lookup_fmap in Hb2.
      destruct (versions !! i) as [v|] eqn:Hv; simpl in Hb2; [|done].
      injection Hb2 as Hb2.
      split; [by apply Hdate|]. intros _. exists vcol, v. split; [done|].
      split; [|by apply String.eqb_eq].
      unfold at_. rewrite Hversions. simpl. by rewrite Hv.
    + intros [Hd Hp]. apply Hdate in Hd.
      destruct (Hp eq_refl) as (vc & v & Hvc & Hat & Hstrip).
      rewrite Hvcol in Hvc. injection Hvc as <-.
      unfold at_ in Hat. rewrite Hversions in Hat. simpl in Hat.
      exists true, true. split; [done|]. split; [done|].
      rewrite list_lookup_fmap. destruct (versions !! i) as [v'|]; simpl in *; [|done].
      injection Hat as ->. by rewrite Hstrip, String.eqb_refl.
  - injection Hx2 as <-. rewrite Hdate. split; [by intros ? | by intros []].
Qed.

End Stages.

(** ** Steps 5 and 6b *)

#[global] Instance str_le_total : Total str_le.
Proof. intros a b. apply String.leb_total. Qed.

#[global] Instance str_le_antisymm : AntiSymm (=) str_le.
Proof. intros a b. apply String.leb_antisym. Qed.




Lemma rows_of_nonempty keys vals k :
  length keys = length vals → rows_of k keys vals ≠ [] ↔ k ∈ keys.
Proof.
  unfold rows_of. revert vals.
  induction keys as [|k0 keys IH]; intros [|v vals]; simpl; try done.
  - intros _. split; [done | by intros ?%elem_of_nil].
  - intros [= Hlen].
    rewrite (filter_cons (fun p : string * pyfloat => p.1 = k)), elem_of_cons; simpl.
    destruct (decide (k0 = k)) as [->|Hne]; simpl.
    + split; [by left | done].
    + rewrite IH by done. split; [by right | by intros [->|]].
Qed.


Lemma unmatched_spec df indices (zoom_dict : gmap string pyfloat) l :
  unmatched df indices zoom_dict = Ok l →
  Sorted str_le l ∧ NoDup l ∧
  ∀ e, e ∈ l ↔
       is_Some (zoom_dict !! e) ∧
       ¬ ∃ idx, idx ∈ indices ∧ e ≠ "" ∧ identity df idx = e.
Proof.
  unfold unmatched. intros Hu.
  apply bind_Ok in Hu as (emails & Hemails & Hu). injection Hu as <-.
  apply mapM_Ok in Hemails.
  split; [apply Sorted_merge_sort; apply _|].
  split.
  - rewrite merge_sort_Permutation. apply NoDup_filter, NoDup_fst_map_to_list.
  - intros e. rewrite merge_sort_Permutation, list_elem_of_filter.
    rewrite elem_of_list_to_set, list_elem_of_filter, list_elem_of_fmap.
    rewrite list_elem_of_fmap.
    assert ((∃ y : string * pyfloat, e = y.1 ∧ y ∈ map_to_list zoom_dict)
            ↔ is_Some (zoom_dict !! e)) as ->.
    { split.
      - intros ([k v] & -> & Hin%elem_of_map_to_list). by exists v.
      - intros [v Hv]. exists (e, v). split; [done|]. by apply elem_of_map_to_list. }
    assert ((∃ y, e = str_of y ∧ y ∈ emails)
            ↔ ∃ idx, idx ∈ indices ∧ ∃ c, at_ df idx "_normalized_email" = Ok c
                                          ∧ str_of c = e) as Hin.
    { split.
      - intros (c & -> & Hc). apply list_elem_of_lookup in Hc as [i Hi].
        destruct (Forall2_lookup_r _ _ _ _ _ Hemails Hi) as (idx & Hidx & Hat).
        exists idx. split; [by eapply list_elem_of_lookup_2|]. by exists c.
      - intros (idx & Hidx & c & Hat & <-).
        apply list_elem_of_lookup in Hidx as [i Hi].
        destruct (Forall2_lookup_l _ _ _ _ _ Hemails Hi) as (c' & Hc' & Hat').
        rewrite Hat in Hat'. injection Hat' as <-.
        exists c. split; [done|]. by eapply list_elem_of_lookup_2. }
    rewrite (and_comm _ (is_Some _)). apply and_iff_compat_l.
    apply not_iff_compat. rewrite Hin. split.
    + intros [Hne (idx & Hidx & c & Hat & Hc)]. exists idx.
      split; [done|]. split; [done|]. unfold identity. by rewrite Hat.
    + intros (idx & Hidx & Hne & Hid). split; [done|]. exists idx.
      split; [done|]. unfold identity in Hid.
      destruct (at_ df idx "_normalized_email") as [c|] eqn:Hat; [by exists c|].
      by destruct Hne.
Qed.

(** ** [reconcile], stage by stage *)

Section Reconcile.
Context `{Platform}.
Implicit Types (t : run) (reg_df zoom_df : DataFrame)
  (reg_col_map zoom_col_map : gmap string string).

Lemma reconcile_inv reg_df reg_col_map zoom_df zoom_col_map selected_date
    attendance_day program_filter min_duration t :
  reconcile reg_df reg_col_map zoom_df zoom_col_map selected_date attendance_day
            program_filter min_duration = Ok t →
  ∃ df2 cm2 df3 zdf3 dcol,
    attendance_column reg_df reg_col_map attendance_day = Ok (df2, cm2, att_col_name t) ∧
    normalize_emails df2 cm2 zoom_df zoom_col_map = Ok (df3, zdf3, dcol) ∧
    scope_rows df3 cm2 selected_date program_filter
    = Ok (scoped_df t, filtered_indices t) ∧
    aggregate zdf3 dcol = Ok (zoom_keys t, zoom_minutes t, zoom_dict t) ∧
    mark_rows (zoom_dict t) min_duration (att_col_name t)
              (scoped_df t, mkCounts 0 0 0) (filtered_indices t)
    = Ok (marked_df t, tally t) ∧
    unmatched (marked_df t) (filtered_indices t) (zoom_dict t)
    = Ok (unmatched_emails t) ∧
    output_df t = drop (marked_df t) ["_normalized_email"; "_parsed_date"].
Proof.
  unfold reconcile. intros Hr.
  apply bind_Ok in Hr as ([[df2 cm2] att] & H2 & Hr).
  apply bind_Ok in Hr as ([[df3 zdf3] dcol] & H3 & Hr).
  apply bind_Ok in Hr as ([df4 indices] & H4 & Hr).
  apply bind_Ok in Hr as ([[keys minutes] zd] & H5 & Hr).
  apply bind_Ok in Hr as ([marked n] & H6 & Hr).
  apply bind_Ok in Hr as (um & H6b & Hr).
  injection Hr as <-. simpl. by exists df2, cm2, df3, zdf3, dcol.
Qed.

Lemma at_rectangular df c col i :
  rectangular df → getitem df c = Ok col → i < nrows df → ∃ v, at_ df i c = Ok v.
Proof.
  intros Hrect Hcol Hi. unfold at_. rewrite Hcol. simpl.
  apply getitem_find in Hcol. apply (rectangular_find _ _ _ Hrect) in Hcol.
  destruct (lookup_lt_is_Some_2 col i) as [v Hv]; [lia|].
  exists v. by rewrite Hv.
Qed.

Lemma getitem_setitem_is_Ok df c c' vals col :
  getitem df c' = Ok col → ∃ col', getitem (setitem df c vals) c' = Ok col'.
Proof.
  intros Hcol. destruct (decide (c = c')) as [->|Hne].
  - eexists. apply getitem_setitem_eq.
  - exists col. by rewrite getitem_setitem_ne.
Qed.

(** Every row in scope has a cell in the attendance column when the loop
    starts. *)
Lemma scoped_attendance_cell reg_df reg_col_map zoom_df zoom_col_map selected_date
    attendance_day program_filter min_duration t idx :
  rectangular reg_df →
  reconcile reg_df reg_col_map zoom_df zoom_col_map selected_date attendance_day
            program_filter min_duration = Ok t →
  idx ∈ filtered_indices t →
  ∃ old, at_ (scoped_df t) idx (att_col_name t) = Ok old.
Proof.
  intros Hrect (df2 & cm2 & df3 & zdf3 & dcol & H2 & H3 & H4 & _)%reconcile_inv Hidx.
  destruct (attendance_column_rectangular _ _ _ _ _ _ Hrect H2)
    as (Hrect2 & Hn2 & col2 & Hcol2).
  apply normalize_emails_spec in H3
    as (ecol & zecol & emails & zemails & _ & _ & _ & Hemails & _ & -> & _).
  apply scope_rows_spec in H4
    as (date_col & dates & _ & Hdates & Hdf4 & _ & Hin).
  apply Hin in Hidx as [(v & Hv & _) _].
  set (df3 := setitem df2 _ _) in *.
  assert (rectangular df3) as Hrect3.
  { apply rectangular_setitem; [done|]. rewrite length_map.
    eapply rectangular_find; [done|]. by apply getitem_find. }
  assert (idx < nrows df3) as Hlt.
  { apply lookup_lt_Some in Hv.
    apply getitem_find, (rectangular_find _ _ _ Hrect3) in Hdates. lia. }
  destruct (getitem_setitem_is_Ok df2 "_normalized_email" (att_col_name t)
              (map (fun v => CStr (normalize_email v)) emails) col2 Hcol2)
    as [col3 Hcol3].
  fold df3 in Hcol3.
  destruct (getitem_setitem_is_Ok df3 "_parsed_date" (att_col_name t)
              (map (fun v => cell_of_date (parse_date v)) dates) col3 Hcol3)
    as [col4 Hcol4].
  rewrite Hdf4. eapply at_rectangular; [|done|done].
  apply rectangular_setitem; [done|]. rewrite length_map.
  eapply rectangular_find; [done|]. by apply getitem_find.
Qed.

End Reconcile.

(** ** Classification of the rows in scope *)


Section Classification.
Context `{Platform}.

Lemma getitem_attendance_column_other reg_df reg_col_map attendance_day df2 cm2 att c :
  attendance_column reg_df reg_col_map attendance_day = Ok (df2, cm2, att) →
  c ≠ att → getitem df2 c = getitem reg_df c.
Proof.
  intros Hatt Hc. pose proof Hatt as (Hcm2 & Hkey & col & Hcol & ->)%attendance_column_spec.
  rewrite getitem_setitem_ne by done.
  destruct (not_in (att_col_key attendance_day) reg_col_map); [|done].
  subst cm2. rewrite lookup_insert_eq in Hkey. injection Hkey as Hkey.
  unfold setitem_scalar. rewrite getitem_setitem_ne; [done|]. by rewrite Hkey.
Qed.


End Classification.

(** ** The counts and the rows in scope *)

Lemma tally_of_total zoom_dict min_duration df indices :
  tally_of zoom_dict min_duration df Present indices
  + tally_of zoom_dict min_duration df BelowThreshold indices
  + tally_of zoom_dict min_duration df NotFound indices = length indices.
Proof.
  induction indices as [|i indices IH]; [done|].
  rewrite !tally_of_cons. simpl.
  destruct (verdict_of zoom_dict min_duration (identity df i));
    repeat case_decide; try done; lia.
Qed.

Section Counts.
Context `{Platform}.

Lemma filter_applies_attendance_column reg_df reg_col_map attendance_day df2 cm2 att
    program_filter :
  attendance_column reg_df reg_col_map attendance_day = Ok (df2, cm2, att) →
  filter_applies program_filter cm2 = filter_applies program_filter reg_col_map
  ∧ cm2 !! "Version" = reg_col_map !! "Version".
Proof.
  intros Hatt.
  assert (cm2 !! "Version" = reg_col_map !! "Version") as Hv.
  { eapply attendance_column_other_keys; [done|].
    unfold att_col_key. by destruct (attendance_day =? 1)%Z. }
  split; [|done]. unfold filter_applies, not_in. by rewrite Hv.
Qed.

Lemma reconcile_in_scope reg_df reg_col_map zoom_df zoom_col_map selected_date
    attendance_day program_filter min_duration t :
  reconcile reg_df reg_col_map zoom_df zoom_col_map selected_date attendance_day
            program_filter min_duration = Ok t →
  NoDup (filtered_indices t) ∧
  ∀ i, i ∈ filtered_indices t ↔
       in_scope (scoped_df t) reg_col_map selected_date program_filter i.
Proof.
  intros (df2 & cm2 & df3 & zdf3 & dcol & H2 & _ & H4 & _)%reconcile_inv.
  apply scope_rows_spec in H4 as (date_col & dates & _ & Hdates & Hdf4 & Hnd & Hin).
  destruct (filter_applies_attendance_column _ _ _ _ _ _ program_filter H2) as [Hfa Hver].
  split; [done|]. intros i. rewrite Hin, Hfa, Hver. unfold in_scope.
  apply and_iff_compat_r.
  unfold at_. rewrite Hdf4 at 1. rewrite getitem_setitem_eq. simpl.
  rewrite list_lookup_fmap. destruct (dates !! i) as [v|]; simpl.
  - split.
    + intros (v' & [= <-] & ->). done.
    + intros [= Hc]. exists v. split; [done|].
      by destruct (parse_date v) as [d|]; simplify_eq/=.
  - split; [by intros (? & ? & _) | done].
Qed.

(** C2.  Whatever [process_attendance] returns, the three verdict counts
    add up to [total_registrations]; and when both loaders succeed, that
    total is the number of roster rows in scope: the rows whose parsed
    training date is the selected date and which pass the program filter
    where it applies. *)
Theorem counts_add_up_to_registrations
    reg_filepath zoom_filepath selected_date attendance_day program_filter
    min_duration output_dir reg_col_map_override zoom_col_map_override r :
  process_attendance reg_filepath zoom_filepath selected_date attendance_day
    program_filter min_duration output_dir reg_col_map_override
    zoom_col_map_override = Ok r →
  matched_present r + matched_below_threshold r + not_found_in_zoom r
  = total_registrations r ∧
  ∀ reg_df reg_col_map zoom_df zoom_col_map,
    load_registration_csv reg_filepath reg_col_map_override
    = inl (reg_df, reg_col_map) →
    load_zoom_csv zoom_filepath zoom_col_map_override = inl (zoom_df, zoom_col_map) →
    ∃ t, reconcile reg_df reg_col_map zoom_df zoom_col_map selected_date
           attendance_day program_filter min_duration = Ok t ∧
         total_registrations r = length (filtered_indices t) ∧
         NoDup (filtered_indices t) ∧
         ∀ i, i ∈ filtered_indices t ↔
              in_scope (scoped_df t) reg_col_map selected_date program_filter i.
Proof.
  unfold process_attendance. intros Hrun.
  destruct (load_registration_csv _ _) as [[reg_df reg_col_map]|err];
    [|injection Hrun as <-; split; [done | by intros]].
  destruct (load_zoom_csv _ _) as [[zoom_df zoom_col_map]|err];
    [|injection Hrun as <-; split; [done | by intros]].
  apply bind_Ok in Hrun as (t & Ht & Hrun). injection Hrun as <-.
  assert (present (tally t) + below_threshold (tally t) + not_found (tally t)
          = length (filtered_indices t)) as Hsum.
  { pose proof Ht as (df2 & cm2 & df3 & zdf3 & dcol & _ & _ & H4 & _ & H6 & _)%reconcile_inv.
    apply scope_rows_spec in H4 as (_ & _ & _ & _ & _ & Hnd & _).
    destruct (mark_rows_spec _ _ _ _ _ _ _ _ Hnd H6) as (_ & _ & _ & _ & Hp & Hb & Hf).
    rewrite Hp, Hb, Hf. simpl. apply tally_of_total. }
  split.
  - unfold save_output. by destruct (to_csv _ _).
  - intros ? ? ? ? [= <- <-] [= <- <-]. exists t. split; [done|].
    split; [unfold save_output; by destruct (to_csv _ _)|].
    by eapply reconcile_in_scope.
Qed.

End Counts.

(** ** Participants of the log that the roster does not know *)



Section Unmatched.
Context `{Platform}.



End Unmatched.

(** ** The program filter *)

Section ProgramFilter.
Context `{Platform}.

Lemma filter_applies_iff program_filter (reg_col_map : gmap string string) :
  filter_applies program_filter reg_col_map = true ↔
  ∃ p version_col, program_filter = Some p ∧ p ≠ "" ∧ p ≠ "All" ∧
                   reg_col_map !! "Version" = Some version_col.
Proof.
  unfold filter_applies, filter_given, not_in.
  rewrite andb_true_iff, negb_true_iff, bool_decide_eq_false. split.
  - intros [Hp Hv]. destruct program_filter as [p|]; [|done].
    apply andb_true_iff in Hp as [Hp1%negb_true_iff Hp2%negb_true_iff].
    apply String.eqb_neq in Hp1, Hp2.
    destruct (reg_col_map !! "Version") as [vc|] eqn:Hvc; [|done].
    by exists p, vc.
  - intros (p & vc & -> & Hp1 & Hp2 & Hvc). rewrite Hvc. split; [|done].
    apply String.eqb_neq in Hp1, Hp2. by rewrite Hp1, Hp2.
Qed.

Lemma scope_rows_unfiltered reg_df reg_col_map selected_date program_filter :
  filter_applies program_filter reg_col_map = false →
  scope_rows reg_df reg_col_map selected_date program_filter
  = scope_rows reg_df reg_col_map selected_date None.
Proof. intros Hf. unfold scope_rows. by rewrite Hf. Qed.

Lemma reconcile_unfiltered reg_df reg_col_map zoom_df zoom_col_map selected_date
    attendance_day program_filter min_duration :
  filter_applies program_filter reg_col_map = false →
  reconcile reg_df reg_col_map zoom_df zoom_col_map selected_date attendance_day
            program_filter min_duration
  = reconcile reg_df reg_col_map zoom_df zoom_col_map selected_date attendance_day
              None min_duration.
Proof.
  intros Hf. unfold reconcile.
  destruct (attendance_column reg_df reg_col_map attendance_day)
    as [[[df2 cm2] att]|e] eqn:H2; [|done]. simpl.
  destruct (normalize_emails df2 cm2 zoom_df zoom_col_map)
    as [[[df3 zdf3] dcol]|e]; [|done]. simpl.
  rewrite scope_rows_unfiltered; [done|].
  by destruct (filter_applies_attendance_column _ _ _ _ _ _ program_filter H2) as [-> _].
Qed.

(** C10.  The program filter takes part in the scope exactly when it is a
    non-empty string other than "All" and the roster mapping has a Version
    key.  Otherwise the run is the run without a filter, step for step:
    the rows in scope are those of the selected date, and it fails only
    where the unfiltered run fails.  The only warning a run ever carries
    is the one for an empty scope. *)
Theorem program_filter_applies_only_with_version
    reg_df reg_col_map zoom_df zoom_col_map selected_date attendance_day
    program_filter min_duration :
  (filter_applies program_filter reg_col_map = true ↔
   ∃ p version_col, program_filter = Some p ∧ p ≠ "" ∧ p ≠ "All" ∧
                    reg_col_map !! "Version" = Some version_col) ∧
  (filter_applies program_filter reg_col_map = false →
   reconcile reg_df reg_col_map zoom_df zoom_col_map selected_date attendance_day
             program_filter min_duration
   = reconcile reg_df reg_col_map zoom_df zoom_col_map selected_date attendance_day
               None min_duration ∧
   ∀ t, reconcile reg_df reg_col_map zoom_df zoom_col_map selected_date
          attendance_day program_filter min_duration = Ok t →
        ∀ i, i ∈ filtered_indices t ↔
             at_ (scoped_df t) i "_parsed_date" = Ok (CDate selected_date)) ∧
  (∀ reg_filepath zoom_filepath output_dir reg_override zoom_override r,
     process_attendance reg_filepath zoom_filepath selected_date attendance_day
       program_filter min_duration output_dir reg_override zoom_override = Ok r →
     warnings r = [] ∨
     total_registrations r = 0 ∧
     warnings r = scope_warnings 0 selected_date program_filter).
Proof.
  split; [apply filter_applies_iff|]. split.
  - intros Hf. split; [by apply reconcile_unfiltered|].
    intros t Ht i. destruct (reconcile_in_scope _ _ _ _ _ _ _ _ _ Ht) as [_ ->].
    unfold in_scope. rewrite Hf. split; [by intros [? _] | by intros ?].
  - intros reg_filepath zoom_filepath output_dir reg_override zoom_override r.
    unfold process_attendance.
    destruct (load_registration_csv _ _) as [[rdf rcm]|err];
      [|intros [= <-]; by left].
    destruct (load_zoom_csv _ _) as [[zdf zcm]|err];
      [|intros [= <-]; by left].
    intros Hrun. apply bind_Ok in Hrun as (t & Ht & Hrun). injection Hrun as <-.
    unfold save_output, scope_warnings.
    destruct (to_csv _ _); simpl;
      (destruct (length (filtered_indices t)); simpl; [by right | by left]).
Qed.

End ProgramFilter.

(** ** Loading and saving *)

Section LoadSave.
Context `{Platform}.

Lemma missing_keys_spec required (col_map : gmap string string) k :
  k ∈ missing_keys required col_map ↔ k ∈ required ∧ col_map !! k = None.
Proof. unfold missing_keys. rewrite list_elem_of_filter. tauto. Qed.

(** C6.  For a table that was read, each loader looks for its required
    keys in the overridden or detected mapping.  If some are absent it
    fails with a message that lists exactly those keys, in the order of
    the required list, and [process_attendance] returns at once a result
    with that single error and every count zero.  If none is absent, the
    loader returns the table as read together with the mapping. *)
Theorem missing_required_keys_abort filepath col_map_override df :
  read_csv_safe filepath = inl df →
  let reg_map := confirmed detect_registration_columns col_map_override df in
  let reg_missing := missing_keys ["Email"; "Training date"] reg_map in
  let zoom_map := confirmed detect_zoom_columns col_map_override df in
  let zoom_missing := missing_keys ["Email"; "Duration"] zoom_map in
  (∀ k, k ∈ reg_missing ↔ k ∈ ["Email"; "Training date"] ∧ reg_map !! k = None) ∧
  (∀ k, k ∈ zoom_missing ↔ k ∈ ["Email"; "Duration"] ∧ zoom_map !! k = None) ∧
  (reg_missing = [] → load_registration_csv filepath col_map_override = inl (df, reg_map)) ∧
  (zoom_missing = [] → load_zoom_csv filepath col_map_override = inl (df, zoom_map)) ∧
  (reg_missing ≠ [] →
   let msg := "Missing required columns: " +:+ Str.join ", " reg_missing in
   load_registration_csv filepath col_map_override = inr msg ∧
   ∀ zoom_filepath selected_date attendance_day program_filter min_duration
     output_dir zoom_override,
     process_attendance filepath zoom_filepath selected_date attendance_day
       program_filter min_duration output_dir col_map_override zoom_override
     = Ok (mkResult 0 0 0 0 0 [] "" ["Registration CSV: " +:+ msg] [])) ∧
  (zoom_missing ≠ [] →
   let msg := "Missing required columns in Zoom CSV: " +:+ Str.join ", " zoom_missing in
   load_zoom_csv filepath col_map_override = inr msg ∧
   ∀ reg_filepath reg_df reg_col_map reg_override selected_date attendance_day
     program_filter min_duration output_dir,
     load_registration_csv reg_filepath reg_override = inl (reg_df, reg_col_map) →
     process_attendance reg_filepath filepath selected_date attendance_day
       program_filter min_duration output_dir reg_override col_map_override
     = Ok (mkResult 0 0 0 0 0 [] "" ["Zoom CSV: " +:+ msg] [])).
Proof.
  intros Hread. simpl.
  split; [intros k; apply missing_keys_spec|].
  split; [intros k; apply missing_keys_spec|].
  assert (∀ l : list string, l ≠ [] → ∃ x l', l = x :: l') as Hcons.
  { intros [|x l'] Hl; [done | by exists x, l']. }
  split; [|split; [|split]].
  - intros Hnone. unfold load_registration_csv. rewrite Hread.
    unfold confirmed in *. by rewrite Hnone.
  - intros Hnone. unfold load_zoom_csv. rewrite Hread.
    unfold confirmed in *. by rewrite Hnone.
  - intros Hsome.
    assert (load_registration_csv filepath col_map_override
            = inr ("Missing required columns: "
                   +:+ Str.join ", " (missing_keys ["Email"; "Training date"]
                        (confirmed detect_registration_columns col_map_override df))))
      as Hload.
    { unfold load_registration_csv. rewrite Hread. unfold confirmed in *.
      by destruct (Hcons _ Hsome) as (x & l' & ->). }
    split; [done|]. intros. unfold process_attendance. by rewrite Hload.
  - intros Hsome.
    assert (load_zoom_csv filepath col_map_override
            = inr ("Missing required columns in Zoom CSV: "
                   +:+ Str.join ", " (missing_keys ["Email"; "Duration"]
                        (confirmed detect_zoom_columns col_map_override df))))
      as Hload.
    { unfold load_zoom_csv. rewrite Hread. unfold confirmed in *.
      by destruct (Hcons _ Hsome) as (x & l' & ->). }
    split; [done|]. intros * Hreg. unfold process_attendance. by rewrite Hreg, Hload.
Qed.

(** C7.  Once both tables are loaded and steps 2 to 6b have run, the
    result carries the statistics of those steps whether or not the table
    can be written: if the write raises, the counts, the unmatched list and
    the warnings are what they are when it succeeds, the path is empty and
    the only error is the one about saving. *)
Theorem write_failure_keeps_statistics
    reg_filepath zoom_filepath selected_date attendance_day program_filter
    min_duration output_dir reg_override zoom_override
    reg_df reg_col_map zoom_df zoom_col_map t :
  load_registration_csv reg_filepath reg_override = inl (reg_df, reg_col_map) →
  load_zoom_csv zoom_filepath zoom_override = inl (zoom_df, zoom_col_map) →
  reconcile reg_df reg_col_map zoom_df zoom_col_map selected_date attendance_day
            program_filter min_duration = Ok t →
  let path := output_path reg_filepath selected_date attendance_day program_filter
                          output_dir in
  let statistics file errors :=
    mkResult (length (filtered_indices t)) (size (zoom_dict t))
             (present (tally t)) (below_threshold (tally t)) (not_found (tally t))
             (unmatched_emails t) file errors
             (scope_warnings (length (filtered_indices t)) selected_date
                             program_filter) in
  let returned :=
    process_attendance reg_filepath zoom_filepath selected_date attendance_day
      program_filter min_duration output_dir reg_override zoom_override in
  (∀ e, to_csv (output_df t) path = Some e →
        returned = Ok (statistics "" ["Error saving output: " +:+ e])) ∧
  (to_csv (output_df t) path = None → returned = Ok (statistics path [])).
Proof.
  intros Hreg Hzoom Ht. simpl. unfold process_attendance.
  rewrite Hreg, Hzoom, Ht. simpl. unfold save_output.
  split; [intros e He | intros He]; by rewrite He.
Qed.

End LoadSave.

(** ** What the run changes in the roster *)

Lemma columns_setitem df c vals :
  columns (setitem df c vals)
  = if decide (c ∈ columns df) then columns df else columns df ++ [c].
Proof.
  unfold columns, setitem; simpl.
  induction (cols df) as [|[c' vals'] l IH].
  - simpl. destruct (decide (c ∈ [])) as [Hin|_]; [by apply elem_of_nil in Hin | done].
  - cbn [put_col fmap list_fmap fst].
    destruct (String.eqb_spec c' c) as [->|Hne].
    + destruct (decide (c ∈ c :: l.*1)) as [_|Hin]; [done|]. destruct Hin. by left.
    + cbn [fmap list_fmap fst]. rewrite IH.
      destruct (decide (c ∈ l.*1)) as [Hin|Hin];
        destruct (decide (c ∈ c' :: l.*1)) as [Hin'|Hin']; try done.
      * destruct Hin'. by right.
      * apply elem_of_cons in Hin' as [->|]; done.
Qed.

Lemma columns_set_at df i c v : columns (set_at df i c v) = columns df.
Proof.
  unfold columns, set_at; simpl.
  induction (cols df) as [|[c' vals'] l IH]; [done|].
  simpl. f_equal; [by destruct (String.eqb c' c) | exact IH].
Qed.

Lemma columns_drop df names :
  columns (drop df names) = filter (fun c => c ∉ names) (columns df).
Proof.
  unfold columns, drop; simpl.
  induction (cols df) as [|[c' vals'] l IH]; [done|].
  rewrite fmap_cons.
  rewrite (filter_cons (fun c => c ∉ names)).
  rewrite (filter_cons (fun p : string * list cell => p.1 ∉ names)).
  rewrite <- IH. simpl. by destruct (decide (c' ∉ names)).
Qed.

Lemma getitem_columns df c : c ∈ columns df ↔ ∃ col, getitem df c = Ok col.
Proof.
  unfold columns, getitem.
  induction (cols df) as [|[c' vals'] l IH]; simpl.
  - split; [by intros ?%elem_of_nil | by intros [? ?]].
  - rewrite elem_of_cons. destruct (String.eqb_spec c' c) as [->|Hne].
    + split; [by exists vals' | by left].
    + rewrite <- IH. split; [by intros [->|] | by right].
Qed.

Lemma mark_rows_columns zoom_dict min_duration att indices : ∀ df n df' n',
  mark_rows zoom_dict min_duration att (df, n) indices = Ok (df', n') →
  columns df' = columns df.
Proof.
  induction indices as [|idx indices IH]; intros df n df' n' Hrun; simpl in Hrun.
  - by injection Hrun as <- _.
  - apply bind_Ok in Hrun as ([df1 n1] & Hrow & Hrun).
    apply mark_row_spec in Hrow as (v & _ & -> & _).
    rewrite (IH _ _ _ _ Hrun). apply columns_set_at.
Qed.

Lemma filter_working_setitem df c vals (names : list string) :
  c ∈ names →
  filter (fun c => c ∉ names) (columns (setitem df c vals))
  = filter (fun c => c ∉ names) (columns df).
Proof.
  intros Hc. rewrite columns_setitem. case_decide; [done|].
  rewrite filter_app, filter_cons, decide_False by (by intros ?).
  by rewrite filter_nil, app_nil_r.
Qed.

Lemma at_drop df names i c : c ∉ names → at_ (drop df names) i c = at_ df i c.
Proof.
  intros Hc. unfold at_, getitem. rewrite find_drop.
  by rewrite bool_decide_eq_false_2.
Qed.

Lemma at_setitem_ne df c c' vals i :
  c ≠ c' → at_ (setitem df c vals) i c' = at_ df i c'.
Proof. intros Hne. unfold at_. by rewrite getitem_setitem_ne. Qed.

Section FrameOfTheRun.
Context `{Platform}.

(** What steps 2 to 7 do to the roster, column by column: the mark is
    written in the rows in scope; in a row out of scope the attendance
    field holds the string form of what it held when its key is mapped,
    and the empty string when step 2 wrote the column; every other column
    reaches the output table as it was. *)
Lemma frame_of_reconcile
    reg_df reg_col_map zoom_df zoom_col_map selected_date attendance_day
    program_filter min_duration t :
  reconcile reg_df reg_col_map zoom_df zoom_col_map selected_date attendance_day
            program_filter min_duration = Ok t →
  att_col_name t ≠ "_normalized_email" →
  att_col_name t ≠ "_parsed_date" →
  let att := att_col_name t in
  let key := att_col_key attendance_day in
  let working := ["_normalized_email"; "_parsed_date"] in
  (∀ c, c ≠ att → c ∉ working → getitem (output_df t) c = getitem reg_df c) ∧
  columns (output_df t)
  = filter (fun c => c ∉ working)
           (if decide (att ∈ columns reg_df) then columns reg_df
            else columns reg_df ++ [att]) ∧
  (rectangular reg_df →
   ∀ idx, idx ∈ filtered_indices t →
     at_ (output_df t) idx att
     = Ok (CStr (mark_of (verdict_of (zoom_dict t) min_duration
                                     (identity (scoped_df t) idx))))) ∧
  (∀ idx, idx ∉ filtered_indices t →
     (reg_col_map !! key ≠ None →
      ∀ v, at_ reg_df idx att = Ok v → at_ (output_df t) idx att = Ok (coerce v)) ∧
     (reg_col_map !! key = None → idx < nrows reg_df →
      at_ (output_df t) idx att = Ok (CStr ""))).
Proof.
  intros Hrun Hne1 Hne2. simpl.
  pose proof Hrun as (df2 & cm2 & df3 & zdf3 & dcol & H2 & H3 & H4 & _ & H6 & _ & Hout)%reconcile_inv.
  pose proof H2 as (Hcm2 & Hkey & col & Hcol & Hdf2)%attendance_column_spec.
  pose proof H3 as (ecol & zecol & emails & zemails & _ & _ & _ & _ & _ & Hdf3 & _)%normalize_emails_spec.
  pose proof H4 as (date_col & dates & _ & _ & Hdf4 & Hnd & _)%scope_rows_spec.
  destruct (mark_rows_spec _ _ _ _ _ _ _ _ Hnd H6) as (Hrows & Hcols & Hmark & _).
  assert (att_col_name t ∉ ["_normalized_email"; "_parsed_date"]) as Hatt.
  { by intros [?|[?|?%elem_of_nil]%elem_of_cons]%elem_of_cons. }
  assert (∀ idx, at_ (scoped_df t) idx (att_col_name t) = at_ df2 idx (att_col_name t))
    as Hscoped.
  { intros idx. rewrite Hdf4, at_setitem_ne by done.
    rewrite Hdf3, at_setitem_ne by done. done. }
  split; [|split; [|split]].
  - intros c Hc Hw.
    rewrite <- (getitem_attendance_column_other _ _ _ _ _ _ c H2 Hc).
    unfold getitem. rewrite Hout, find_drop.
    rewrite bool_decide_eq_false_2 by done. rewrite Hcols by done.
    rewrite Hdf4. simpl.
    rewrite find_put_ne by (intros <-; apply Hw; set_solver).
    rewrite Hdf3. simpl.
    by rewrite find_put_ne by (intros <-; apply Hw; set_solver).
  - rewrite Hout, columns_drop.
    rewrite (mark_rows_columns _ _ _ _ _ _ _ _ H6).
    rewrite Hdf4, filter_working_setitem by set_solver.
    rewrite Hdf3, filter_working_setitem by set_solver.
    f_equal. rewrite Hdf2, columns_setitem.
    rewrite decide_True by (apply getitem_columns; by exists col).
    destruct (not_in (att_col_key attendance_day) reg_col_map).
    + subst cm2. rewrite lookup_insert_eq in Hkey. injection Hkey as Hkey.
      unfold setitem_scalar. by rewrite columns_setitem, Hkey.
    + rewrite decide_True; [done|]. apply getitem_columns. by exists col.
  - intros Hrect idx Hidx. rewrite Hout, at_drop by done.
    destruct (scoped_attendance_cell _ _ _ _ _ _ _ _ _ _ Hrect Hrun Hidx) as [old Hold].
    by apply (Hmark idx old).
  - intros idx Hidx. rewrite Hout, at_drop by done.
    rewrite Hrows, Hscoped by done.
    assert (at_ df2 idx (att_col_name t)
            = of_option (KeyError (Str.of_nat idx)) (coerce <$> col !! idx)) as ->.
    { rewrite Hdf2. unfold at_. rewrite getitem_setitem_eq. simpl.
      by rewrite list_lookup_fmap. }
    split.
    + intros Hmapped v Hv.
      assert (not_in (att_col_key attendance_day) reg_col_map = false) as Hin.
      { unfold not_in. by rewrite bool_decide_eq_false_2. }
      rewrite Hin in Hcol. unfold at_ in Hv. rewrite Hcol in Hv. simpl in Hv.
      by destruct (col !! idx); simplify_eq/=.
    + intros Hnone Hlt.
      assert (not_in (att_col_key attendance_day) reg_col_map = true) as Hin.
      { unfold not_in. by rewrite bool_decide_eq_true_2. }
      rewrite Hin in Hcol, Hcm2. subst cm2.
      rewrite lookup_insert_eq in Hkey. injection Hkey as Hkey.
      unfold setitem_scalar in Hcol. rewrite Hkey, getitem_setitem_eq in Hcol.
      injection Hcol as <-. by rewrite lookup_replicate_2.
Qed.

(** X23.  When the attendance key is mapped, or the attendance column
    is not yet in the roster, when the column labels of the roster differ
    and the attendance column carries no working column's name, a run
    changes the attendance column alone: a row in scope holds its mark, a
    row out of scope the string form of its former value (the empty string
    for a missing value, and in a new column); every other column reaches
    the output table as it was, and the output table has the roster's
    columns, the attendance column added when it is new, without the two
    working columns. *)
Theorem run_changes_only_the_attendance_column
    reg_df reg_col_map zoom_df zoom_col_map selected_date attendance_day
    program_filter min_duration t :
  reconcile reg_df reg_col_map zoom_df zoom_col_map selected_date attendance_day
            program_filter min_duration = Ok t →
  NoDup (columns reg_df) →
  att_col_name t ≠ "_normalized_email" →
  att_col_name t ≠ "_parsed_date" →
  reg_col_map !! att_col_key attendance_day ≠ None
  ∨ att_col_name t ∉ columns reg_df →
  let att := att_col_name t in
  let working := ["_normalized_email"; "_parsed_date"] in
  (∀ c, c ≠ att → c ∉ working → getitem (output_df t) c = getitem reg_df c) ∧
  columns (output_df t)
  = filter (fun c => c ∉ working)
           (if decide (att ∈ columns reg_df) then columns reg_df
            else columns reg_df ++ [att]) ∧
  (rectangular reg_df →
   ∀ idx, idx ∈ filtered_indices t →
     at_ (output_df t) idx att
     = Ok (CStr (mark_of (verdict_of (zoom_dict t) min_duration
                                     (identity (scoped_df t) idx))))) ∧
  (∀ idx, idx ∉ filtered_indices t →
     (∀ v, at_ reg_df idx att = Ok v → at_ (output_df t) idx att = Ok (coerce v)) ∧
     (att ∉ columns reg_df → idx < nrows reg_df →
      at_ (output_df t) idx att = Ok (CStr ""))).
Proof.
  intros Hrun _ Hne1 Hne2 Hcase.
  destruct (frame_of_reconcile _ _ _ _ _ _ _ _ _ Hrun Hne1 Hne2)
    as (Hother & Hcols & Hin & Hout).
  cbv zeta in *. split; [done|]. split; [done|]. split; [done|].
  intros idx Hidx. destruct (Hout idx Hidx) as [Hmapped Hnew]. split.
  - intros v Hv.
    destruct (reg_col_map !! att_col_key attendance_day) as [c|] eqn:Hkey.
    + apply Hmapped; [congruence|done].
    + destruct Hcase as [?|Hnot]; [done|]. destruct Hnot.
      unfold at_ in Hv. apply getitem_columns.
      destruct (getitem reg_df (att_col_name t)) as [col|]; [by exists col|done].
  - intros Hnot Hlt. apply Hnew; [|done].
    destruct (reg_col_map !! att_col_key attendance_day) as [c|] eqn:Hkey; [|done].
    destruct Hnot.
    pose proof Hrun as (df2 & cm2 & ? & ? & ? & H2 & _)%reconcile_inv.
    apply attendance_column_spec in H2 as (_ & _ & col & Hcol & _).
    unfold not_in in Hcol. rewrite bool_decide_eq_false_2 in Hcol by congruence.
    apply getitem_columns. by exists col.
Qed.

End FrameOfTheRun.

(** ** The claims on the fixture *)

Lemma fixture_rectangular : rectangular Fixture.roster.
Proof. repeat constructor. Qed.

Lemma fixture_reconciled : Fixture.reconciled None = Ok Fixture.the_run.
Proof. vm_compute. reflexivity. Qed.

Lemma fixture_scope : filtered_indices Fixture.the_run = [0; 1; 2; 3; 4; 7; 9].
Proof. vm_compute. reflexivity. Qed.

Lemma fixture_attendance_column : att_col_name Fixture.the_run = "Attendance - Day 1".
Proof. vm_compute. reflexivity. Qed.


Lemma counts_witness :
  ∃ r, Fixture.process Fixture.writable None = Ok r ∧
       matched_present r + matched_below_threshold r + not_found_in_zoom r
       = total_registrations r.
Proof.
  eexists. split; [vm_compute; reflexivity|].
  eapply (proj1 (@counts_add_up_to_registrations Fixture.writable
                   "registration.csv" "zoom.csv" (Date 2025 1 15) 1 None
                   (Float.of_Z_exact 60) None None None _ _)).
  Unshelve. vm_compute. reflexivity.
Defined.


Lemma missing_keys_witness :
  @read_csv_safe Fixture.writable "zoom.csv" = inl Fixture.zoom ∧
  @load_registration_csv Fixture.writable "zoom.csv" None
  = inr "Missing required columns: Training date" ∧
  @load_zoom_csv Fixture.writable "zoom.csv" None
  = inl (Fixture.zoom, @detect_zoom_columns Fixture.zoom).
Proof.
  assert (@read_csv_safe Fixture.writable "zoom.csv" = inl Fixture.zoom) as Hread
    by reflexivity.
  split; [exact Hread|].
  destruct (@missing_required_keys_abort Fixture.writable "zoom.csv" None
              Fixture.zoom Hread) as (_ & _ & _ & Hzoom & Hreg & _).
  split.
  - apply Hreg. vm_compute. discriminate.
  - apply Hzoom. vm_compute. reflexivity.
Defined.

Lemma write_failure_witness :
  @load_registration_csv Fixture.read_only "registration.csv" None
  = inl (Fixture.roster, @detect_registration_columns Fixture.roster) ∧
  @load_zoom_csv Fixture.read_only "zoom.csv" None
  = inl (Fixture.zoom, @detect_zoom_columns Fixture.zoom) ∧
  Fixture.process Fixture.read_only None
  = Ok (mkResult 7 8 6 1 0 ["unknown@random.com"] ""
                 ["Error saving output: Permission denied"] []).
Proof.
  assert (@load_registration_csv Fixture.read_only "registration.csv" None
          = inl (Fixture.roster, @detect_registration_columns Fixture.roster)) as Hreg
    by (vm_compute; reflexivity).
  assert (@load_zoom_csv Fixture.read_only "zoom.csv" None
          = inl (Fixture.zoom, @detect_zoom_columns Fixture.zoom)) as Hzoom
    by (vm_compute; reflexivity).
  assert (@reconcile Fixture.read_only Fixture.roster
            (@detect_registration_columns Fixture.roster) Fixture.zoom
            (@detect_zoom_columns Fixture.zoom) (Date 2025 1 15) 1 None
            (Float.of_Z_exact 60) = Ok Fixture.the_run) as Hrun
    by (vm_compute; reflexivity).
  split; [exact Hreg|]. split; [exact Hzoom|].
  destruct (@write_failure_keeps_statistics Fixture.read_only
              "registration.csv" "zoom.csv" (Date 2025 1 15) 1 None
              (Float.of_Z_exact 60) None None None _ _ _ _ _ Hreg Hzoom Hrun)
    as [Hfail _].
  unfold Fixture.process. rewrite (Hfail "Permission denied" eq_refl).
  vm_compute. reflexivity.
Defined.

Lemma attendance_frame_witness :
  Fixture.reconciled None = Ok Fixture.the_run ∧
  NoDup (columns Fixture.roster) ∧
  att_col_name Fixture.the_run ≠ "_normalized_email" ∧
  att_col_name Fixture.the_run ≠ "_parsed_date" ∧
  at_ (output_df Fixture.the_run) 5 (att_col_name Fixture.the_run)
  = Ok (@coerce Fixture.writable CNaN).
Proof.
  assert (NoDup (columns Fixture.roster)) as Hnd
    by (apply (bool_decide_unpack _); vm_compute; reflexivity).
  assert (att_col_name Fixture.the_run ≠ "_normalized_email") as Hne1.
  { rewrite fixture_attendance_column. discriminate. }
  assert (att_col_name Fixture.the_run ≠ "_parsed_date") as Hne2.
  { rewrite fixture_attendance_column. discriminate. }
  assert (Fixture.roster_map !! att_col_key 1 ≠ None) as Hkey
    by (vm_compute; discriminate).
  split; [exact fixture_reconciled|]. split; [exact Hnd|].
  split; [exact Hne1|]. split; [exact Hne2|].
  destruct (@run_changes_only_the_attendance_column Fixture.writable _ _ _ _ _ _ _ _ _
              fixture_reconciled Hnd Hne1 Hne2 (or_introl Hkey)) as (_ & _ & _ & Hout).
  assert (5 ∉ filtered_indices Fixture.the_run) as Hidx.
  { rewrite fixture_scope. intros Hin.
    repeat (apply elem_of_cons in Hin as [Hin|Hin]; [lia|]).
    by apply elem_of_nil in Hin. }
  assert (at_ Fixture.roster 5 (att_col_name Fixture.the_run) = Ok CNaN) as Hcell
    by (vm_compute; reflexivity).
  exact (proj1 (Hout 5 Hidx) _ Hcell).
Defined.


(** C8.  The roster holds the marks of an earlier run and the user left
    the attendance field unmapped: step 2 takes the column for absent and
    writes the empty string into every row, so the mark of the second row,
    which is for another date and out of scope, is lost in the output
    table. *)
Theorem unmapped_attendance_column_is_blanked :
  ∃ t, Edge.unmapped_run = Ok t ∧
       Edge.unmapped !! att_col_key 1 = None ∧
       att_col_name t = "Attendance - Day 1" ∧
       filtered_indices t = [0] ∧
       at_ Edge.marked_roster 1 "Attendance - Day 1" = Ok (CStr "Y") ∧
       at_ (output_df t) 1 "Attendance - Day 1" = Ok (CStr "").
Proof.
  destruct Edge.unmapped_run as [t|e] eqn:Hrun; [|vm_compute in Hrun; discriminate].
  exists t. split; [done|]. vm_compute in Hrun. injection Hrun as <-.
  by vm_compute.
Qed.

(** ** [parse_date] *)

Section ParseDate.
Context `{Platform}.

Lemma try_formats_first date_str fmts d :
  try_formats date_str fmts = Some d ↔
  ∃ i fmt, fmts !! i = Some fmt ∧ Strptime.strptime date_str fmt = Some d ∧
           ∀ j fmt', j < i → fmts !! j = Some fmt' →
                     Strptime.strptime date_str fmt' = None.
Proof.
  induction fmts as [|fmt0 fmts IH]; simpl.
  - split; [done | by intros (i & fmt & ? & _)].
  - destruct (Strptime.strptime date_str fmt0) as [d0|] eqn:H0.
    + split.
      * intros [= ->]. exists 0, fmt0. repeat split; try done. intros; lia.
      * intros ([|i] & fmt & Hfmt & Hd & Hbefore); simpl in Hfmt.
        -- injection Hfmt as <-. congruence.
        -- specialize (Hbefore 0 fmt0 ltac:(lia) eq_refl). congruence.
    + rewrite IH. split.
      * intros (i & fmt & Hfmt & Hd & Hbefore). exists (S i), fmt.
        repeat split; try done. intros [|j] fmt' Hj Hfmt'; simpl in Hfmt'.
        -- by injection Hfmt' as <-.
        -- apply (Hbefore j); [lia | done].
      * intros ([|i] & fmt & Hfmt & Hd & Hbefore); simpl in Hfmt.
        -- injection Hfmt as <-. congruence.
        -- exists i, fmt. repeat split; try done. intros j fmt' Hj Hfmt'.
           apply (Hbefore (S j)); [lia | done].
Qed.

Lemma try_formats_none date_str fmts :
  try_formats date_str fmts = None ↔
  ∀ fmt, fmt ∈ fmts → Strptime.strptime date_str fmt = None.
Proof.
  induction fmts as [|fmt0 fmts IH]; simpl.
  - split; [by intros _ ? ?%elem_of_nil | done].
  - destruct (Strptime.strptime date_str fmt0) as [d0|] eqn:H0.
    + split; [done|]. intros Hall. rewrite Hall in H0; [done | by left].
    + rewrite IH. split.
      * intros Hall fmt [->|Hin]%elem_of_cons; auto.
      * intros Hall fmt Hin. apply Hall. by right.
Qed.

Lemma parse_date_string s :
  parse_date (CStr s) =
  match try_formats (Str.strip s) Strptime.formats with
  | Some d => Some d
  | None => to_datetime_dayfirst (Str.strip s)
  end.
Proof. reflexivity. Qed.

(** C5.  The four spellings of 15 January 2025 parse to that date.  A
    string is tried against the ten formats in their order and the first
    that accepts it decides; when none does, the day-first parser of pandas
    decides; when that fails too, or the input is missing, the result is
    [None].  No input makes [parse_date] raise: it is a total function
    into dates or [None]. *)
Theorem parse_date_equivalent_spellings :
  (parse_date (CStr "15-01-2025") = Some (Date 2025 1 15) ∧
   parse_date (CStr "15/01/2025") = Some (Date 2025 1 15) ∧
   parse_date (CStr "2025-01-15") = Some (Date 2025 1 15) ∧
   parse_date (CStr "15-01-25") = Some (Date 2025 1 15)) ∧
  (∀ v, isna v = true → parse_date v = None) ∧
  (∀ s d, parse_date (CStr s) = Some d ↔
     (∃ i fmt, Strptime.formats !! i = Some fmt ∧
               Strptime.strptime (Str.strip s) fmt = Some d ∧
               ∀ j fmt', j < i → Strptime.formats !! j = Some fmt' →
                         Strptime.strptime (Str.strip s) fmt' = None) ∨
     ((∀ fmt, fmt ∈ Strptime.formats → Strptime.strptime (Str.strip s) fmt = None) ∧
      to_datetime_dayfirst (Str.strip s) = Some d)) ∧
  (∀ s, (∀ fmt, fmt ∈ Strptime.formats → Strptime.strptime (Str.strip s) fmt = None) →
        to_datetime_dayfirst (Str.strip s) = None →
        parse_date (CStr s) = None) ∧
  length Strptime.formats = 10.
Proof.
  split; [by vm_compute|]. split; [|split; [|split; [|done]]].
  - intros v Hv. unfold parse_date. by rewrite Hv.
  - intros s d. rewrite parse_date_string.
    destruct (try_formats (Str.strip s) Strptime.formats) as [d'|] eqn:Htry.
    + split.
      * intros [= ->]. left. by apply try_formats_first.
      * intros [Hfirst|[Hnone _]].
        -- apply try_formats_first in Hfirst. congruence.
        -- apply try_formats_none in Hnone. congruence.
    + split.
      * intros Hd. right. split; [by apply try_formats_none | done].
      * intros [Hfirst|[_ Hd]]; [|done].
        apply try_formats_first in Hfirst. congruence.
  - intros s Hnone Hpd. rewrite parse_date_string.
    apply try_formats_none in Hnone. by rewrite Hnone.
Qed.

End ParseDate.

(** ** Rounding to binary64 *)

Section Rounding.
Local Open Scope Z_scope.

Lemma nearest_even_whole n : Float.nearest_even n 1 = n.
Proof.
  unfold Float.nearest_even. rewrite Z.div_1_r, Z.mod_1_r. reflexivity.
Qed.

Lemma Qred_whole z : Qred (z # 1) = (z # 1)%Q.
Proof. apply Qred_identity. simpl. apply Z.gcd_1_r. Qed.

Lemma dyadic_whole n e m :
  e <= 0 → m = n * 2 ^ (- e) → Float.dyadic m e = (n # 1)%Q.
Proof.
  intros He ->. unfold Float.dyadic.
  rewrite <- (Qred_whole n). apply Qred_complete.
  destruct (Z.leb_spec 0 e) as [Hle|Hlt].
  - assert (e = 0) as -> by lia. simpl. unfold Qeq; simpl. lia.
  - unfold Qeq; simpl.
    rewrite Z2Pos.id by (apply Z.pow_pos_nonneg; lia). lia.
Qed.

Lemma ilog2_whole n : 0 < n → Float.ilog2 n 1 = Z.log2 n.
Proof.
  intros Hpos.
  pose proof (Z.log2_spec n Hpos) as [Hlo Hhi].
  pose proof (Z.log2_nonneg n) as Hnn.
  unfold Float.ilog2, Float.scale2. change (Z.log2 1) with 0. rewrite Z.sub_0_r.
  destruct (Z.leb_spec 0 (Z.log2 n)) as [_|?]; [|lia].
  cbv beta iota.
  destruct (Z.leb_spec (1 * 2 ^ Z.log2 n) n) as [_|?]; lia.
Qed.

(** An integer below 2^53 is a binary64 value. *)
Lemma round_pos_whole n :
  0 < n < 2 ^ 53 → Float.round_pos n 1 = Some (n # 1)%Q.
Proof.
  intros [Hpos Hlt].
  pose proof (Z.log2_nonneg n) as Hnn.
  assert (Z.log2 n < 53) as Hl53 by (apply Z.log2_lt_pow2; lia).
  unfold Float.round_pos. rewrite ilog2_whole by done.
  unfold Float.prec, Float.emin, Float.emax.
  rewrite Z.max_l by lia.
  set (e := Z.log2 n - (53 - 1)).
  assert (e <= 0) as He by (unfold e; lia).
  unfold Float.scale2.
  destruct (Z.leb_spec 0 e) as [Hle|Hneg]; cbv beta iota.
  - assert (e = 0) as -> by lia. change (1 * 2 ^ 0) with 1.
    rewrite nearest_even_whole. simpl andb.
    destruct (Z.leb_spec (2 ^ 1024) (n * 2 ^ 0)) as [Hbig|_].
    + exfalso. change (2 ^ 0) with 1 in Hbig.
      assert (2 ^ 53 < 2 ^ 1024) by (apply Z.pow_lt_mono_r; lia). lia.
    + f_equal. apply (dyadic_whole n); [lia|]. change (2 ^ (- 0)) with 1. lia.
  - rewrite nearest_even_whole. simpl andb. f_equal.
    by apply (dyadic_whole n).
Qed.

Lemma round_whole z :
  0 <= z < 2 ^ 53 → Float.round (inject_Z z) = FFin (inject_Z z).
Proof.
  intros [Hnn Hlt]. unfold Float.round, inject_Z; simpl.
  destruct z as [|p|p]; [done| |lia].
  by rewrite round_pos_whole.
Qed.

End Rounding.

(** ** Decimal digits *)

Lemma digit_cases c :
  Str.is_digit c = true →
  c ∈ ["0"; "1"; "2"; "3"; "4"; "5"; "6"; "7"; "8"; "9"]%char.
Proof.
  destruct c as [[] [] [] [] [] [] [] []]; intros Hc; try discriminate Hc;
    set_solver.
Qed.

(** Replaces a digit by each of the ten digits. *)
Ltac each_digit c Hc :=
  apply digit_cases in Hc;
  repeat (apply elem_of_cons in Hc as [->|Hc]);
  [.. | by apply elem_of_nil in Hc].

Lemma append_cons c (a b : string) : String c a +:+ b = String c (a +:+ b).
Proof. reflexivity. Qed.

Lemma append_empty_l (b : string) : "" +:+ b = b.
Proof. reflexivity. Qed.

Lemma length_append (a b : string) :
  String.length (a +:+ b) = String.length a + String.length b.
Proof.
  induction a as [|c a IH]; [done|]. rewrite append_cons. simpl. by f_equal.
Qed.

Lemma append_empty_r (a : string) : a +:+ "" = a.
Proof. induction a as [|c a IH]; [done|]. rewrite append_cons. by f_equal. Qed.

Lemma append_assoc (a b c : string) : (a +:+ b) +:+ c = a +:+ (b +:+ c).
Proof. induction a as [|x a IH]; [done|]. rewrite !append_cons. by f_equal. Qed.

Lemma substring_prefix (a b : string) : substring 0 (String.length a) (a +:+ b) = a.
Proof.
  induction a as [|c a IH].
  - by destruct b.
  - rewrite append_cons. simpl. by f_equal.
Qed.

Lemma consumed_append (a rest : string) : Str.consumed (a +:+ rest) rest = a.
Proof.
  unfold Str.consumed. rewrite length_append.
  replace (String.length a + String.length rest - String.length rest)
    with (String.length a) by lia.
  apply substring_prefix.
Qed.

Lemma uint_digits u : Str.all Str.is_digit (NilEmpty.string_of_uint u) = true.
Proof. induction u; simpl; try done. Qed.

Lemma uint_value u acc :
  Str.int_of_digits_acc (NilEmpty.string_of_uint u) (Z.of_nat acc)
  = Z.of_nat (Nat.of_uint_acc u acc).
Proof.
  revert acc. induction u; intros acc; simpl; [done|..];
    rewrite Nat.tail_mul_spec, <- IHu; f_equal; unfold Str.digit_val; simpl; lia.
Qed.

Lemma of_nat_digits n : Str.all Str.is_digit (Str.of_nat n) = true.
Proof. apply uint_digits. Qed.

Lemma of_nat_nonempty n : ∃ c s, Str.of_nat n = String c s.
Proof.
  unfold Str.of_nat.
  assert (Nat.to_uint n ≠ Decimal.Nil) as Hnil.
  { rewrite <- (DecimalNat.Unsigned.of_to n) at 1.
    rewrite DecimalNat.Unsigned.to_of. apply DecimalFacts.unorm_nonnil. }
  destruct (Nat.to_uint n); [done|..]; simpl; eauto.
Qed.

Lemma int_of_digits_of_nat n : Str.int_of_digits (Str.of_nat n) = Z.of_nat n.
Proof.
  unfold Str.int_of_digits, Str.of_nat.
  rewrite (uint_value _ 0). f_equal. apply DecimalNat.Unsigned.of_to.
Qed.

(** ** Matching a run of a class *)

Section Runs.
Context {A : Type}.
Implicit Types (p : ascii → bool) (a t : string).

(** The greedy repetition takes the whole run when what follows it is
    accepted there. *)
Lemma star_greedy p a t (k : string → option A) x :
  Str.all p a = true → Str.stops p t = true → k t = Some x →
  Re.star p (a +:+ t) k = Some x.
Proof.
  intros Ha Ht Hk. induction a as [|c a IH].
  - rewrite append_empty_l. destruct t as [|c t]; simpl; [done|].
    simpl in Ht. apply negb_true_iff in Ht. by rewrite Ht.
  - rewrite append_cons. simpl in *. apply andb_true_iff in Ha as [-> Ha].
    by rewrite IH.
Qed.

(** It fails when what follows is rejected after every part of the run. *)
Lemma star_fail p a t (k : string → option A) :
  Str.all p a = true → Str.stops p t = true →
  (∀ a', Str.all p a' = true → k (a' +:+ t) = None) →
  Re.star p (a +:+ t) k = None.
Proof.
  intros Ha Ht Hk. induction a as [|c a IH].
  - rewrite append_empty_l. specialize (Hk "" eq_refl). rewrite append_empty_l in Hk.
    destruct t as [|c t]; simpl; [done|].
    simpl in Ht. apply negb_true_iff in Ht. by rewrite Ht.
  - rewrite append_cons. simpl in Ha. apply andb_true_iff in Ha as [Hc Ha].
    simpl. rewrite Hc, IH by done.
    rewrite <- append_cons. apply Hk. simpl. by rewrite Hc.
Qed.

Lemma plus_greedy p c a t caps (k : string → Re.captures → option A) x :
  p c = true → Str.all p a = true → Str.stops p t = true →
  k t caps = Some x →
  Re.run (Re.plus p) (String c a +:+ t) caps k = Some x.
Proof.
  intros Hc Ha Ht Hk. rewrite append_cons. simpl. rewrite Hc.
  by apply star_greedy.
Qed.

Lemma plus_fail p a t caps (k : string → Re.captures → option A) :
  Str.all p a = true → Str.stops p t = true →
  (∀ a', Str.all p a' = true → k (a' +:+ t) caps = None) →
  Re.run (Re.plus p) (a +:+ t) caps k = None.
Proof.
  intros Ha Ht Hk. destruct a as [|c a].
  - rewrite append_empty_l. destruct t as [|c t]; simpl; [done|].
    simpl in Ht. apply negb_true_iff in Ht. by rewrite Ht.
  - rewrite append_cons. simpl in *. apply andb_true_iff in Ha as [-> Ha].
    by apply star_fail.
Qed.

End Runs.

(** ** The number of the duration patterns *)

Section NumberGroup.
Context {A : Type}.
Implicit Types (a t : string) (k : string → Re.captures → option A).

Lemma lit_stops c s caps k :
  Str.stops (Ascii.eqb c) s = true → Re.run (Re.lit c) s caps k = None.
Proof.
  destruct s as [|x s]; simpl; [done|]. by intros ->%negb_true_iff.
Qed.

Lemma digits_stop_dot a t :
  Str.all Str.is_digit a = true → Str.stops Str.is_dot t = true →
  Str.stops Str.is_dot (a +:+ t) = true.
Proof.
  destruct a as [|c a]; [done|]. rewrite append_cons. simpl.
  intros [Hc _]%andb_true_iff _. by each_digit c Hc.
Qed.

Lemma number_greedy c a t caps k x :
  Str.is_digit c = true → Str.all Str.is_digit a = true →
  Str.stops Str.is_digit t = true → Str.stops Str.is_dot t = true →
  k t (<[1 := String c a]> caps) = Some x →
  Re.run (Re.Grp 1 DurationRe.number) (String c a +:+ t) caps k = Some x.
Proof.
  intros Hc Ha Ht Hdot Hk. unfold DurationRe.number. cbn [Re.run].
  apply plus_greedy; try done.
  unfold Re.opt. cbn [Re.run]. rewrite lit_stops by done.
  by rewrite consumed_append.
Qed.

Lemma number_fail a t caps k :
  Str.all Str.is_digit a = true →
  Str.stops Str.is_digit t = true → Str.stops Str.is_dot t = true →
  (∀ a' caps', Str.all Str.is_digit a' = true → k (a' +:+ t) caps' = None) →
  Re.run (Re.Grp 1 DurationRe.number) (a +:+ t) caps k = None.
Proof.
  intros Ha Ht Hdot Hk. unfold DurationRe.number. cbn [Re.run].
  apply plus_fail; try done. intros a' Ha'.
  unfold Re.opt. cbn [Re.run]. rewrite lit_stops by (by apply digits_stop_dot).
  by apply Hk.
Qed.

End NumberGroup.

Lemma search_cons_fail r c s :
  Re.match_ r (String c s) = None → Re.search r (String c s) = Re.search r s.
Proof. intros Hm. simpl. by rewrite Hm. Qed.

Lemma search_found r s m : Re.match_ r s = Some m → Re.search r s = Some m.
Proof. intros Hm. destruct s; simpl; by rewrite Hm. Qed.

Lemma search_skip r p a t :
  Str.all p a = true →
  (∀ a', Str.all p a' = true → Re.match_ r (a' +:+ t) = None) →
  Re.search r (a +:+ t) = Re.search r t.
Proof.
  intros Ha Hfail. induction a as [|c a IH]; [done|].
  pose proof Ha as Ha'. simpl in Ha'. apply andb_true_iff in Ha' as [_ Ha'].
  rewrite append_cons, search_cons_fail; [by apply IH|].
  rewrite <- append_cons. by apply Hfail.
Qed.

(** ** The hour and minute patterns on a number and its unit *)

Lemma run_seq {A} r1 r2 s caps (k : string → Re.captures → option A) :
  Re.run (Re.Seq r1 r2) s caps k
  = Re.run r1 s caps (fun s' caps' => Re.run r2 s' caps' k).
Proof. reflexivity. Qed.

Section Units.
Implicit Types (a t : string) (c : ascii).

Lemma hours_short c a t :
  Str.is_digit c = true → Str.all Str.is_digit a = true →
  Re.match_ DurationRe.hours (String c a +:+ String "h" t)
  = Some ({[1 := String c a]}, t).
Proof.
  intros Hc Ha. unfold Re.match_, DurationRe.hours. rewrite run_seq.
  by apply number_greedy.
Qed.

Lemma hours_long c a t :
  Str.is_digit c = true → Str.all Str.is_digit a = true →
  Re.match_ DurationRe.hours (String c a +:+ String " " (String "h" t))
  = Some ({[1 := String c a]}, t).
Proof.
  intros Hc Ha. unfold Re.match_, DurationRe.hours. rewrite run_seq.
  by apply number_greedy.
Qed.

Lemma minutes_short c a t :
  Str.is_digit c = true → Str.all Str.is_digit a = true →
  Re.match_ DurationRe.minutes (String c a +:+ String "m" t)
  = Some ({[1 := String c a]}, t).
Proof.
  intros Hc Ha. unfold Re.match_, DurationRe.minutes. rewrite run_seq.
  by apply number_greedy.
Qed.

Lemma minutes_long c a t :
  Str.is_digit c = true → Str.all Str.is_digit a = true →
  Re.match_ DurationRe.minutes (String c a +:+ String " " (String "m" t))
  = Some ({[1 := String c a]}, t).
Proof.
  intros Hc Ha. unfold Re.match_, DurationRe.minutes. rewrite run_seq.
  by apply number_greedy.
Qed.

(** No minutes where the digits are followed by the hour unit. *)
Lemma minutes_not_before_h a t :
  Str.all Str.is_digit a = true →
  Re.match_ DurationRe.minutes (a +:+ String "h" t) = None.
Proof.
  intros Ha. unfold Re.match_, DurationRe.minutes. rewrite run_seq.
  apply number_fail; try done.
  intros [|c a'] caps' Ha'; [done|].
  rewrite append_cons. simpl in Ha'. apply andb_true_iff in Ha' as [Hc _].
  by each_digit c Hc.
Qed.

Lemma minutes_not_before_space_h a t :
  Str.all Str.is_digit a = true →
  Re.match_ DurationRe.minutes (a +:+ String " " (String "h" t)) = None.
Proof.
  intros Ha. unfold Re.match_, DurationRe.minutes. rewrite run_seq.
  apply number_fail; try done.
  intros [|c a'] caps' Ha'; [done|].
  rewrite append_cons. simpl in Ha'. apply andb_true_iff in Ha' as [Hc _].
  by each_digit c Hc.
Qed.

End Units.

(** ** [strip] and [float] on numbers and on numbers with a unit *)

Lemma rstrip_id s : Str.ends_ok s = true → Str.rstrip s = s.
Proof.
  induction s as [|c s IH]; [done|]. intros Hs. simpl in *.
  destruct s as [|c' s].
  - simpl. apply negb_true_iff in Hs. by rewrite Hs.
  - by rewrite IH.
Qed.

Lemma lstrip_id c s : Str.is_space c = false → Str.lstrip (String c s) = String c s.
Proof. intros Hc. simpl. by rewrite Hc. Qed.

Lemma strip_id c s :
  Str.is_space c = false → Str.ends_ok (String c s) = true →
  Str.strip (String c s) = String c s.
Proof. intros Hc Hs. unfold Str.strip. rewrite lstrip_id, rstrip_id; done. Qed.

Lemma ends_ok_append a c b :
  Str.ends_ok (a +:+ String c b) = Str.ends_ok (String c b).
Proof.
  induction a as [|x a IH]; [done|]. rewrite append_cons.
  change (Str.ends_ok (String x (a +:+ String c b)))
    with (match a +:+ String c b with
          | EmptyString => negb (Str.is_space x)
          | _ => Str.ends_ok (a +:+ String c b)
          end).
  rewrite <- IH. by destruct a.
Qed.

Lemma ends_ok_digits a : Str.all Str.is_digit a = true → Str.ends_ok a = true.
Proof.
  induction a as [|c a IH]; [done|]. simpl. intros [Hc Ha]%andb_true_iff.
  destruct a; [by each_digit c Hc | by apply IH].
Qed.

Lemma digit_not_space c : Str.is_digit c = true → Str.is_space c = false.
Proof. intros Hc. by each_digit c Hc. Qed.

Lemma digits_tail_append a t :
  Str.all Str.is_digit a = true →
  Str.stops Str.is_digit t = true → Str.stops (Ascii.eqb "_") t = true →
  Float.digits_tail (a +:+ t) = (a, t).
Proof.
  intros Ha Ht Hu. induction a as [|c a IH].
  - rewrite append_empty_l. destruct t as [|x t]; [done|].
    unfold Str.stops in Ht, Hu. apply negb_true_iff in Ht, Hu.
    rewrite Ascii.eqb_sym in Hu. cbn [Float.digits_tail]. by rewrite Ht, Hu.
  - rewrite append_cons. cbn [Str.all] in Ha. apply andb_true_iff in Ha as [Hc Ha].
    cbn [Float.digits_tail]. by rewrite Hc, IH.
Qed.

Lemma digitpart_append c a t :
  Str.is_digit c = true → Str.all Str.is_digit a = true →
  Str.stops Str.is_digit t = true → Str.stops (Ascii.eqb "_") t = true →
  Float.digitpart (String c a +:+ t) = Some (String c a, t).
Proof.
  intros Hc Ha Ht Hu. rewrite append_cons. unfold Float.digitpart.
  by rewrite Hc, digits_tail_append.
Qed.

Lemma floatnumber_digits c a :
  Str.is_digit c = true → Str.all Str.is_digit a = true →
  Float.floatnumber (String c a) = Some (String c a, 0%Z).
Proof.
  intros Hc Ha.
  replace (Float.floatnumber (String c a))
    with (Float.floatnumber (String c a +:+ "")) by (by rewrite append_empty_r).
  unfold Float.floatnumber. rewrite digitpart_append by done.
  simpl. by rewrite append_empty_r.
Qed.

Lemma floatnumber_unit c a x t :
  Str.is_digit c = true → Str.all Str.is_digit a = true →
  x ∈ ["h"; " "]%char →
  Float.floatnumber (String c a +:+ String x t) = None.
Proof.
  intros Hc Ha Hx. unfold Float.floatnumber.
  repeat (apply elem_of_cons in Hx as [->|Hx]);
    [| |by apply elem_of_nil in Hx]; by rewrite digitpart_append.
Qed.

Lemma head_digit_plain c s :
  Str.is_digit c = true →
  Float.sign (String c s) = (false, String c s) ∧
  (Str.lower (String c s) =? "inf")%string
  || (Str.lower (String c s) =? "infinity")%string = false ∧
  (Str.lower (String c s) =? "nan")%string = false.
Proof. intros Hc. by each_digit c Hc. Qed.

(** [float] of a string of digits is the rounded integer. *)
Lemma of_string_digits c a :
  Str.is_digit c = true → Str.all Str.is_digit a = true →
  Float.of_string (String c a)
  = Some (Float.round (inject_Z (Str.int_of_digits (String c a)))).
Proof.
  intros Hc Ha. unfold Float.of_string.
  rewrite strip_id;
    [|by apply digit_not_space|apply ends_ok_digits; simpl; by rewrite Hc, Ha].
  destruct (head_digit_plain c a Hc) as (-> & -> & ->).
  rewrite floatnumber_digits by done. unfold Float.decimal. simpl.
  by rewrite Z.mul_1_r.
Qed.

(** [float] rejects digits followed by a letter or a blank. *)
Lemma of_string_unit c a x t :
  Str.is_digit c = true → Str.all Str.is_digit a = true →
  x ∈ ["h"; " "]%char → Str.ends_ok (String x t) = true →
  Float.of_string (String c a +:+ String x t) = None.
Proof.
  intros Hc Ha Hx Hend. unfold Float.of_string.
  rewrite append_cons, strip_id;
    [|by apply digit_not_space|by rewrite <- append_cons, ends_ok_append].
  destruct (head_digit_plain c (a +:+ String x t) Hc) as (-> & -> & ->).
  rewrite <- append_cons. by rewrite floatnumber_unit.
Qed.

(** ** Arithmetic on whole floats *)

Section WholeFloats.
Local Open Scope Z_scope.

Lemma add_whole x y :
  0 <= x → 0 <= y → x + y < 2 ^ 53 →
  Float.add (Float.of_Z_exact x) (Float.of_Z_exact y) = Float.of_Z_exact (x + y).
Proof.
  intros Hx Hy Hxy. unfold Float.add, Float.of_Z_exact.
  replace (inject_Z x + inject_Z y)%Q with (inject_Z (x + y)).
  - apply round_whole. lia.
  - unfold Qplus, inject_Z; simpl. f_equal. lia.
Qed.

Lemma mul_whole x y :
  0 <= x → 0 <= y → x * y < 2 ^ 53 →
  Float.mul (Float.of_Z_exact x) (Float.of_Z_exact y) = Float.of_Z_exact (x * y).
Proof.
  intros Hx Hy Hxy. unfold Float.mul, Float.of_Z_exact.
  replace (inject_Z x * inject_Z y)%Q with (inject_Z (x * y)).
  - apply round_whole. lia.
  - unfold Qmult, inject_Z; simpl. done.
Qed.

Lemma of_int_whole z :
  0 <= z < 2 ^ 53 → Float.of_int z = Some (Float.of_Z_exact z).
Proof. intros Hz. unfold Float.of_int. by rewrite round_whole. Qed.

Lemma float_of_str_whole n :
  Z.of_nat n < 2 ^ 53 →
  float_of_str (Str.of_nat n) = Ok (Float.of_Z_exact (Z.of_nat n)).
Proof.
  intros Hn. unfold float_of_str.
  destruct (of_nat_nonempty n) as (c & a & Hca).
  pose proof (of_nat_digits n) as Hd. pose proof (int_of_digits_of_nat n) as Hv.
  rewrite Hca in *. simpl in Hd. apply andb_true_iff in Hd as [Hc Ha].
  rewrite of_string_digits, Hv by done. simpl. f_equal.
  apply round_whole. lia.
Qed.

Lemma float_mul_int_whole x i :
  0 <= x → 0 <= i → x * i < 2 ^ 53 → i < 2 ^ 53 →
  float_mul_int (Float.of_Z_exact x) i = Ok (Float.of_Z_exact (x * i)).
Proof.
  intros Hx Hi Hxi Hi53. unfold float_mul_int.
  rewrite of_int_whole by lia. simpl. f_equal. by apply mul_whole.
Qed.

Lemma int_add_float_whole i x :
  0 <= i → 0 <= x → i + x < 2 ^ 53 →
  int_add_float i (Float.of_Z_exact x) = Ok (Float.of_Z_exact (i + x)).
Proof.
  intros Hi Hx Hix. unfold int_add_float.
  rewrite of_int_whole by lia. simpl. f_equal. by apply add_whole.
Qed.

End WholeFloats.

(** ** Hours and minutes in two spellings *)

Lemma colon_times_reject a x t :
  Str.all Str.is_digit a = true → x ∈ ["h"; " "]%char →
  Re.match_ DurationRe.hms (a +:+ String x t) = None ∧
  Re.match_ DurationRe.ms (a +:+ String x t) = None.
Proof.
  intros Ha Hx.
  assert (∀ a', Str.all Str.is_digit a' = true →
                Str.stops (Ascii.eqb ":") (a' +:+ String x t) = true) as Hcolon.
  { intros [|c a'] Ha'.
    - rewrite append_empty_l.
      repeat (apply elem_of_cons in Hx as [->|Hx]; [done|]).
      by apply elem_of_nil in Hx.
    - rewrite append_cons. simpl in Ha'. apply andb_true_iff in Ha' as [Hc _].
      by each_digit c Hc. }
  assert (Str.stops Str.is_digit (String x t) = true) as Hstop.
  { repeat (apply elem_of_cons in Hx as [->|Hx]; [done|]).
    by apply elem_of_nil in Hx. }
  unfold Re.match_, DurationRe.hms, DurationRe.ms.
  split; rewrite run_seq; cbn [Re.run]; apply plus_fail; try done;
    intros a' Ha'; by apply lit_stops, Hcolon.
Qed.

Lemma group_first g t : Re.group ({[1 := g]}, t) 1 = g.
Proof. unfold Re.group. cbn [fst]. by rewrite lookup_singleton_eq. Qed.

Lemma parse_units duration_str hours_text minutes_text t1 t2 H M :
  Float.of_string duration_str = None →
  Re.match_ DurationRe.hms duration_str = None →
  Re.match_ DurationRe.ms duration_str = None →
  Re.search DurationRe.hours duration_str = Some ({[1 := hours_text]}, t1) →
  Re.search DurationRe.minutes duration_str = Some ({[1 := minutes_text]}, t2) →
  float_of_str hours_text = Ok (Float.of_Z_exact H) →
  float_of_str minutes_text = Ok (Float.of_Z_exact M) →
  (0 <= H)%Z → (0 <= M)%Z → (H * 60 + M < 2 ^ 53)%Z →
  parse_duration_string duration_str = Ok (Float.of_Z_exact (H * 60 + M)).
Proof.
  intros Hnum Hhms Hms Hh Hm Hhv Hmv HH HM Hlt.
  unfold parse_duration_string. rewrite Hnum, Hhms, Hms, Hh, Hm.
  cbv beta iota zeta. rewrite !group_first, Hhv, Hmv.
  cbn [mbind result_bind].
  rewrite float_mul_int_whole by lia. cbn [mbind result_bind].
  rewrite int_add_float_whole by lia. cbn [mbind result_bind].
  rewrite add_whole by lia. simpl. done.
Qed.

(** C9.  For whole numbers of hours [H] and minutes [M] whose total of
    minutes a float holds exactly (below 2^53), the text ["Hh Mm"] and the
    text ["H hours M minutes"] both parse to [H*60 + M]. *)
Theorem hours_minutes_spellings_agree (H M : nat) :
  (Z.of_nat H * 60 + Z.of_nat M < 2 ^ 53)%Z →
  parse_duration_to_minutes (CStr (short_form H M))
  = Ok (Float.of_Z_exact (Z.of_nat H * 60 + Z.of_nat M)) ∧
  parse_duration_to_minutes (CStr (long_form H M))
  = Ok (Float.of_Z_exact (Z.of_nat H * 60 + Z.of_nat M)) ∧
  parse_duration_to_minutes (CStr (short_form H M))
  = parse_duration_to_minutes (CStr (long_form H M)).
Proof.
  intros Hlt.
  assert (float_of_str (Str.of_nat H) = Ok (Float.of_Z_exact (Z.of_nat H))) as HvH
    by (apply float_of_str_whole; lia).
  assert (float_of_str (Str.of_nat M) = Ok (Float.of_Z_exact (Z.of_nat M))) as HvM
    by (apply float_of_str_whole; lia).
  destruct (of_nat_nonempty H) as (c1 & a1 & E1).
  destruct (of_nat_nonempty M) as (c2 & a2 & E2).
  pose proof (of_nat_digits H) as D1. pose proof (of_nat_digits M) as D2.
  rewrite E1 in D1, HvH. rewrite E2 in D2, HvM. simpl in D1, D2.
  apply andb_true_iff in D1 as [Hc1 Ha1]. apply andb_true_iff in D2 as [Hc2 Ha2].
  assert (Str.all Str.is_digit (String c1 a1) = true) as Hd1
    by (simpl; by rewrite Hc1, Ha1).
  set (short := String c1 a1 +:+ String "h" (String " "
                  (String c2 a2 +:+ String "m" ""))).
  set (long := String c1 a1 +:+ String " " (String "h" (String "o" (String "u"
                 (String "r" (String "s" (String " "
                   (String c2 a2 +:+ String " " (String "m" "inutes"))))))))).
  assert (short_form H M = short) as -> by (unfold short_form; by rewrite E1, E2).
  assert (long_form H M = long) as -> by (unfold long_form; by rewrite E1, E2).
  assert (Str.strip short = short) as Hs1.
  { unfold short. rewrite append_cons. apply strip_id; [by apply digit_not_space|].
    rewrite <- append_cons, ends_ok_append.
    change (Str.ends_ok (String c2 a2 +:+ String "m" "") = true).
    by rewrite ends_ok_append. }
  assert (Str.strip long = long) as Hs2.
  { unfold long. rewrite append_cons. apply strip_id; [by apply digit_not_space|].
    rewrite <- append_cons, ends_ok_append.
    change (Str.ends_ok (String c2 a2 +:+ String " " (String "m" "inutes")) = true).
    by rewrite ends_ok_append. }
  assert (parse_duration_to_minutes (CStr short)
          = Ok (Float.of_Z_exact (Z.of_nat H * 60 + Z.of_nat M))) as R1.
  { unfold parse_duration_to_minutes. simpl isna. cbv iota.
    cbn [duration_text]. rewrite Hs1.
    destruct (colon_times_reject (String c1 a1) "h"
                (String " " (String c2 a2 +:+ String "m" "")) Hd1) as [Hhms Hms];
      [set_solver|].
    eapply parse_units; try done; try lia.
    - apply of_string_unit; try done; [set_solver|].
      change (Str.ends_ok (String c2 a2 +:+ String "m" "") = true).
      by rewrite ends_ok_append.
    - apply search_found. by apply hours_short.
    - unfold short.
      rewrite (search_skip _ Str.is_digit) by
        (done || (intros; by apply minutes_not_before_h)).
      rewrite !search_cons_fail by done.
      apply search_found. by apply minutes_short. }
  assert (parse_duration_to_minutes (CStr long)
          = Ok (Float.of_Z_exact (Z.of_nat H * 60 + Z.of_nat M))) as R2.
  { unfold parse_duration_to_minutes. simpl isna. cbv iota.
    cbn [duration_text]. rewrite Hs2.
    destruct (colon_times_reject (String c1 a1) " "
                (String "h" (String "o" (String "u" (String "r" (String "s"
                  (String " " (String c2 a2 +:+ String " " (String "m" "inutes"))))))))
                Hd1) as [Hhms Hms]; [set_solver|].
    eapply parse_units; try done; try lia.
    - apply of_string_unit; try done; [set_solver|].
      change (Str.ends_ok (String c2 a2 +:+ String " " (String "m" "inutes")) = true).
      by rewrite ends_ok_append.
    - apply search_found. by apply hours_long.
    - unfold long.
      rewrite (search_skip _ Str.is_digit) by
        (done || (intros; by apply minutes_not_before_space_h)).
      rewrite !search_cons_fail by done.
      apply search_found. by apply minutes_long. }
  by rewrite R1, R2.
Qed.

(** The two spellings agree for every [H] and [M], whatever the rounding
    does to their total. *)
Lemma parse_units_texts duration_str hours_text minutes_text t1 t2 :
  Float.of_string duration_str = None →
  Re.match_ DurationRe.hms duration_str = None →
  Re.match_ DurationRe.ms duration_str = None →
  Re.search DurationRe.hours duration_str = Some ({[1 := hours_text]}, t1) →
  Re.search DurationRe.minutes duration_str = Some ({[1 := minutes_text]}, t2) →
  parse_duration_string duration_str = units_total hours_text minutes_text.
Proof.
  intros Hnum Hhms Hms Hh Hm.
  unfold parse_duration_string, units_total. rewrite Hnum, Hhms, Hms, Hh, Hm.
  cbv beta iota zeta. rewrite !group_first.
  destruct (float_of_str hours_text) as [h|]; [|done]. cbn [mbind result_bind].
  destruct (float_mul_int h 60) as [x|]; [|done]. cbn [mbind result_bind].
  destruct (int_add_float 0 x) as [y|]; [|done]. cbn [mbind result_bind].
  by destruct (float_of_str minutes_text).
Qed.

(** ** What a match can capture *)

Section Inversion.
Context {A : Type}.
Implicit Types (k : string → Re.captures → option A).

Lemma star_inv p s (k : string → option A) x :
  Re.star p s k = Some x →
  ∃ a t, s = a +:+ t ∧ Str.all p a = true ∧ k t = Some x.
Proof.
  induction s as [|c s IH]; simpl.
  - intros Hk. by exists "", "".
  - destruct (p c) eqn:Hc.
    + destruct (Re.star p s k) as [y|] eqn:Hs.
      * intros [= ->]. destruct (IH eq_refl) as (a & t & -> & Ha & Hk).
        exists (String c a), t. rewrite append_cons. simpl. by rewrite Hc, Ha.
      * intros Hk. by exists "", (String c s).
    + intros Hk. by exists "", (String c s).
Qed.

Lemma plus_inv p s caps k x :
  Re.run (Re.plus p) s caps k = Some x →
  ∃ c a t, s = String c a +:+ t ∧ p c = true ∧ Str.all p a = true ∧
           k t caps = Some x.
Proof.
  destruct s as [|c s]; simpl; [done|].
  destruct (p c) eqn:Hc; [|done].
  intros (a & t & -> & Ha & Hk)%star_inv. by exists c, a, t.
Qed.

Lemma groupless_run r : groupless r = true → ∀ s caps k x,
  Re.run r s caps k = Some x → ∃ t, k t caps = Some x.
Proof.
  induction r as [|p|r1 IH1 r2 IH2|r1 IH1 r2 IH2|p| |n r IH];
    intros Hg s caps k x; simpl in *.
  - eauto.
  - destruct s as [|c s]; [done|]. destruct (p c); [eauto | done].
  - apply andb_true_iff in Hg as [Hg1 Hg2].
    intros (t & Ht)%(IH1 Hg1). by apply (IH2 Hg2) in Ht.
  - apply andb_true_iff in Hg as [Hg1 Hg2].
    destruct (Re.run r1 s caps k) as [y|] eqn:H1.
    + intros [= ->]. by apply (IH1 Hg1) in H1.
    + by intros ?%(IH2 Hg2).
  - intros (a & t & _ & _ & Hk)%star_inv. eauto.
  - destruct s as [|c [|c' s]]; [eauto | | done].
    destruct (c =? "010")%char; [eauto | done].
  - done.
Qed.

Lemma number_inv s caps k x :
  Re.run (Re.Grp 1 DurationRe.number) s caps k = Some x →
  ∃ g t, s = g +:+ t ∧ number_shape g ∧ k t (<[1 := g]> caps) = Some x.
Proof.
  unfold DurationRe.number. cbn [Re.run].
  intros (c & a & t & -> & Hc & Ha & Hk)%plus_inv.
  unfold Re.opt in Hk. cbn [Re.run] in Hk.
  destruct (Re.run (Re.lit ".") t caps _) as [y|] eqn:Hfrac.
  - injection Hk as ->. destruct t as [|d t]; [done|].
    unfold Re.lit in Hfrac. cbn [Re.run] in Hfrac.
    destruct (Ascii.eqb "." d) eqn:Hd; [|done].
    apply Ascii.eqb_eq in Hd as <-.
    apply plus_inv in Hfrac as (c' & b & t' & -> & Hc' & Hb & Hk).
    replace (String c a +:+ String "." (String c' b +:+ t'))
      with ((String c a +:+ String "." (String c' b)) +:+ t') in Hk |- *
      by (by rewrite append_assoc).
    rewrite consumed_append in Hk.
    exists (String c a +:+ String "." (String c' b)), t'.
    split; [done|]. split; [|done]. exists c, a. split; [done|].
    split; [done|]. right. by exists c', b.
  - rewrite consumed_append in Hk. exists (String c a), t.
    split; [done|]. split; [|done]. exists c, a. auto.
Qed.

End Inversion.

(** ** Signs and overflow of rounding *)

Section Signs.
Local Open Scope Z_scope.

Lemma nearest_even_bounds n d :
  0 <= n → 0 < d →
  0 <= Float.nearest_even n d ∧ Float.nearest_even n d <= n / d + 1.
Proof.
  intros Hn Hd. unfold Float.nearest_even.
  pose proof (Z.div_pos n d Hn Hd).
  destruct (_ || _); lia.
Qed.

Lemma dyadic_nonneg m e : 0 <= m → (0 <= Float.dyadic m e)%Q.
Proof.
  intros Hm. unfold Float.dyadic. rewrite Qred_correct.
  destruct (0 <=? e).
  - unfold Qle, inject_Z; simpl. pose proof (Z.pow_nonneg 2 e). nia.
  - unfold Qle; simpl. lia.
Qed.

Lemma scale2_positive n d e n' d' :
  0 <= n → 0 < d → Float.scale2 n d e = (n', d') → 0 <= n' ∧ 0 < d'.
Proof.
  intros Hn Hd. unfold Float.scale2.
  destruct (Z.leb_spec 0 e) as [He|He]; intros [= <- <-].
  - split; [done|]. pose proof (Z.pow_pos_nonneg 2 e). nia.
  - split; [|done]. pose proof (Z.pow_pos_nonneg 2 (- e)). nia.
Qed.

Lemma round_pos_nonneg n d q :
  0 <= n → 0 < d → Float.round_pos n d = Some q → (0 <= q)%Q.
Proof.
  intros Hn Hd. unfold Float.round_pos.
  destruct (Float.scale2 n d _) as [n' d'] eqn:Hs.
  apply scale2_positive in Hs as [Hn' Hd']; [|done..].
  destruct (_ && _); [done|]. intros [= <-].
  apply dyadic_nonneg. by apply nearest_even_bounds.
Qed.

Lemma round_nonneg q : (0 <= q)%Q → nonneg (Float.round q).
Proof.
  intros Hq. unfold nonneg, Float.round.
  destruct q as [n d]. unfold Qle in Hq; simpl in *.
  destruct n as [|p|p]; [done| |lia].
  destruct (Float.round_pos (Z.pos p) (Z.pos d)) as [r|] eqn:Hr; [|done].
  simpl. apply Qle_bool_iff. by apply round_pos_nonneg in Hr.
Qed.

Lemma nonneg_inv f :
  nonneg f → (∃ q, f = FFin q ∧ (0 <= q)%Q) ∨ f = FInf false.
Proof.
  unfold nonneg. destruct f as [q|[]|]; simpl; try done.
  - intros Hq%Qle_bool_iff. left. eauto.
  - by right.
Qed.

Lemma add_nonneg x y : nonneg x → nonneg y → nonneg (Float.add x y).
Proof.
  intros [(a & -> & Ha)| ->]%nonneg_inv [(b & -> & Hb)| ->]%nonneg_inv;
    simpl; try done.
  apply round_nonneg.
  change 0%Q with (0 + 0)%Q. by apply Qplus_le_compat.
Qed.

Lemma mul_nonneg_whole x z :
  nonneg x → 0 < z → nonneg (Float.mul x (FFin (inject_Z z))).
Proof.
  intros [(a & -> & Ha)| ->]%nonneg_inv Hz; simpl.
  - apply round_nonneg. apply Qmult_le_0_compat; [done|].
    unfold Qle; simpl. lia.
  - unfold Float.is_zero, Float.is_neg; simpl.
    destruct (Z.eqb_spec z 0); [lia|]. destruct (Z.ltb_spec z 0); [lia | done].
Qed.

End Signs.

Section Overflow.
Local Open Scope Z_scope.

Lemma ilog2_upper n d k :
  0 < n → 0 < d → 0 <= k → n < d * 2 ^ k → Float.ilog2 n d < k.
Proof.
  intros Hn Hd Hk Hlt.
  pose proof (Z.log2_spec d Hd) as [_ Hdhi].
  pose proof (Z.log2_nonneg d) as Hld. pose proof (Z.log2_nonneg n) as Hln.
  assert (Z.log2 n < Z.log2 d + 1 + k) as Hlog.
  { apply Z.log2_lt_pow2; [done|].
    rewrite Z.pow_add_r by lia. rewrite <- Z.add_1_r in Hdhi.
    pose proof (Z.pow_pos_nonneg 2 k). nia. }
  unfold Float.ilog2, Float.scale2.
  destruct (Z.leb_spec 0 (Z.log2 n - Z.log2 d)) as [He|He]; cbv beta iota.
  - destruct (Z.leb_spec (d * 2 ^ (Z.log2 n - Z.log2 d)) n) as [Hle|Hgt]; [|lia].
    assert (Z.log2 n - Z.log2 d ≠ k); [|lia].
    intros Heq. rewrite Heq in Hle. lia.
  - destruct (_ <=? _); lia.
Qed.

(** A positive fraction below 2^1023 rounds to a finite float. *)
Lemma round_pos_finite n d :
  0 < n → 0 < d → n < d * 2 ^ 1023 → ∃ q, Float.round_pos n d = Some q.
Proof.
  intros Hn Hd Hlt.
  pose proof (ilog2_upper n d 1023 Hn Hd ltac:(lia) Hlt) as HE.
  unfold Float.round_pos, Float.prec, Float.emin, Float.emax.
  set (e := Z.max (Float.ilog2 n d - (53 - 1)) (-1074)).
  assert (e <= 970) as He by (unfold e; lia).
  unfold Float.scale2.
  destruct (Z.leb_spec 0 e) as [Hpos|Hneg]; cbv beta iota; [|simpl; eauto].
  simpl andb.
  assert (0 < 2 ^ e) as H2e by (apply Z.pow_pos_nonneg; lia).
  destruct (nearest_even_bounds n (d * 2 ^ e)) as [_ Hm]; [lia|nia|].
  assert (n / (d * 2 ^ e) * 2 ^ e < 2 ^ 1023) as Hx.
  { pose proof (Z.mul_div_le n (d * 2 ^ e) ltac:(nia)) as Hdiv. nia. }
  assert (2 ^ e <= 2 ^ 970) as Hpow by (apply Z.pow_le_mono_r; lia).
  assert (2 ^ 1023 + 2 ^ 970 < 2 ^ 1024) as Hsum by (vm_compute; done).
  destruct (Z.leb_spec (2 ^ 1024) (Float.nearest_even n (d * 2 ^ e) * 2 ^ e))
    as [Hbig|_]; [|eauto].
  exfalso. nia.
Qed.

Lemma round_finite n d :
  0 <= n → n < Z.pos d * 2 ^ 1023 → ∃ q, Float.round (n # d) = FFin q.
Proof.
  intros Hn Hlt. unfold Float.round; simpl.
  destruct n as [|p|p]; [eauto| |lia].
  destruct (round_pos_finite (Z.pos p) (Z.pos d)) as [q ->]; [lia..|eauto].
Qed.

Lemma of_int_finite z :
  0 <= z < 2 ^ 1023 → ∃ q, Float.of_int z = Some (FFin q).
Proof.
  intros [Hz Hlt]. unfold Float.of_int, inject_Z.
  destruct (round_finite z 1) as [q ->]; [lia..|eauto].
Qed.

Lemma int_div_finite z d :
  0 <= z < 2 ^ 1023 → ∃ q, Float.int_div z d = Some (FFin q).
Proof.
  intros [Hz Hlt]. unfold Float.int_div.
  destruct (round_finite z d) as [q ->]; [lia|nia|eauto].
Qed.

End Overflow.

(** ** The captured number as a float *)

Lemma int_of_digits_acc_nonneg s acc :
  (0 <= acc)%Z → (0 <= Str.int_of_digits_acc s acc)%Z.
Proof.
  revert acc. induction s as [|c s IH]; intros acc Hacc; simpl; [done|].
  apply IH. unfold Str.digit_val. lia.
Qed.

Lemma int_of_digits_nonneg s : (0 <= Str.int_of_digits s)%Z.
Proof. by apply int_of_digits_acc_nonneg. Qed.

Lemma decimal_nonneg m e : (0 <= m)%Z → (0 <= Float.decimal m e)%Q.
Proof.
  intros Hm. unfold Float.decimal. destruct (0 <=? e)%Z.
  - unfold Qle, inject_Z; simpl. pose proof (Z.pow_nonneg 10 e). nia.
  - unfold Qle; simpl. lia.
Qed.

Lemma of_string_number g :
  number_shape g → ∃ q, (0 <= q)%Q ∧ Float.of_string g = Some (Float.round q).
Proof.
  intros (c & a & Hc & Ha & [->|(c' & b & Hc' & Hb & ->)]).
  - eexists. split; [|by apply of_string_digits].
    unfold Qle, inject_Z; simpl. pose proof (int_of_digits_nonneg (String c a)). lia.
  - unfold Float.of_string. rewrite append_cons, strip_id; first last.
    + rewrite <- append_cons, ends_ok_append.
      change (Str.ends_ok (String c' b) = true).
      apply ends_ok_digits. simpl. by rewrite Hc', Hb.
    + by apply digit_not_space.
    + destruct (head_digit_plain c (a +:+ String "." (String c' b)) Hc)
        as (-> & -> & ->).
      rewrite <- append_cons. unfold Float.floatnumber.
      rewrite digitpart_append by done. cbv beta iota zeta delta [from_option id].
      replace (Float.digitpart (String c' b))
        with (Float.digitpart (String c' b +:+ "")) by (by rewrite append_empty_r).
      rewrite digitpart_append by done. cbn.
      eexists. split; [|done]. apply decimal_nonneg, int_of_digits_nonneg.
Qed.

Lemma search_inv r s m :
  Re.search r s = Some m → ∃ s', Re.match_ r s' = Some m.
Proof.
  induction s as [|c s IH]; simpl.
  - destruct (Re.match_ r "") eqn:Hm; [|done]. intros [= ->]. eauto.
  - destruct (Re.match_ r (String c s)) eqn:Hm; [intros [= ->]; eauto | done].
Qed.

(** A match of a number followed by a pattern without groups captures a
    number. *)
Lemma number_then_inv R s m :
  groupless R = true →
  Re.match_ (Re.Seq (Re.Grp 1 DurationRe.number) R) s = Some m →
  number_shape (Re.group m 1).
Proof.
  intros HR. unfold Re.match_. rewrite run_seq.
  intros (g & t & -> & Hg & Hk)%number_inv.
  apply (groupless_run R HR) in Hk as (t' & [= <-]).
  unfold Re.group. cbn [fst]. by rewrite lookup_insert_eq.
Qed.

Lemma any_number_inv s m :
  Re.match_ DurationRe.any_number s = Some m → number_shape (Re.group m 1).
Proof.
  unfold Re.match_, DurationRe.any_number.
  intros (g & t & -> & Hg & [= <-])%number_inv.
  unfold Re.group. cbn [fst]. by rewrite lookup_insert_eq.
Qed.

Lemma search_number_shape r s m :
  r = DurationRe.hours ∨ r = DurationRe.minutes ∨ r = DurationRe.any_number →
  Re.search r s = Some m → number_shape (Re.group m 1).
Proof.
  intros Hr (s' & Hm)%search_inv. destruct Hr as [->|[->| ->]].
  - unfold DurationRe.hours in Hm.
    eapply number_then_inv; [|exact Hm]. reflexivity.
  - unfold DurationRe.minutes in Hm.
    eapply number_then_inv; [|exact Hm]. reflexivity.
  - by eapply any_number_inv.
Qed.

Lemma float_of_str_number g :
  number_shape g → ∃ f, float_of_str g = Ok f ∧ nonneg f.
Proof.
  intros (q & Hq & Hg)%of_string_number. unfold float_of_str. rewrite Hg.
  eexists. split; [done|]. by apply round_nonneg.
Qed.

(** ** Signs and results of the steps of the duration parser *)

Lemma bind_returns {A B} (m : result A) (k : A → result B)
    (P : A → Prop) (Q : B → Prop) :
  (∃ a, m = Ok a ∧ P a) → (∀ a, P a → ∃ b, k a = Ok b ∧ Q b) →
  ∃ b, m ≫= k = Ok b ∧ Q b.
Proof. intros (a & -> & Ha) Hk. exact (Hk a Ha). Qed.

Lemma of_int_nonneg z f : (0 <= z)%Z → Float.of_int z = Some f → nonneg f.
Proof.
  intros Hz. unfold Float.of_int.
  assert (nonneg (Float.round (inject_Z z))) as Hr.
  { apply round_nonneg. unfold Qle; simpl. lia. }
  destruct (Float.round (inject_Z z)); [|done..]. by intros [= <-].
Qed.

Lemma int_div_nonneg z d f : (0 <= z)%Z → Float.int_div z d = Some f → nonneg f.
Proof.
  intros Hz. unfold Float.int_div.
  assert (nonneg (Float.round (z # d))) as Hr.
  { apply round_nonneg. unfold Qle; simpl. lia. }
  destruct (Float.round (z # d)); [|done..]. by intros [= <-].
Qed.

Lemma int_add_float_nonneg i x f :
  (0 <= i)%Z → nonneg x → int_add_float i x = Ok f → nonneg f.
Proof.
  intros Hi Hx. unfold int_add_float.
  intros (y & Hy%of_option_Ok & [= <-])%bind_Ok.
  apply add_nonneg; [by eapply of_int_nonneg | done].
Qed.

Lemma float_mul_60 h : nonneg h → ∃ x, float_mul_int h 60 = Ok x ∧ nonneg x.
Proof.
  intros Hh. unfold float_mul_int.
  rewrite of_int_whole by (split; [lia | reflexivity]).
  eexists. split; [done|]. apply mul_nonneg_whole; [done | lia].
Qed.

Lemma int_add_float_0 x : nonneg x → ∃ y, int_add_float 0 x = Ok y ∧ nonneg y.
Proof.
  intros Hx. unfold int_add_float.
  rewrite of_int_whole by (split; [lia | reflexivity]).
  eexists. split; [done|]. by apply add_nonneg.
Qed.

Lemma nonneg_zero : nonneg Float.zero.
Proof. reflexivity. Qed.

(** Past the colon times, the parser returns, and what it returns is not
    negative. *)
Lemma parse_duration_string_units duration_str :
  Float.of_string duration_str = None →
  Re.match_ DurationRe.hms duration_str = None →
  Re.match_ DurationRe.ms duration_str = None →
  ∃ f, parse_duration_string duration_str = Ok f ∧ nonneg f.
Proof.
  intros Hnum Hhms Hms. unfold parse_duration_string.
  rewrite Hnum, Hhms, Hms. cbv zeta.
  apply (bind_returns _ _ nonneg).
  { destruct (Re.search DurationRe.hours duration_str) as [m|] eqn:Hm;
      [|by exists Float.zero].
    apply (bind_returns _ _ nonneg).
    - apply float_of_str_number. eapply search_number_shape; [|exact Hm]. auto.
    - intros h Hh. apply (bind_returns _ _ nonneg); [by apply float_mul_60|].
      intros x Hx. by apply int_add_float_0. }
  intros total Htotal. apply (bind_returns _ _ nonneg).
  { destruct (Re.search DurationRe.minutes duration_str) as [m|] eqn:Hm;
      [|by exists total].
    apply (bind_returns _ _ nonneg).
    - apply float_of_str_number. eapply search_number_shape; [|exact Hm]. auto.
    - intros x Hx. eexists. split; [done|]. by apply add_nonneg. }
  clear total Htotal. intros total Htotal.
  destruct (bool_decide _ || bool_decide _); [by exists total|].
  destruct (Re.search DurationRe.any_number duration_str) as [m|] eqn:Hm;
    [|by exists Float.zero].
  apply float_of_str_number. eapply search_number_shape; [|exact Hm]. auto.
Qed.

(** The colon times: not negative when they return. *)
Lemma colon_time_nonneg whole seconds f :
  (0 <= whole)%Z → (0 <= seconds)%Z →
  (q ← of_option OverflowError (Float.int_div seconds 60);
   int_add_float whole q) = Ok f →
  nonneg f.
Proof.
  intros Hw Hs (q & Hq%of_option_Ok & Hf)%bind_Ok.
  eapply int_add_float_nonneg; [exact Hw| |exact Hf]. by eapply int_div_nonneg.
Qed.

(** The colon times return when their fields are below 2^1023. *)
Lemma colon_time_returns whole seconds :
  (0 <= whole < 2 ^ 1023)%Z → (0 <= seconds < 2 ^ 1023)%Z →
  returns (q ← of_option OverflowError (Float.int_div seconds 60);
           int_add_float whole q).
Proof.
  intros Hw Hs.
  destruct (int_div_finite seconds 60 Hs) as [q ->].
  destruct (of_int_finite whole Hw) as [y Hy].
  cbn [of_option mbind result_bind]. unfold int_add_float. rewrite Hy.
  by eexists.
Qed.

Lemma parse_duration_string_nonneg duration_str f :
  Float.of_string duration_str = None →
  parse_duration_string duration_str = Ok f → nonneg f.
Proof.
  intros Hnum Hf.
  destruct (Re.match_ DurationRe.hms duration_str) as [m|] eqn:Hhms.
  { unfold parse_duration_string in Hf. rewrite Hnum, Hhms in Hf. cbv zeta in Hf.
    eapply colon_time_nonneg; [| |exact Hf].
    - pose proof (int_of_digits_nonneg (Re.group m 1)).
      pose proof (int_of_digits_nonneg (Re.group m 2)). lia.
    - apply int_of_digits_nonneg. }
  destruct (Re.match_ DurationRe.ms duration_str) as [m|] eqn:Hms.
  { unfold parse_duration_string in Hf. rewrite Hnum, Hhms, Hms in Hf.
    cbv zeta in Hf.
    eapply colon_time_nonneg; [| |exact Hf]; apply int_of_digits_nonneg. }
  destruct (parse_duration_string_units duration_str Hnum Hhms Hms)
    as (f' & Hf' & Hnn).
  congruence.
Qed.

(** ** The fields of a colon time *)

Section ColonFields.
Context {A : Type}.
Implicit Types (k : string → Re.captures → option A).

Lemma digits_group_inv n s caps k x :
  Re.run (Re.Grp n (Re.plus Str.is_digit)) s caps k = Some x →
  ∃ g t, s = g +:+ t ∧ k t (<[n := g]> caps) = Some x.
Proof.
  cbn [Re.run]. intros (c & a & t & -> & _ & _ & Hk)%plus_inv.
  rewrite consumed_append in Hk. by exists (String c a), t.
Qed.

Lemma lit_inv c s caps k x :
  Re.run (Re.lit c) s caps k = Some x → ∃ t, s = String c t ∧ k t caps = Some x.
Proof.
  unfold Re.lit. cbn [Re.run]. destruct s as [|d s]; [done|].
  destruct (Ascii.eqb c d) eqn:Hd; [|done].
  apply Ascii.eqb_eq in Hd as <-. eauto.
Qed.

Lemma eol_inv s caps k x :
  Re.run Re.Eol s caps k = Some x → String.length s <= 1 ∧ k s caps = Some x.
Proof.
  cbn [Re.run]. destruct s as [|c [|d s]]; simpl; [auto| |done].
  destruct (Ascii.eqb c "010"); [auto | done].
Qed.
End ColonFields.

Lemma hms_inv s m :
  Re.match_ DurationRe.hms s = Some m →
  String.length (Re.group m 1) <= String.length s ∧
  String.length (Re.group m 2) <= String.length s ∧
  String.length (Re.group m 3) <= String.length s.
Proof.
  unfold Re.match_, DurationRe.hms. rewrite run_seq.
  intros (g1 & t1 & -> & H)%digits_group_inv. rewrite run_seq in H.
  apply lit_inv in H as (t2 & -> & H). rewrite run_seq in H.
  apply digits_group_inv in H as (g2 & t3 & -> & H). rewrite run_seq in H.
  apply lit_inv in H as (t4 & -> & H). rewrite run_seq in H.
  apply digits_group_inv in H as (g3 & t5 & -> & H).
  apply eol_inv in H as [_ [= <-]].
  unfold Re.group. cbn [fst].
  rewrite lookup_insert_eq.
  rewrite (lookup_insert_ne _ 3 2), lookup_insert_eq by done.
  rewrite (lookup_insert_ne _ 3 1), (lookup_insert_ne _ 2 1), lookup_insert_eq
    by done.
  cbn [default from_option id].
  repeat (rewrite ?length_append; cbn [String.length]). lia.
Qed.

Lemma ms_inv s m :
  Re.match_ DurationRe.ms s = Some m →
  String.length (Re.group m 1) <= String.length s ∧
  String.length (Re.group m 2) <= String.length s.
Proof.
  unfold Re.match_, DurationRe.ms. rewrite run_seq.
  intros (g1 & t1 & -> & H)%digits_group_inv. rewrite run_seq in H.
  apply lit_inv in H as (t2 & -> & H). rewrite run_seq in H.
  apply digits_group_inv in H as (g2 & t3 & -> & H).
  apply eol_inv in H as [_ [= <-]].
  unfold Re.group. cbn [fst].
  rewrite lookup_insert_eq.
  rewrite (lookup_insert_ne _ 2 1), lookup_insert_eq by done.
  cbn [default from_option id].
  repeat (rewrite ?length_append; cbn [String.length]). lia.
Qed.

(** [int] of a text is below 23 * 10^length, whatever its characters. *)
Lemma int_of_digits_acc_bound s acc :
  (0 <= acc)%Z →
  (Str.int_of_digits_acc s acc + 23
   <= (acc + 23) * 10 ^ Z.of_nat (String.length s))%Z.
Proof.
  revert acc. induction s as [|c s IH]; intros acc Hacc.
  - simpl. lia.
  - cbn [Str.int_of_digits_acc String.length].
    assert (0 <= Str.digit_val c <= 207)%Z as Hd.
    { unfold Str.digit_val, Str.code.
      pose proof (nat_ascii_bounded c). lia. }
    etrans; [apply IH; lia|].
    rewrite Nat2Z.inj_succ, Z.pow_succ_r by lia.
    pose proof (Z.pow_pos_nonneg 10 (Z.of_nat (String.length s))). nia.
Qed.

Lemma int_of_digits_bound s n :
  String.length s <= n →
  (0 <= Str.int_of_digits s < 23 * 10 ^ Z.of_nat n)%Z.
Proof.
  intros Hn. split; [apply int_of_digits_nonneg|].
  pose proof (int_of_digits_acc_bound s 0 ltac:(lia)) as Hb.
  assert (10 ^ Z.of_nat (String.length s) <= 10 ^ Z.of_nat n)%Z
    by (apply Z.pow_le_mono_r; lia).
  unfold Str.int_of_digits. lia.
Qed.

Lemma length_lstrip s : String.length (Str.lstrip s) <= String.length s.
Proof.
  induction s as [|c s IH]; [done|]. simpl.
  destruct (Str.is_space c); simpl; lia.
Qed.

Lemma length_rstrip s : String.length (Str.rstrip s) <= String.length s.
Proof.
  induction s as [|c s IH]; [done|]. simpl.
  destruct (Str.rstrip s); [destruct (Str.is_space c)|]; simpl in *; lia.
Qed.

Lemma length_strip s : String.length (Str.strip s) <= String.length s.
Proof.
  unfold Str.strip. pose proof (length_rstrip (Str.lstrip s)).
  pose proof (length_lstrip s). lia.
Qed.

Lemma all_lstrip p s : Str.all p s = true → Str.all p (Str.lstrip s) = true.
Proof.
  induction s as [|c s IH]; [done|]. simpl.
  intros [Hc Hs]%andb_true_iff. destruct (Str.is_space c); [by apply IH|].
  simpl. by rewrite Hc, Hs.
Qed.

Lemma all_rstrip p s : Str.all p s = true → Str.all p (Str.rstrip s) = true.
Proof.
  induction s as [|c s IH]; [done|]. simpl.
  intros [Hc Hs]%andb_true_iff. specialize (IH Hs).
  destruct (Str.rstrip s); [destruct (Str.is_space c)|]; simpl in *;
    by rewrite ?Hc, ?IH.
Qed.

Lemma all_strip p s : Str.all p s = true → Str.all p (Str.strip s) = true.
Proof. intros Hs. by apply all_rstrip, all_lstrip. Qed.

(** A text of at most 300 characters is parsed without an error. *)
Lemma parse_duration_string_returns duration_str :
  String.length duration_str <= 300 → returns (parse_duration_string duration_str).
Proof.
  intros Hlen.
  assert (23 * 10 ^ Z.of_nat 300 * 61 < 2 ^ 1023)%Z as Hbig by reflexivity.
  destruct (Float.of_string duration_str) as [f|] eqn:Hnum.
  { unfold parse_duration_string. rewrite Hnum. by eexists. }
  destruct (Re.match_ DurationRe.hms duration_str) as [m|] eqn:Hhms.
  { unfold parse_duration_string. rewrite Hnum, Hhms. cbv zeta.
    apply hms_inv in Hhms as (H1 & H2 & H3).
    pose proof (int_of_digits_bound (Re.group m 1) 300 ltac:(lia)).
    pose proof (int_of_digits_bound (Re.group m 2) 300 ltac:(lia)).
    pose proof (int_of_digits_bound (Re.group m 3) 300 ltac:(lia)).
    apply colon_time_returns; lia. }
  destruct (Re.match_ DurationRe.ms duration_str) as [m|] eqn:Hms.
  { unfold parse_duration_string. rewrite Hnum, Hhms, Hms. cbv zeta.
    apply ms_inv in Hms as (H1 & H2).
    pose proof (int_of_digits_bound (Re.group m 1) 300 ltac:(lia)).
    pose proof (int_of_digits_bound (Re.group m 2) 300 ltac:(lia)).
    apply colon_time_returns; lia. }
  destruct (parse_duration_string_units duration_str Hnum Hhms Hms)
    as (f & Hf & _).
  by exists f.
Qed.

(** ** Texts without a digit *)

Lemma plus_stops {A} p s caps (k : string → Re.captures → option A) :
  Str.stops p s = true → Re.run (Re.plus p) s caps k = None.
Proof.
  destruct s as [|c s]; [done|]. simpl. intros Hc%negb_true_iff. by rewrite Hc.
Qed.

(** Each pattern of the duration parser starts with a digit. *)
Lemma duration_patterns_need_digit r s :
  r ∈ [DurationRe.hms; DurationRe.ms; DurationRe.hours; DurationRe.minutes;
       DurationRe.any_number] →
  Str.stops Str.is_digit s = true → Re.match_ r s = None.
Proof.
  intros Hr Hs. unfold Re.match_.
  repeat (apply elem_of_cons in Hr as [->|Hr]);
    [..|by apply elem_of_nil in Hr];
    unfold DurationRe.hms, DurationRe.ms, DurationRe.hours, DurationRe.minutes,
      DurationRe.any_number, DurationRe.number;
    rewrite ?run_seq; cbn [Re.run]; by apply plus_stops.
Qed.

Lemma search_no_digit r s :
  r ∈ [DurationRe.hms; DurationRe.ms; DurationRe.hours; DurationRe.minutes;
       DurationRe.any_number] →
  Str.all (fun c => negb (Str.is_digit c)) s = true → Re.search r s = None.
Proof.
  intros Hr. induction s as [|c s IH]; intros Hs.
  - simpl. by rewrite duration_patterns_need_digit.
  - cbn [Str.all] in Hs. apply andb_true_iff in Hs as [Hc Hs].
    cbn [Re.search]. rewrite duration_patterns_need_digit by done. by apply IH.
Qed.

Lemma parse_duration_string_no_digit duration_str :
  Float.of_string duration_str = None →
  Str.all (fun c => negb (Str.is_digit c)) duration_str = true →
  parse_duration_string duration_str = Ok Float.zero.
Proof.
  intros Hnum Hs. unfold parse_duration_string. rewrite Hnum.
  assert (Str.stops Str.is_digit duration_str = true) as Hstop
    by (destruct duration_str; [done|]; simpl in *; by destruct (Str.is_digit _)).
  rewrite !duration_patterns_need_digit by (done || set_solver).
  rewrite !search_no_digit by (done || set_solver).
  reflexivity.
Qed.

(** ** Whole numbers as floats *)

Section WholeNumbers.
Local Open Scope Z_scope.

Lemma nearest_even_lower n d :
  0 <= n → 0 < d → n / d <= Float.nearest_even n d.
Proof.
  intros Hn Hd. unfold Float.nearest_even. cbv zeta.
  generalize (n / d). intros m. destruct (_ || _); lia.
Qed.

Lemma dyadic_positive m e : 0 < m → (0 < Float.dyadic m e)%Q.
Proof.
  intros Hm. unfold Float.dyadic. rewrite Qred_correct.
  destruct (Z.leb_spec 0 e) as [He|He].
  - unfold Qlt, inject_Z; simpl.
    pose proof (Z.pow_pos_nonneg 2 e ltac:(lia) He). nia.
  - unfold Qlt; simpl. lia.
Qed.

(** The significand of a whole number has its full 53 bits. *)
Lemma whole_significand n :
  0 < n → 0 <= Z.log2 n - 52 →
  2 ^ 52 <= Float.nearest_even n (1 * 2 ^ (Z.log2 n - 52)).
Proof.
  intros Hn He. pose proof (Z.log2_spec n Hn) as [Hlo _].
  set (e := Z.log2 n - 52) in *.
  assert (0 < 2 ^ e) as H2e by (apply Z.pow_pos_nonneg; lia).
  etrans; [|apply nearest_even_lower; lia].
  apply Z.div_le_lower_bound; [lia|].
  replace (Z.log2 n) with (52 + e) in Hlo by (unfold e; lia).
  rewrite Z.pow_add_r in Hlo by lia. lia.
Qed.

Lemma round_pos_whole_positive n q :
  0 < n → Float.round_pos n 1 = Some q → (0 < q)%Q.
Proof.
  intros Hn. pose proof (Z.log2_nonneg n) as Hlog.
  unfold Float.round_pos. rewrite ilog2_whole by done.
  unfold Float.prec, Float.emin, Float.emax.
  rewrite Z.max_l by lia. change (53 - 1) with 52.
  unfold Float.scale2.
  destruct (Z.leb_spec 0 (Z.log2 n - 52)) as [He|He]; cbv beta iota.
  - destruct (_ && _); [done|]. intros [= <-]. apply dyadic_positive.
    pose proof (whole_significand n Hn He). lia.
  - simpl andb. intros [= <-]. apply dyadic_positive.
    rewrite nearest_even_whole. pose proof (Z.pow_pos_nonneg 2 (- (Z.log2 n - 52))). nia.
Qed.

(** A whole number from 2^1024 on is beyond the floats. *)
Lemma round_pos_overflow n : 2 ^ 1024 <= n → Float.round_pos n 1 = None.
Proof.
  intros Hbig.
  assert (0 < 2 ^ 1024) as H1024 by (apply Z.pow_pos_nonneg; lia).
  assert (0 < n) as Hn by lia.
  assert (1024 <= Z.log2 n) as Hlog by (apply Z.log2_le_pow2; lia).
  pose proof (Z.log2_spec n Hn) as [Hlo _].
  unfold Float.round_pos. rewrite ilog2_whole by done.
  unfold Float.prec, Float.emin, Float.emax.
  rewrite Z.max_l by lia. change (53 - 1) with 52.
  unfold Float.scale2.
  destruct (Z.leb_spec 0 (Z.log2 n - 52)) as [He|He]; [|lia]. cbv beta iota.
  pose proof (whole_significand n Hn He) as Hm.
  set (e := Z.log2 n - 52) in *. simpl andb.
  assert (0 < 2 ^ e) as H2e by (apply Z.pow_pos_nonneg; lia).
  assert (2 ^ 1024 <= 2 ^ 52 * 2 ^ e) as Hpow.
  { rewrite <- Z.pow_add_r by lia. apply Z.pow_le_mono_r; lia. }
  destruct (Z.leb_spec (2 ^ 1024) (Float.nearest_even n (1 * 2 ^ e) * 2 ^ e))
    as [_|Hsmall]; [done|].
  exfalso. nia.
Qed.

Lemma of_int_overflow z : 2 ^ 1024 <= Z.abs z → Float.of_int z = None.
Proof.
  intros Hz. assert (0 < 2 ^ 1024) as H1024 by (apply Z.pow_pos_nonneg; lia).
  unfold Float.of_int, Float.round, inject_Z; simpl.
  destruct z as [|p|p]; [simpl in Hz; lia|..];
    by rewrite round_pos_overflow by (simpl in Hz; lia).
Qed.

(** Below 2^1023 in magnitude a whole number becomes a finite float of
    its sign. *)
Lemma of_int_sign z :
  Z.abs z < 2 ^ 1023 →
  ∃ q, Float.of_int z = Some (FFin q) ∧
       (0 <= z → (0 <= q)%Q) ∧ (z < 0 → (q < 0)%Q).
Proof.
  intros Hz. unfold Float.of_int, Float.round, inject_Z; simpl.
  destruct z as [|p|p].
  - exists 0%Q. repeat split; [done|lia].
  - destruct (round_pos_finite (Z.pos p) 1) as [q Hq]; [lia..|].
    rewrite Hq. exists q. repeat split; [|lia].
    intros _. by eapply round_pos_nonneg; [| |exact Hq].
  - destruct (round_pos_finite (Z.pos p) 1) as [q Hq]; [lia..|].
    rewrite Hq. eexists. repeat split; [lia|].
    intros _. rewrite Qred_correct.
    apply round_pos_whole_positive in Hq; [|lia].
    unfold Qlt in *; simpl in *. lia.
Qed.

(** Below 2^53 in magnitude it is the number itself. *)
Lemma of_int_exact z :
  Z.abs z < 2 ^ 53 → Float.of_int z = Some (Float.of_Z_exact z).
Proof.
  intros Hz. unfold Float.of_int, Float.round, Float.of_Z_exact, inject_Z; simpl.
  destruct z as [|p|p]; [done|..].
  - by rewrite round_pos_whole by lia.
  - rewrite round_pos_whole by lia. do 2 f_equal.
    change (- (Z.pos p # 1))%Q with (Z.neg p # 1)%Q. apply Qred_whole.
Qed.

End WholeNumbers.

(** ** The sign and the errors of the duration parser *)

(** C4.  [parse_duration_to_minutes] returns zero for a missing value
    and for a text without a digit that is no float literal; for a text
    that [float] rejects it returns a number that is not negative, and it
    returns without an error when the text has at most 300 characters.  A
    text that [float] accepts is returned as that float (minus five, NaN
    and minus infinity for the texts "-5", "nan" and "-inf"), and a float
    is returned as it is.  A whole number becomes its float, with its
    sign: the number itself below 2^53 in magnitude, a finite float that
    is negative for a negative number below 2^1023 in magnitude; from
    2^1024 on in magnitude the conversion raises [OverflowError]. *)
Theorem duration_sign_follows_the_input :
  (∀ v, isna v = true → parse_duration_to_minutes v = Ok Float.zero) ∧
  (∀ s, Float.of_string (Str.strip s) = None →
        Str.all (fun c => negb (Str.is_digit c)) s = true →
        parse_duration_to_minutes (CStr s) = Ok Float.zero) ∧
  (∀ s f, Float.of_string (Str.strip s) = None →
          parse_duration_to_minutes (CStr s) = Ok f → nonneg f) ∧
  (∀ s, String.length s <= 300 → returns (parse_duration_to_minutes (CStr s))) ∧
  (∀ s f, Float.of_string (Str.strip s) = Some f →
          parse_duration_to_minutes (CStr s) = Ok f) ∧
  (parse_duration_to_minutes (CStr "-5") = Ok (FFin (-5)) ∧
   parse_duration_to_minutes (CStr "nan") = Ok FNaN ∧
   parse_duration_to_minutes (CStr "-inf") = Ok (FInf true)) ∧
  (∀ f, Float.is_nan f = false → parse_duration_to_minutes (CFloat f) = Ok f) ∧
  (∀ z, (0 <= z < 2 ^ 1023)%Z →
        ∃ f, parse_duration_to_minutes (CInt z) = Ok f ∧ nonneg f) ∧
  (∀ z, (Z.abs z < 2 ^ 53)%Z →
        parse_duration_to_minutes (CInt z) = Ok (Float.of_Z_exact z)) ∧
  (∀ z, (Z.abs z < 2 ^ 1023)%Z →
        ∃ q, parse_duration_to_minutes (CInt z) = Ok (FFin q) ∧
             ((0 <= z)%Z → (0 <= q)%Q) ∧ ((z < 0)%Z → (q < 0)%Q)) ∧
  (∀ z, (2 ^ 1024 <= Z.abs z)%Z →
        parse_duration_to_minutes (CInt z) = Raise OverflowError).
Proof.
  split; [|split; [|split; [|split; [|split; [|split; [|split; [|split;
    [|split; [|split]]]]]]]]].
  - intros v Hv. unfold parse_duration_to_minutes. by rewrite Hv.
  - intros s Hnum Hs. cbn [parse_duration_to_minutes isna duration_text].
    apply parse_duration_string_no_digit; [done | by apply all_strip].
  - intros s f Hnum Hf. cbn [parse_duration_to_minutes isna duration_text] in Hf.
    by eapply parse_duration_string_nonneg.
  - intros s Hlen. cbn [parse_duration_to_minutes isna duration_text].
    apply parse_duration_string_returns.
    pose proof (length_strip s). lia.
  - intros s f Hnum. cbn [parse_duration_to_minutes isna duration_text].
    unfold parse_duration_string. by rewrite Hnum.
  - by vm_compute.
  - intros f Hf. by destruct f.
  - intros z Hz. cbn [parse_duration_to_minutes isna].
    destruct (of_int_finite z Hz) as [q Hq]. rewrite Hq.
    eexists. split; [done|]. eapply of_int_nonneg; [|exact Hq]. lia.
  - intros z Hz. cbn [parse_duration_to_minutes isna].
    by rewrite of_int_exact.
  - intros z Hz. cbn [parse_duration_to_minutes isna].
    destruct (of_int_sign z Hz) as (q & Hq & Hsign). rewrite Hq. by exists q.
  - intros z Hz. cbn [parse_duration_to_minutes isna].
    by rewrite of_int_overflow.
Qed.

Lemma duration_sign_witness :
  parse_duration_to_minutes (CStr "n/a") = Ok Float.zero ∧
  nonneg (Float.of_Z_exact 90) ∧
  returns (parse_duration_to_minutes (CStr "1:30:00")).
Proof.
  destruct duration_sign_follows_the_input as (_ & Hnone & Hsign & Hret & _).
  split; [|split].
  - apply Hnone; vm_compute; reflexivity.
  - apply (Hsign "1:30:00"); vm_compute; reflexivity.
  - apply Hret. vm_compute. lia.
Defined.

(** The number [-5] is returned as [-5.0]: the result is negative. *)
Lemma negative_number_is_returned : ¬ duration_never_negative.
Proof.
  intros Hall. destruct (Hall (CInt (-5))) as (f & Hf & Hnn).
  vm_compute in Hf. injection Hf as <-. vm_compute in Hnn. discriminate Hnn.
Qed.

Lemma spellings_witness :
  (Z.of_nat 1 * 60 + Z.of_nat 30 < 2 ^ 53)%Z ∧
  parse_duration_to_minutes (CStr "1h 30m") = Ok (Float.of_Z_exact 90) ∧
  parse_duration_to_minutes (CStr "1 hours 30 minutes") = Ok (Float.of_Z_exact 90).
Proof.
  assert (Z.of_nat 1 * 60 + Z.of_nat 30 < 2 ^ 53)%Z as Hlt by (vm_compute; reflexivity).
  split; [exact Hlt|].
  destruct (hours_minutes_spellings_agree 1 30 Hlt) as (Hshort & Hlong & _).
  split; [exact Hshort | exact Hlong].
Defined.

(** A whole number too large for a float is not converted:
    [float(10**400)] raises [OverflowError]. *)
Example duration_overflow :
  parse_duration_to_minutes (CInt (10 ^ 400)) = Raise OverflowError.
Proof. vm_compute. reflexivity. Qed.

(** * Further properties of the value parsers *)

(** ** [strip] and [lower] *)

Lemma lower_char_idem c : Str.lower_char (Str.lower_char c) = Str.lower_char c.
Proof. by destruct c as [[] [] [] [] [] [] [] []]. Qed.

Lemma is_space_lower_char c : Str.is_space (Str.lower_char c) = Str.is_space c.
Proof. by destruct c as [[] [] [] [] [] [] [] []]. Qed.

Lemma lower_idem s : Str.lower (Str.lower s) = Str.lower s.
Proof.
  induction s as [|c s IH]; [done|]. simpl. by rewrite lower_char_idem, IH.
Qed.

Lemma lstrip_lower s : Str.lstrip (Str.lower s) = Str.lower (Str.lstrip s).
Proof.
  induction s as [|c s IH]; [done|]. simpl. rewrite is_space_lower_char.
  by destruct (Str.is_space c).
Qed.

Lemma rstrip_lower s : Str.rstrip (Str.lower s) = Str.lower (Str.rstrip s).
Proof.
  induction s as [|c s IH]; [done|]. simpl. rewrite IH, is_space_lower_char.
  destruct (Str.rstrip s); [by destruct (Str.is_space c) | done].
Qed.

Lemma strip_lower s : Str.strip (Str.lower s) = Str.lower (Str.strip s).
Proof. unfold Str.strip. by rewrite lstrip_lower, rstrip_lower. Qed.

Lemma ends_ok_rstrip s : Str.ends_ok (Str.rstrip s) = true.
Proof.
  induction s as [|c s IH]; [done|]. simpl.
  destruct (Str.rstrip s) as [|c' r] eqn:Hr.
  - destruct (Str.is_space c) eqn:Hc; [done|]. simpl. by rewrite Hc.
  - done.
Qed.

Lemma stops_lstrip s : Str.stops Str.is_space (Str.lstrip s) = true.
Proof.
  induction s as [|c s IH]; [done|]. simpl.
  destruct (Str.is_space c) eqn:Hc; [done|]. simpl. by rewrite Hc.
Qed.

Lemma stops_rstrip s :
  Str.stops Str.is_space s = true → Str.stops Str.is_space (Str.rstrip s) = true.
Proof.
  destruct s as [|c s]; [done|]. simpl. intros Hc.
  destruct (Str.rstrip s); [|done].
  apply negb_true_iff in Hc. rewrite Hc. simpl. by rewrite Hc.
Qed.

Lemma lstrip_stops s : Str.stops Str.is_space s = true → Str.lstrip s = s.
Proof.
  destruct s as [|c s]; [done|]. simpl. by intros ->%negb_true_iff.
Qed.

Lemma strip_idem s : Str.strip (Str.strip s) = Str.strip s.
Proof.
  unfold Str.strip.
  rewrite (lstrip_stops (Str.rstrip _)) by apply stops_rstrip, stops_lstrip.
  apply rstrip_id, ends_ok_rstrip.
Qed.

Lemma lstrip_spaces ws s :
  Str.all Str.is_space ws = true → Str.lstrip (ws +:+ s) = Str.lstrip s.
Proof.
  induction ws as [|c ws IH]; [done|]. rewrite append_cons. simpl.
  intros [-> Hws]%andb_true_iff. by apply IH.
Qed.

Lemma rstrip_all_spaces ws : Str.all Str.is_space ws = true → Str.rstrip ws = "".
Proof.
  induction ws as [|c ws IH]; [done|]. simpl.
  intros [-> Hws]%andb_true_iff. by rewrite IH.
Qed.

Lemma rstrip_spaces s ws :
  Str.all Str.is_space ws = true → Str.rstrip (s +:+ ws) = Str.rstrip s.
Proof.
  intros Hws. induction s as [|c s IH].
  - rewrite append_empty_l. by apply rstrip_all_spaces.
  - rewrite append_cons. simpl. by rewrite IH.
Qed.

Lemma lstrip_all_spaces ws : Str.all Str.is_space ws = true → Str.lstrip ws = "".
Proof.
  induction ws as [|c ws IH]; [done|]. simpl.
  intros [-> Hws]%andb_true_iff. by apply IH.
Qed.

(** Blanks around a text do not change what [strip] makes of it. *)
Lemma strip_padding ws1 s ws2 :
  Str.all Str.is_space ws1 = true → Str.all Str.is_space ws2 = true →
  Str.strip (ws1 +:+ s +:+ ws2) = Str.strip s.
Proof.
  intros H1 H2. unfold Str.strip. rewrite lstrip_spaces by done.
  induction s as [|c s IH].
  - rewrite append_empty_l, lstrip_all_spaces by done. done.
  - rewrite append_cons. simpl. destruct (Str.is_space c); [done|].
    rewrite <- append_cons. by apply rstrip_spaces.
Qed.

(** ** [normalize_email] *)

(** X1.  Normalizing is idempotent: the identity that [normalize_email]
    returns is its own normal form, whatever the value it was made from. *)
Theorem normalize_email_idempotent v :
  normalize_email (CStr (normalize_email v)) = normalize_email v.
Proof.
  destruct v as [|s|z|f|d|d t]; try reflexivity; [|by destruct f].
  cbn [normalize_email isna].
  by rewrite <- strip_lower, lower_idem, strip_lower, strip_idem.
Qed.

(** X2.  Two addresses that differ only in letter case and in the blanks
    around them have the same identity. *)
Theorem normalize_email_case_and_padding s s' ws1 ws2 :
  Str.all Str.is_space ws1 = true → Str.all Str.is_space ws2 = true →
  Str.lower s = Str.lower s' →
  normalize_email (CStr (ws1 +:+ s +:+ ws2)) = normalize_email (CStr s').
Proof.
  intros H1 H2 Hs. cbn [normalize_email isna].
  by rewrite strip_padding, <- !strip_lower, Hs.
Qed.

Lemma normalize_email_witness :
  normalize_email (CStr "  Bob@Example.COM ") = normalize_email (CStr "bob@example.com").
Proof.
  apply (normalize_email_case_and_padding "Bob@Example.COM" "bob@example.com" "  " " ");
    reflexivity.
Defined.

(** ** Durations: whole numbers and colon times *)

(** [float] rejects digits followed by a character that continues no
    number. *)
Lemma of_string_digits_then c a x t :
  Str.is_digit c = true → Str.all Str.is_digit a = true →
  Str.is_digit x = false → x ≠ "_"%char → x ≠ "."%char →
  Str.lower_char x ≠ "e"%char → Str.ends_ok (String x t) = true →
  Float.of_string (String c a +:+ String x t) = None.
Proof.
  intros Hc Ha Hx Hu Hdot He Hend. unfold Float.of_string.
  rewrite append_cons, strip_id;
    [|by apply digit_not_space|by rewrite <- append_cons, ends_ok_append].
  destruct (head_digit_plain c (a +:+ String x t) Hc) as (-> & -> & ->).
  rewrite <- append_cons. unfold Float.floatnumber.
  rewrite digitpart_append; try done.
  - clear Hend. destruct x as [[] [] [] [] [] [] [] []]; try done.
  - cbn [Str.stops]. by rewrite Hx.
  - cbn [Str.stops]. apply negb_true_iff. apply Ascii.eqb_neq. by intros <-.
Qed.

Section DigitGroups.
Context {A : Type}.
Implicit Types (k : string → Re.captures → option A).


Lemma digits_group_fail n a t caps k :
  Str.all Str.is_digit a = true → Str.stops Str.is_digit t = true →
  (∀ a' caps', Str.all Str.is_digit a' = true → k (a' +:+ t) caps' = None) →
  Re.run (Re.Grp n (Re.plus Str.is_digit)) (a +:+ t) caps k = None.
Proof.
  intros Ha Ht Hk. cbn [Re.run]. apply plus_fail; try done.
  intros a' Ha'. by apply Hk.
Qed.

Lemma lit_digits_fail x a t caps k :
  Str.all Str.is_digit a = true → Str.is_digit x = false →
  Str.stops (Ascii.eqb x) t = true →
  Re.run (Re.lit x) (a +:+ t) caps k = None.
Proof.
  intros Ha Hx Ht. apply lit_stops. destruct a as [|c a]; [done|].
  rewrite append_cons. cbn [Str.all] in Ha. apply andb_true_iff in Ha as [Hc _].
  cbn [Str.stops]. apply negb_true_iff, Ascii.eqb_neq. intros <-. congruence.
Qed.

End DigitGroups.






Lemma digits_text g :
  g ≠ "" → Str.all Str.is_digit g = true →
  ∃ c a, g = String c a ∧ Str.is_digit c = true ∧ Str.all Str.is_digit a = true.
Proof.
  destruct g as [|c a]; [done|]. intros _ [Hc Ha]%andb_true_iff. by exists c, a.
Qed.

(** X3.  A text of decimal digits whose value is below 2^53, with blanks
    around it, is that many minutes: the same as the number itself. *)
Theorem duration_whole_number g ws1 ws2 :
  g ≠ "" → Str.all Str.is_digit g = true →
  (Str.int_of_digits g < 2 ^ 53)%Z →
  Str.all Str.is_space ws1 = true → Str.all Str.is_space ws2 = true →
  parse_duration_to_minutes (CStr (ws1 +:+ g +:+ ws2))
  = Ok (Float.of_Z_exact (Str.int_of_digits g)) ∧
  parse_duration_to_minutes (CInt (Str.int_of_digits g))
  = Ok (Float.of_Z_exact (Str.int_of_digits g)).
Proof.
  intros Hg Hd Hn H1 H2. pose proof (int_of_digits_nonneg g) as Hnn. split.
  - cbn [parse_duration_to_minutes isna duration_text].
    rewrite strip_padding by done.
    destruct (digits_text g Hg Hd) as (c & a & -> & Hc & Ha).
    rewrite strip_id;
      [|by apply digit_not_space|apply ends_ok_digits; simpl; by rewrite Hc, Ha].
    unfold parse_duration_string. rewrite of_string_digits by done.
    by rewrite round_whole by lia.
  - cbn [parse_duration_to_minutes isna]. by rewrite of_int_whole by lia.
Qed.

Lemma duration_whole_number_witness :
  parse_duration_to_minutes (CStr " 045 ") = Ok (Float.of_Z_exact 45) ∧
  parse_duration_to_minutes (CInt 45) = Ok (Float.of_Z_exact 45).
Proof.
  apply (duration_whole_number "045" " " " "); (done || reflexivity).
Defined.






(** ** Durations: a number and one unit *)

Lemma space_facts x :
  Str.is_space x = true →
  Str.is_digit x = false ∧ x ≠ "_"%char ∧ x ≠ "."%char ∧ x ≠ ":"%char ∧
  Str.lower_char x ≠ "e"%char ∧ Str.lower_char x ≠ "h"%char ∧
  Str.lower_char x ≠ "m"%char.
Proof. by destruct x as [[] [] [] [] [] [] [] []]. Qed.

Lemma unit_letter_facts u l :
  l ∈ ["h"; "m"]%char → Str.lower_char u = l →
  Str.is_digit u = false ∧ Str.is_space u = false ∧ u ≠ "_"%char ∧
  u ≠ "."%char ∧ u ≠ ":"%char ∧ Str.lower_char u ≠ "e"%char.
Proof.
  intros Hl Hu. repeat (apply elem_of_cons in Hl as [->|Hl]);
    [..|by apply elem_of_nil in Hl];
    by destruct u as [[] [] [] [] [] [] [] []].
Qed.

Lemma digit_facts d :
  Str.is_digit d = true →
  Str.lower_char d ≠ "h"%char ∧ Str.lower_char d ≠ "m"%char.
Proof. by destruct d as [[] [] [] [] [] [] [] []]. Qed.

(** What follows the digits: blanks and then a word. *)
Lemma after_digits sp u w :
  Str.all Str.is_space sp = true → Str.is_space u = false →
  ∃ x t, sp +:+ String u w = String x t ∧
         (x = u ∨ Str.is_space x = true) ∧
         Str.ends_ok (String x t) = Str.ends_ok (String u w).
Proof.
  intros Hsp Hu. destruct sp as [|x sp].
  - exists u, w. rewrite append_empty_l. auto.
  - exists x, (sp +:+ String u w). cbn [Str.all] in Hsp.
    apply andb_true_iff in Hsp as [Hx _]. split; [done|]. split; [by right|].
    by rewrite <- append_cons, ends_ok_append.
Qed.

Lemma colon_times_reject_then a x t :
  Str.all Str.is_digit a = true → Str.is_digit x = false → x ≠ ":"%char →
  Re.match_ DurationRe.hms (a +:+ String x t) = None ∧
  Re.match_ DurationRe.ms (a +:+ String x t) = None.
Proof.
  intros Ha Hx Hcolon.
  assert (Str.stops Str.is_digit (String x t) = true) as Hstop
    by (cbn [Str.stops]; by rewrite Hx).
  assert (Str.stops (Ascii.eqb ":") (String x t) = true) as Hlit.
  { cbn [Str.stops]. apply negb_true_iff, Ascii.eqb_neq. by intros <-. }
  unfold Re.match_, DurationRe.hms, DurationRe.ms.
  split; rewrite run_seq; apply digits_group_fail; try done;
    intros a' caps' Ha'; cbv beta; rewrite run_seq;
    by apply lit_digits_fail.
Qed.

Section UnitPattern.
Variable R : Re.re.

(** The number, blanks and the unit [R], where [R] accepts the word. *)
Lemma unit_found c a sp u w m :
  Str.is_digit c = true → Str.all Str.is_digit a = true →
  Str.all Str.is_space sp = true →
  Str.is_digit u = false → Str.is_space u = false → u ≠ "."%char →
  Re.run R (String u w) {[1 := String c a]}
         (fun rest caps => Some (caps, rest)) = Some m →
  Re.match_ (Re.Seq (Re.Grp 1 DurationRe.number) (Re.Seq (Re.Star Str.is_space) R))
            (String c a +:+ (sp +:+ String u w)) = Some m.
Proof.
  intros Hc Ha Hsp Hud Hus Hudot HR.
  destruct (after_digits sp u w Hsp Hus) as (x & t & Ht & Hx & _).
  assert (Str.is_digit x = false ∧ x ≠ "."%char) as [Hxd Hxdot].
  { destruct Hx as [->|Hx]; [done|]. by apply space_facts in Hx as (? & ? & ? & _). }
  unfold Re.match_. rewrite run_seq. apply number_greedy; try done.
  - rewrite Ht. cbn [Str.stops]. by rewrite Hxd.
  - rewrite Ht. cbn [Str.stops]. unfold Str.is_dot.
    apply negb_true_iff, Ascii.eqb_neq. by intros <-.
  - cbv beta. rewrite run_seq. cbn [Re.run]. apply star_greedy; try done.
    cbn [Str.stops]. by rewrite Hus.
Qed.

(** No match from the digits on, where [R] rejects digits, blanks and
    the word. *)
Lemma unit_not_found a sp u w :
  Str.all Str.is_digit a = true → Str.all Str.is_space sp = true →
  Str.is_digit u = false → Str.is_space u = false → u ≠ "."%char →
  (∀ x s caps, Str.is_digit x = true ∨ Str.is_space x = true ∨ x = u →
     Re.run R (String x s) caps (fun rest caps => Some (caps, rest)) = None) →
  Re.search (Re.Seq (Re.Grp 1 DurationRe.number) (Re.Seq (Re.Star Str.is_space) R))
            (a +:+ (sp +:+ String u w))
  = Re.search (Re.Seq (Re.Grp 1 DurationRe.number) (Re.Seq (Re.Star Str.is_space) R))
              (sp +:+ String u w).
Proof.
  intros Ha Hsp Hud Hus Hudot HR.
  destruct (after_digits sp u w Hsp Hus) as (x & t & Ht & Hx & _).
  assert (Str.is_digit x = false ∧ x ≠ "."%char) as [Hxd Hxdot].
  { destruct Hx as [->|Hx]; [done|]. by apply space_facts in Hx as (? & ? & ? & _). }
  apply (search_skip _ Str.is_digit); [done|]. intros a' Ha'.
  unfold Re.match_. rewrite run_seq. apply number_fail; try done.
  - rewrite Ht. cbn [Str.stops]. by rewrite Hxd.
  - rewrite Ht. cbn [Str.stops]. unfold Str.is_dot.
    apply negb_true_iff, Ascii.eqb_neq. by intros <-.
  - intros a'' caps' Ha''. cbv beta. rewrite run_seq. cbn [Re.run].
    destruct a'' as [|d a''].
    + rewrite append_empty_l. apply star_fail; try done.
      * cbn [Str.stops]. by rewrite Hus.
      * intros [|y sp'] Hsp'.
        -- rewrite append_empty_l. apply HR. auto.
        -- rewrite append_cons. cbn [Str.all] in Hsp'.
           apply andb_true_iff in Hsp' as [Hy _]. apply HR. auto.
    + rewrite append_cons. cbn [Str.all] in Ha''.
      apply andb_true_iff in Ha'' as [Hd _].
      cbn [Re.star]. rewrite (digit_not_space d Hd). apply HR. auto.
Qed.
End UnitPattern.

Section UnitWords.
Context {A : Type}.
Implicit Types (k : string → Re.captures → option A).

Lemma hour_word u w caps k x :
  Str.lower_char u = "h"%char → k w caps = Some x →
  Re.run (Re.alts [Re.word Re.ilit "h"; Re.word Re.ilit "hr";
                   Re.word Re.ilit "hour"; Re.word Re.ilit "hours"])
         (String u w) caps k = Some x.
Proof. intros Hu Hk. cbn. by rewrite Hu, Hk. Qed.

Lemma hour_word_fail y s caps k :
  Str.lower_char y ≠ "h"%char →
  Re.run (Re.alts [Re.word Re.ilit "h"; Re.word Re.ilit "hr";
                   Re.word Re.ilit "hour"; Re.word Re.ilit "hours"])
         (String y s) caps k = None.
Proof.
  intros Hy%Ascii.eqb_neq. cbn [Re.alts Re.word Re.ilit Re.run]. by rewrite Hy.
Qed.

Lemma minute_word u w caps k x :
  Str.lower_char u = "m"%char → k w caps = Some x →
  Re.run (Re.alts [Re.word Re.ilit "m"; Re.word Re.ilit "min";
                   Re.word Re.ilit "mins"; Re.word Re.ilit "minute";
                   Re.word Re.ilit "minutes"])
         (String u w) caps k = Some x.
Proof. intros Hu Hk. cbn. by rewrite Hu, Hk. Qed.

Lemma minute_word_fail y s caps k :
  Str.lower_char y ≠ "m"%char →
  Re.run (Re.alts [Re.word Re.ilit "m"; Re.word Re.ilit "min";
                   Re.word Re.ilit "mins"; Re.word Re.ilit "minute";
                   Re.word Re.ilit "minutes"])
         (String y s) caps k = None.
Proof.
  intros Hy%Ascii.eqb_neq. cbn [Re.alts Re.word Re.ilit Re.run]. by rewrite Hy.
Qed.
End UnitWords.

Lemma float_of_str_digits g :
  g ≠ "" → Str.all Str.is_digit g = true → (Str.int_of_digits g < 2 ^ 53)%Z →
  float_of_str g = Ok (Float.of_Z_exact (Str.int_of_digits g)).
Proof.
  intros Hg Hd Hlt. destruct (digits_text g Hg Hd) as (c & a & -> & Hc & Ha).
  unfold float_of_str. rewrite of_string_digits by done.
  pose proof (int_of_digits_nonneg (String c a)).
  by rewrite round_whole by lia.
Qed.

Lemma no_digit_after sp u w :
  Str.all Str.is_space sp = true → Str.is_digit u = false →
  Str.all (fun c => negb (Str.is_digit c)) w = true →
  Str.all (fun c => negb (Str.is_digit c)) (sp +:+ String u w) = true.
Proof.
  intros Hsp Hu Hw. induction sp as [|x sp IH].
  - rewrite append_empty_l. cbn [Str.all]. by rewrite Hu, Hw.
  - rewrite append_cons. cbn [Str.all] in *.
    apply andb_true_iff in Hsp as [Hx Hsp].
    apply space_facts in Hx as (-> & _). by rewrite IH.
Qed.

(** X6.  A text of decimal digits, blanks or none, and a word without a
    digit is read by the first letter of the word, in either case: with
    [h] the digits are hours, with [m] they are minutes.  So are
    ["2 hours"], ["2H"] and ["90 mins"] read. *)
Theorem duration_number_and_unit g sp u w :
  g ≠ "" → Str.all Str.is_digit g = true →
  (Str.int_of_digits g * 60 < 2 ^ 53)%Z →
  Str.all Str.is_space sp = true →
  Str.all (fun c => negb (Str.is_digit c)) w = true →
  Str.ends_ok (String u w) = true →
  (Str.lower_char u = "h"%char →
   parse_duration_to_minutes (CStr (g +:+ sp +:+ String u w))
   = Ok (Float.of_Z_exact (Str.int_of_digits g * 60))) ∧
  (Str.lower_char u = "m"%char →
   parse_duration_to_minutes (CStr (g +:+ sp +:+ String u w))
   = Ok (Float.of_Z_exact (Str.int_of_digits g))).
Proof.
  intros Hg Hd Hlt Hsp Hw Hend.
  pose proof (int_of_digits_nonneg g) as Hnn.
  pose proof (float_of_str_digits g Hg Hd ltac:(lia)) as Hv.
  destruct (digits_text g Hg Hd) as (c & a & -> & Hc & Ha).
  assert (∀ l, l ∈ ["h"; "m"]%char → Str.lower_char u = l →
    Str.is_digit u = false ∧ Str.is_space u = false ∧ u ≠ "."%char ∧
    Str.strip (String c a +:+ sp +:+ String u w)
    = String c a +:+ (sp +:+ String u w) ∧
    Float.of_string (String c a +:+ (sp +:+ String u w)) = None ∧
    Re.match_ DurationRe.hms (String c a +:+ (sp +:+ String u w)) = None ∧
    Re.match_ DurationRe.ms (String c a +:+ (sp +:+ String u w)) = None) as Hcommon.
  { intros l Hl Hu.
    destruct (unit_letter_facts u l Hl Hu) as (Hud & Hus & Hu_ & Hudot & Hucolon & Hue).
    destruct (after_digits sp u w Hsp Hus) as (x & t & Ht & Hx & Hxend).
    assert (Str.is_digit x = false ∧ x ≠ "_"%char ∧ x ≠ "."%char ∧ x ≠ ":"%char ∧
            Str.lower_char x ≠ "e"%char) as (Hxd & Hx_ & Hxdot & Hxcolon & Hxe).
    { destruct Hx as [->|Hx]; [done|].
      by apply space_facts in Hx as (? & ? & ? & ? & ? & _). }
    split; [done|]. split; [done|]. split; [done|]. rewrite Ht.
    assert (Str.ends_ok (String x t) = true) as Hxt by (by rewrite Hxend).
    split; [|split].
    - rewrite append_cons. apply strip_id; [by apply digit_not_space|].
      by rewrite <- append_cons, ends_ok_append.
    - by apply of_string_digits_then.
    - apply colon_times_reject_then; done. }
  assert (Str.all Str.is_digit (String c a) = true) as Hca
    by (simpl; by rewrite Hc, Ha).
  split; intros Hu.
  - destruct (Hcommon "h"%char ltac:(repeat constructor) Hu)
      as (Hud & Hus & Hudot & Hstrip & Hnum & Hhms & Hms).
    cbn [parse_duration_to_minutes isna duration_text]. rewrite Hstrip.
    unfold parse_duration_string. rewrite Hnum, Hhms, Hms.
    assert (Re.search DurationRe.hours (String c a +:+ (sp +:+ String u w))
            = Some ({[1 := String c a]}, w)) as ->.
    { apply search_found. apply unit_found; try done. by apply hour_word. }
    assert (Re.search DurationRe.minutes (String c a +:+ (sp +:+ String u w))
            = None) as ->.
    { unfold DurationRe.minutes. rewrite unit_not_found; try done.
      - apply (search_no_digit DurationRe.minutes); [repeat constructor|].
        by apply no_digit_after.
      - intros x s caps Hx. apply minute_word_fail.
        destruct Hx as [Hx|[Hx| ->]].
        + by apply digit_facts in Hx as [_ ?].
        + by apply space_facts in Hx as (_ & _ & _ & _ & _ & _ & ?).
        + rewrite Hu. done. }
    cbv beta iota zeta. rewrite group_first, Hv. cbn [mbind result_bind].
    rewrite float_mul_int_whole by (lia || reflexivity).
    cbn [mbind result_bind].
    rewrite int_add_float_whole by lia. done.
  - destruct (Hcommon "m"%char ltac:(repeat constructor) Hu)
      as (Hud & Hus & Hudot & Hstrip & Hnum & Hhms & Hms).
    cbn [parse_duration_to_minutes isna duration_text]. rewrite Hstrip.
    unfold parse_duration_string. rewrite Hnum, Hhms, Hms.
    assert (Re.search DurationRe.minutes (String c a +:+ (sp +:+ String u w))
            = Some ({[1 := String c a]}, w)) as ->.
    { apply search_found. apply unit_found; try done. by apply minute_word. }
    assert (Re.search DurationRe.hours (String c a +:+ (sp +:+ String u w))
            = None) as ->.
    { unfold DurationRe.hours. rewrite unit_not_found; try done.
      - apply (search_no_digit DurationRe.hours); [repeat constructor|].
        by apply no_digit_after.
      - intros x s caps Hx. apply hour_word_fail.
        destruct Hx as [Hx|[Hx| ->]].
        + by apply digit_facts in Hx as [? _].
        + by apply space_facts in Hx as (_ & _ & _ & _ & _ & ? & _).
        + rewrite Hu. done. }
    cbv beta iota zeta. rewrite group_first, Hv. cbn [mbind result_bind].
    change Float.zero with (Float.of_Z_exact 0).
    rewrite add_whole by lia. done.
Qed.

Lemma duration_unit_witness :
  parse_duration_to_minutes (CStr "2 hours") = Ok (Float.of_Z_exact 120) ∧
  parse_duration_to_minutes (CStr "90 Mins") = Ok (Float.of_Z_exact 90).
Proof.
  split.
  - apply (proj1 (duration_number_and_unit "2" " " "h" "ours"
                    ltac:(discriminate) eq_refl eq_refl eq_refl eq_refl eq_refl)).
    reflexivity.
  - apply (proj2 (duration_number_and_unit "90" " " "M" "ins"
                    ltac:(discriminate) eq_refl eq_refl eq_refl eq_refl eq_refl)).
    reflexivity.
Defined.

(** * The column resolvers *)

Lemma detect_registration_foldl df :
  detect_registration_columns df = foldl registration_step ∅ (columns df).
Proof. reflexivity. Qed.

Lemma detect_zoom_foldl df :
  detect_zoom_columns df = foldl zoom_step ∅ (columns df).
Proof. reflexivity. Qed.

(** Splits on the first test of a turn of the loop; in the branch that
    assigns the key [k], shows that the key was free. *)
Ltac step_branch k :=
  lazymatch goal with
  | |- context [if ?c then _ else _] =>
      let E := fresh "E" in
      destruct c eqn:E;
      [ right; exists k;
        apply andb_true_iff in E as [_ E%bool_decide_eq_true];
        split; [repeat constructor | done]
      | clear E ]
  end.

(** A turn of the loop leaves the mapping alone or assigns the column to
    one key that was free. *)
Lemma registration_step_cases m col :
  registration_step m col = m ∨
  ∃ k, k ∈ registration_keys ∧ m !! k = None ∧
       registration_step m col = <[k := col]> m.
Proof.
  unfold registration_step, not_in. cbv zeta.
  step_branch "Email". step_branch "Training date".
  step_branch "Attendance - Day 1". step_branch "Attendance - Day 2".
  step_branch "Name". step_branch "Version". by left.
Qed.

Lemma zoom_step_cases m col :
  zoom_step m col = m ∨
  ∃ k, k ∈ zoom_keys_std ∧ m !! k = None ∧ zoom_step m col = <[k := col]> m.
Proof.
  unfold zoom_step, not_in. cbv zeta.
  step_branch "Email". step_branch "Duration". step_branch "Name". by left.
Qed.

Section Resolver.
Variables (step : gmap string string → string → gmap string string)
          (keys : list string).
Hypothesis step_cases : ∀ m col,
  step m col = m ∨ ∃ k, k ∈ keys ∧ m !! k = None ∧ step m col = <[k := col]> m.

Lemma step_keeps m col k c : m !! k = Some c → step m col !! k = Some c.
Proof.
  intros Hk. destruct (step_cases m col) as [->|(k' & _ & Hfree & ->)]; [done|].
  rewrite lookup_insert_ne; [done|]. intros ->. congruence.
Qed.

Lemma foldl_keeps l m k c : m !! k = Some c → foldl step m l !! k = Some c.
Proof.
  revert m. induction l as [|col l IH]; intros m Hk; [done|].
  simpl. by apply IH, step_keeps.
Qed.

Lemma foldl_entries l seen m :
  (∀ k c, m !! k = Some c → k ∈ keys ∧ c ∈ seen) →
  ∀ k c, foldl step m l !! k = Some c → k ∈ keys ∧ c ∈ seen ++ l.
Proof.
  revert seen m. induction l as [|col l IH]; intros seen m Hm k c Hk.
  - rewrite app_nil_r. by apply Hm.
  - simpl in Hk. rewrite (assoc_L (++) seen [col] l : seen ++ col :: l = _).
    apply (IH (seen ++ [col]) (step m col)); [|done].
    intros k' c' Hk'.
    destruct (step_cases m col) as [E|(k0 & Hk0 & _ & E)]; rewrite E in Hk'.
    + destruct (Hm _ _ Hk') as [? ?]. split; [done|]. apply elem_of_app. by left.
    + destruct (decide (k0 = k')) as [->|Hne].
      * rewrite lookup_insert_eq in Hk'. injection Hk' as <-.
        split; [done|]. apply elem_of_app. right. by left.
      * rewrite lookup_insert_ne in Hk' by done.
        destruct (Hm _ _ Hk') as [? ?]. split; [done|]. apply elem_of_app. by left.
Qed.

Lemma foldl_injective l seen m :
  NoDup (seen ++ l) →
  (∀ k c, m !! k = Some c → c ∈ seen) →
  (∀ k1 k2 c, m !! k1 = Some c → m !! k2 = Some c → k1 = k2) →
  ∀ k1 k2 c, foldl step m l !! k1 = Some c → foldl step m l !! k2 = Some c →
             k1 = k2.
Proof.
  revert seen m. induction l as [|col l IH]; intros seen m Hnd Hseen Hinj; [done|].
  simpl. rewrite (assoc_L (++) seen [col] l : seen ++ col :: l = _) in Hnd.
  assert (col ∉ seen) as Hnew.
  { apply NoDup_app in Hnd as [Hnd _]. apply NoDup_app in Hnd as (_ & Hd & _).
    intros Hin. apply (Hd col Hin). by left. }
  apply (IH (seen ++ [col])); [done|..].
  - intros k c Hk.
    destruct (step_cases m col) as [E|(k0 & _ & _ & E)]; rewrite E in Hk.
    + apply elem_of_app. left. by eapply Hseen.
    + destruct (decide (k0 = k)) as [->|Hne].
      * rewrite lookup_insert_eq in Hk. injection Hk as <-.
        apply elem_of_app. right. by left.
      * rewrite lookup_insert_ne in Hk by done.
        apply elem_of_app. left. by eapply Hseen.
  - intros k1 k2 c H1 H2.
    destruct (step_cases m col) as [E|(k0 & _ & _ & E)]; rewrite E in H1, H2.
    + by eapply Hinj.
    + destruct (decide (k0 = k1)) as [E1|Hne1], (decide (k0 = k2)) as [E2|Hne2];
        [congruence|..].
      * subst k0. rewrite lookup_insert_eq in H1. injection H1 as <-.
        rewrite lookup_insert_ne in H2 by done. by apply Hseen in H2.
      * subst k0. rewrite lookup_insert_eq in H2. injection H2 as <-.
        rewrite lookup_insert_ne in H1 by done. by apply Hseen in H1.
      * rewrite lookup_insert_ne in H1, H2 by done. by eapply Hinj.
Qed.
End Resolver.

(** X7.  What the resolvers detect is well formed: every entry gives one
    of the standard keys a column of the table, and where the table has no
    two columns of one name, no column is given to two keys. *)
Theorem detected_mapping_well_formed df :
  (∀ k c, detect_registration_columns df !! k = Some c →
          k ∈ registration_keys ∧ c ∈ columns df) ∧
  (∀ k c, detect_zoom_columns df !! k = Some c →
          k ∈ zoom_keys_std ∧ c ∈ columns df) ∧
  (NoDup (columns df) →
   (∀ k1 k2 c, detect_registration_columns df !! k1 = Some c →
               detect_registration_columns df !! k2 = Some c → k1 = k2) ∧
   (∀ k1 k2 c, detect_zoom_columns df !! k1 = Some c →
               detect_zoom_columns df !! k2 = Some c → k1 = k2)).
Proof.
  rewrite detect_registration_foldl, detect_zoom_foldl.
  split; [|split].
  - intros k c Hk.
    by apply (foldl_entries _ _ registration_step_cases (columns df) [] ∅).
  - intros k c Hk.
    by apply (foldl_entries _ _ zoom_step_cases (columns df) [] ∅).
  - intros Hnd. split.
    + by apply (foldl_injective _ _ registration_step_cases (columns df) [] ∅).
    + by apply (foldl_injective _ _ zoom_step_cases (columns df) [] ∅).
Qed.

(** X8.  The first column that qualifies for a key keeps it: columns
    that follow never change what the columns before them were given. *)
Theorem detection_first_match_wins df df' more k c :
  columns df' = columns df ++ more →
  (detect_registration_columns df !! k = Some c →
   detect_registration_columns df' !! k = Some c) ∧
  (detect_zoom_columns df !! k = Some c →
   detect_zoom_columns df' !! k = Some c).
Proof.
  intros Hcols. rewrite !detect_registration_foldl, !detect_zoom_foldl, Hcols.
  rewrite !foldl_app. split; intros Hk.
  - by apply (foldl_keeps _ _ registration_step_cases).
  - by apply (foldl_keeps _ _ zoom_step_cases).
Qed.

Lemma registration_step_email m col :
  registration_step m col !! "Email"
  = if mentions "email" col && not_in "Email" m then Some col else m !! "Email".
Proof.
  unfold registration_step, mentions. cbv zeta.
  destruct (Str.contains "email" _ && not_in "Email" m);
    [by rewrite lookup_insert_eq|].
  repeat (lazymatch goal with
          | |- context [if ?c then _ else _] => destruct c
          end; [by rewrite lookup_insert_ne by done|]).
  done.
Qed.

Lemma zoom_step_email m col :
  zoom_step m col !! "Email"
  = if mentions "email" col && not_in "Email" m then Some col else m !! "Email".
Proof.
  unfold zoom_step, mentions. cbv zeta.
  destruct (Str.contains "email" _ && not_in "Email" m);
    [by rewrite lookup_insert_eq|].
  repeat (lazymatch goal with
          | |- context [if ?c then _ else _] => destruct c
          end; [by rewrite lookup_insert_ne by done|]).
  done.
Qed.

Lemma foldl_email step l m :
  (∀ m col, step m col !! "Email"
            = if mentions "email" col && not_in "Email" m
              then Some col else m !! "Email") →
  foldl step m l !! "Email"
  = match m !! "Email" with
    | Some c => Some c
    | None => head (filter (fun col => mentions "email" col = true) l)
    end.
Proof.
  intros Hstep. revert m. induction l as [|col l IH]; intros m.
  - simpl. by destruct (m !! "Email").
  - simpl. rewrite IH, Hstep. unfold not_in.
    destruct (m !! "Email") as [c|] eqn:Hm.
    + rewrite bool_decide_eq_false_2 by done. by rewrite andb_false_r.
    + rewrite bool_decide_eq_true_2 by done. rewrite andb_true_r.
      rewrite filter_cons. destruct (mentions "email" col) eqn:Hcol.
      * by rewrite decide_True by done.
      * by rewrite decide_False by done.
Qed.

Lemma detected_email df :
  detect_registration_columns df !! "Email"
  = head (filter (fun col => mentions "email" col = true) (columns df)) ∧
  detect_zoom_columns df !! "Email"
  = head (filter (fun col => mentions "email" col = true) (columns df)).
Proof.
  rewrite detect_registration_foldl, detect_zoom_foldl. split.
  - by rewrite (foldl_email _ _ _ registration_step_email).
  - by rewrite (foldl_email _ _ _ zoom_step_email).
Qed.

(** X9.  Both resolvers give the key [Email] to the first column whose
    name, in lower case, holds the word "email", and leave it free when
    there is none. *)
Theorem email_is_first_column_with_email df :
  detect_registration_columns df !! "Email"
  = head (filter (fun col => mentions "email" col = true) (columns df)) ∧
  detect_zoom_columns df !! "Email"
  = head (filter (fun col => mentions "email" col = true) (columns df)).
Proof. apply detected_email. Qed.

Lemma registration_step_training m col :
  mentions "email" col = false →
  mentions "training date" col || mentions "training_date" col = true →
  is_Some (registration_step m col !! "Training date").
Proof.
  unfold registration_step, mentions. cbv zeta. intros -> ->.
  rewrite andb_false_l, andb_true_l. unfold not_in.
  destruct (m !! "Training date") as [c|] eqn:Hm.
  - rewrite bool_decide_eq_false_2 by done. 
    repeat (lazymatch goal with
            | |- context [if ?c then _ else _] => destruct c
            end; [rewrite lookup_insert_ne by done; by rewrite Hm|]).
    by rewrite Hm.
  - rewrite bool_decide_eq_true_2 by done. by rewrite lookup_insert_eq.
Qed.

Lemma zoom_step_duration m col :
  mentions "email" col = false → mentions "duration" col = true →
  is_Some (zoom_step m col !! "Duration").
Proof.
  unfold zoom_step, mentions. cbv zeta. intros -> ->.
  rewrite andb_false_l, andb_true_l. unfold not_in.
  destruct (m !! "Duration") as [c|] eqn:Hm.
  - rewrite bool_decide_eq_false_2 by done.
    repeat (lazymatch goal with
            | |- context [if ?c then _ else _] => destruct c
            end; [rewrite lookup_insert_ne by done; by rewrite Hm|]).
    by rewrite Hm.
  - rewrite bool_decide_eq_true_2 by done. by rewrite lookup_insert_eq.
Qed.

Lemma foldl_reaches (step : gmap string string → string → gmap string string)
    (keys : list string) l (m : gmap string string) (col k : string) :
  (∀ m col, step m col = m ∨
     ∃ k, k ∈ keys ∧ m !! k = None ∧ step m col = <[k := col]> m) →
  col ∈ l → (∀ m, is_Some (step m col !! k)) →
  is_Some (foldl step m l !! k).
Proof.
  intros Hcases Hin Hstep. revert m.
  induction l as [|x l IH]; intros m; [by apply elem_of_nil in Hin|].
  apply elem_of_cons in Hin as [<-|Hin]; simpl.
  - destruct (Hstep m) as [c Hc]. exists c. by apply (foldl_keeps _ _ Hcases).
  - by apply IH.
Qed.

Lemma head_filter_is_Some {A} (P : A → Prop) `{∀ x, Decision (P x)} l x :
  x ∈ l → P x → is_Some (head (filter P l)).
Proof.
  intros Hin HP. destruct (filter P l) as [|y l'] eqn:Hf; [|by eexists].
  assert (x ∈ filter P l) as Hx by (by apply list_elem_of_filter).
  rewrite Hf in Hx. by apply elem_of_nil in Hx.
Qed.

Section LoadDetected.
Context `{Platform}.

(** X10.  Without an override a table that was read is loaded, with the
    detected mapping, as soon as one column mentions "email" and one
    column that does not mention it mentions the second required word:
    "training date" or "training_date" for the roster, "duration" for the
    log. *)
Theorem load_succeeds_on_detected_columns filepath df :
  read_csv_safe filepath = inl df →
  (∃ c, c ∈ columns df ∧ mentions "email" c = true) →
  ((∃ c, c ∈ columns df ∧ mentions "email" c = false ∧
         mentions "training date" c || mentions "training_date" c = true) →
   load_registration_csv filepath None
   = inl (df, detect_registration_columns df)) ∧
  ((∃ c, c ∈ columns df ∧ mentions "email" c = false ∧
         mentions "duration" c = true) →
   load_zoom_csv filepath None = inl (df, detect_zoom_columns df)).
Proof.
  intros Hread (e & He & Hemail).
  pose proof (detected_email df) as [Hreg Hzoom].
  assert (is_Some (head (filter (fun col => mentions "email" col = true)
                                (columns df)))) as [e' He'].
  { by apply (head_filter_is_Some _ _ e). }
  rewrite He' in Hreg, Hzoom.
  split; intros (c & Hc & Hno & Hword).
  - assert (is_Some (detect_registration_columns df !! "Training date")) as [d Hd].
    { rewrite detect_registration_foldl.
      apply (foldl_reaches _ _ _ _ c _ registration_step_cases Hc).
      intros m. by apply registration_step_training. }
    unfold load_registration_csv. rewrite Hread. unfold missing_keys.
    rewrite !filter_cons, filter_nil.
    by rewrite !decide_False by (rewrite ?Hreg, ?Hd; done).
  - assert (is_Some (detect_zoom_columns df !! "Duration")) as [d Hd].
    { rewrite detect_zoom_foldl.
      apply (foldl_reaches _ _ _ _ c _ zoom_step_cases Hc).
      intros m. by apply zoom_step_duration. }
    unfold load_zoom_csv. rewrite Hread. unfold missing_keys.
    rewrite !filter_cons, filter_nil.
    by rewrite !decide_False by (rewrite ?Hzoom, ?Hd; done).
Qed.

End LoadDetected.

Lemma first_match_witness :
  detect_registration_columns
    (Frame.mk 0 [("Work Email", []); ("Private email", [])]) !! "Email"
  = Some "Work Email".
Proof.
  apply (proj1 (detection_first_match_wins
                  (Frame.mk 0 [("Work Email", [])])
                  (Frame.mk 0 [("Work Email", []); ("Private email", [])])
                  ["Private email"] "Email" "Work Email" eq_refl)).
  vm_compute. reflexivity.
Defined.

Lemma load_detected_witness :
  @load_registration_csv Fixture.writable "registration.csv" None
  = inl (Fixture.roster, detect_registration_columns Fixture.roster) ∧
  @load_zoom_csv Fixture.writable "zoom.csv" None
  = inl (Fixture.zoom, detect_zoom_columns Fixture.zoom).
Proof.
  assert (∃ c, c ∈ columns Fixture.roster ∧ mentions "email" c = true) as Hroster.
  { exists "Participant Email". split; [repeat constructor | reflexivity]. }
  assert (∃ c, c ∈ columns Fixture.zoom ∧ mentions "email" c = true) as Hzoom.
  { exists "User Email". split; [repeat constructor | reflexivity]. }
  split.
  - apply (proj1 (@load_succeeds_on_detected_columns Fixture.writable
                    "registration.csv" Fixture.roster eq_refl Hroster)).
    exists "Training Date". split; [repeat constructor | split; reflexivity].
  - apply (proj2 (@load_succeeds_on_detected_columns Fixture.writable
                    "zoom.csv" Fixture.zoom eq_refl Hzoom)).
    exists "Duration (Minutes)". split; [repeat constructor | split; reflexivity].
Defined.

(** * When the run returns *)

Lemma returns_Ok {A} (a : A) : returns (Ok a).
Proof. by exists a. Qed.

Lemma mapM_returns {A B} (f : A → result B) (l : list A) :
  Forall (fun x => returns (f x)) l → returns (mapM f l).
Proof.
  induction 1 as [|x l [y Hy] _ [k Hk]]; [apply returns_Ok|].
  simpl. rewrite Hy. cbn [mbind result_bind]. rewrite Hk. apply returns_Ok.
Qed.

Lemma columns_setitem_incl df c vals c' :
  c' ∈ columns df → c' ∈ columns (setitem df c vals).
Proof.
  intros Hc. rewrite columns_setitem. case_decide; [done|].
  apply elem_of_app. by left.
Qed.

Lemma columns_setitem_new df c vals : c ∈ columns (setitem df c vals).
Proof. apply getitem_columns. eexists. apply getitem_setitem_eq. Qed.

Lemma rectangular_set_at df i c v : rectangular df → rectangular (set_at df i c v).
Proof.
  unfold rectangular, set_at; simpl. intros Hrect.
  apply Forall_fmap. eapply Forall_impl; [exact Hrect|].
  intros [c' vals] Hlen; simpl in *.
  destruct (String.eqb c' c); simpl; [by rewrite length_insert | done].
Qed.

Lemma at_in_range df c i :
  rectangular df → c ∈ columns df → i < nrows df → ∃ v, at_ df i c = Ok v.
Proof.
  intros Hrect [col Hcol]%getitem_columns Hi. by eapply at_rectangular.
Qed.

Section Returns.
Context `{Platform}.

Lemma attendance_column_returns reg_df reg_col_map attendance_day :
  (∀ k c, reg_col_map !! k = Some c → c ∈ columns reg_df) →
  ∃ df2 cm2 att,
    attendance_column reg_df reg_col_map attendance_day = Ok (df2, cm2, att) ∧
    ∀ c, c ∈ columns reg_df → c ∈ columns df2.
Proof.
  intros Hcols. unfold attendance_column, dict_get. cbv zeta.
  destruct (not_in (att_col_key attendance_day) reg_col_map) eqn:Hkey.
  - rewrite lookup_insert_eq. cbn [of_option mbind result_bind].
    unfold setitem_scalar. eexists _, _, _. split.
    + rewrite getitem_setitem_eq. reflexivity.
    + intros c Hc. by apply columns_setitem_incl, columns_setitem_incl.
  - unfold not_in in Hkey. apply bool_decide_eq_false in Hkey.
    destruct (reg_col_map !! att_col_key attendance_day) as [att|] eqn:Hatt; [|done].
    cbn [of_option mbind result_bind].
    destruct (proj1 (getitem_columns reg_df att) (Hcols _ _ Hatt)) as [col Hcol].
    eexists _, _, _. split.
    + rewrite Hcol. reflexivity.
    + intros c Hc. by apply columns_setitem_incl.
Qed.

Lemma normalize_emails_returns reg_df reg_col_map zoom_df zoom_col_map e ze dcol :
  reg_col_map !! "Email" = Some e → e ∈ columns reg_df →
  zoom_col_map !! "Email" = Some ze → ze ∈ columns zoom_df →
  zoom_col_map !! "Duration" = Some dcol →
  ∃ emails zemails,
    normalize_emails reg_df reg_col_map zoom_df zoom_col_map
    = Ok (setitem reg_df "_normalized_email"
            (map (fun v => CStr (normalize_email v)) emails),
          setitem zoom_df "_normalized_email"
            (map (fun v => CStr (normalize_email v)) zemails), dcol) ∧
    getitem reg_df e = Ok emails.
Proof.
  intros He [emails Hemails]%getitem_columns Hze [zemails Hzemails]%getitem_columns Hd.
  exists emails, zemails. unfold normalize_emails, dict_get.
  rewrite He, Hze, Hd. cbn [of_option mbind result_bind].
  rewrite Hemails. cbn [mbind result_bind]. by rewrite Hzemails.
Qed.

Lemma scope_rows_returns reg_df reg_col_map selected_date program_filter d :
  rectangular reg_df →
  reg_col_map !! "Training date" = Some d → d ∈ columns reg_df →
  (∀ k c, reg_col_map !! k = Some c → c ∈ columns reg_df) →
  ∃ dates indices,
    scope_rows reg_df reg_col_map selected_date program_filter
    = Ok (setitem reg_df "_parsed_date"
            (map (fun v => cell_of_date (parse_date v)) dates), indices) ∧
    length dates = nrows reg_df ∧
    ∀ i, i ∈ indices → i < nrows reg_df.
Proof.
  intros Hrect Hd [dates Hdates]%getitem_columns Hcols.
  assert (length dates = nrows reg_df) as Hlen.
  { eapply rectangular_find; [done|]. by apply getitem_find. }
  exists dates. unfold scope_rows, dict_get. rewrite Hd.
  cbn [of_option mbind result_bind]. rewrite Hdates. cbn [mbind result_bind].
  rewrite getitem_setitem_eq. cbn [mbind result_bind].
  destruct (filter_applies program_filter reg_col_map) eqn:Hf.
  - unfold filter_applies in Hf. apply andb_true_iff in Hf as [_ Hv].
    apply negb_true_iff in Hv. unfold not_in in Hv.
    apply bool_decide_eq_false in Hv.
    destruct (reg_col_map !! "Version") as [vcol|] eqn:Hvcol; [|done].
    cbn [of_option mbind result_bind].
    destruct (proj1 (getitem_columns _ vcol)
                (columns_setitem_incl reg_df "_parsed_date"
                   (map (fun v => cell_of_date (parse_date v)) dates) vcol
                   (Hcols _ _ Hvcol))) as [versions Hversions].
    eexists. split; [by rewrite Hversions|]. split; [done|].
    intros i Hi%where_elem. apply lookup_zip_with_Some in Hi as (b1 & b2 & _ & Hb1 & _).
    apply lookup_lt_Some in Hb1. by rewrite !length_map, Hlen in Hb1.
  - cbn [mbind result_bind]. eexists. split; [done|]. split; [done|].
    intros i Hi%where_elem. apply lookup_lt_Some in Hi.
    by rewrite !length_map, Hlen in Hi.
Qed.

Lemma aggregate_returns zoom_df dcol durations :
  getitem zoom_df dcol = Ok durations →
  "_normalized_email" ∈ columns zoom_df →
  Forall (fun v => returns (parse_duration_to_minutes v)) durations →
  returns (aggregate zoom_df dcol).
Proof.
  intros Hd [keys Hkeys]%getitem_columns [minutes Hm]%mapM_returns.
  unfold aggregate. rewrite Hd. cbn [mbind result_bind]. rewrite Hm.
  cbn [mbind result_bind]. rewrite Hkeys. apply returns_Ok.
Qed.

Lemma mark_row_returns zoom_dict min_duration att df n idx :
  rectangular df → "_normalized_email" ∈ columns df → idx < nrows df →
  ∃ mark n', mark_row zoom_dict min_duration att (df, n) idx
             = Ok (set_at df idx att (CStr mark), n').
Proof.
  intros Hrect Hcol Hidx. destruct (at_in_range _ _ _ Hrect Hcol Hidx) as [v Hv].
  unfold mark_row. rewrite Hv. cbn [mbind result_bind].
  destruct (String.eqb (str_of v) ""); [by eexists _, _|].
  destruct (zoom_dict !! str_of v) as [total|]; [|by eexists _, _].
  destruct (Float.ge total min_duration); by eexists _, _.
Qed.

Lemma mark_rows_returns zoom_dict min_duration att indices : ∀ df n,
  rectangular df → "_normalized_email" ∈ columns df →
  (∀ i, i ∈ indices → i < nrows df) →
  ∃ df' n', mark_rows zoom_dict min_duration att (df, n) indices = Ok (df', n') ∧
            rectangular df' ∧ nrows df' = nrows df ∧ columns df' = columns df.
Proof.
  induction indices as [|idx indices IH]; intros df n Hrect Hcol Hidx.
  - by exists df, n.
  - destruct (mark_row_returns zoom_dict min_duration att df n idx Hrect Hcol)
      as (mark & n1 & Hrow); [apply Hidx; by left|].
    destruct (IH (set_at df idx att (CStr mark)) n1) as (df' & n' & Hrun & ? & ? & Hc).
    + by apply rectangular_set_at.
    + by rewrite columns_set_at.
    + intros i Hi. apply Hidx. by right.
    + exists df', n'. rewrite Hc, columns_set_at. split; [|done].
      cbn [mark_rows]. by rewrite Hrow.
Qed.

Lemma unmatched_returns df indices zoom_dict :
  rectangular df → "_normalized_email" ∈ columns df →
  (∀ i, i ∈ indices → i < nrows df) →
  returns (unmatched df indices zoom_dict).
Proof.
  intros Hrect Hcol Hidx. unfold unmatched.
  destruct (mapM_returns (fun idx => at_ df idx "_normalized_email") indices)
    as [emails ->]; [|apply returns_Ok].
  apply Forall_forall. intros i Hi. by apply at_in_range, Hidx.
Qed.

End Returns.

Lemma zoom_step_duration_inv m col c :
  zoom_step m col !! "Duration" = Some c →
  m !! "Duration" = Some c ∨ mentions "duration" c = true.
Proof.
  unfold zoom_step, mentions. cbv zeta.
  destruct (Str.contains "email" _ && not_in "Email" m);
    [rewrite lookup_insert_ne by done; auto|].
  destruct (Str.contains "duration" _ && not_in "Duration" m) eqn:E.
  { rewrite lookup_insert_eq. intros [= <-].
    apply andb_true_iff in E as [E _]. auto. }
  destruct (Str.contains "name" _ && not_in "Name" m);
    [rewrite lookup_insert_ne by done; auto | auto].
Qed.

Lemma detected_duration_mentions df c :
  detect_zoom_columns df !! "Duration" = Some c → mentions "duration" c = true.
Proof.
  rewrite detect_zoom_foldl.
  assert (∀ l (m : gmap string string),
            (∀ c, m !! "Duration" = Some c → mentions "duration" c = true) →
            ∀ c, foldl zoom_step m l !! "Duration" = Some c →
                 mentions "duration" c = true) as Hfold.
  { induction l as [|col l IH]; intros m Hm c' Hc'; [by apply Hm|].
    simpl in Hc'. apply (IH (zoom_step m col)); [|done].
    intros c0 [Hc0|Hc0]%zoom_step_duration_inv; [by apply Hm | done]. }
  apply Hfold. intros c0 Hc0. by rewrite lookup_empty in Hc0.
Qed.

Section RunReturns.
Context `{Platform}.

Lemma email_key_other attendance_day k :
  k ∈ ["Email"; "Training date"; "Version"] → k ≠ att_col_key attendance_day.
Proof.
  unfold att_col_key. intros Hk Heq.
  repeat (apply elem_of_cons in Hk as [->|Hk]);
    [..|by apply elem_of_nil in Hk];
    by destruct (attendance_day =? 1)%Z.
Qed.

Lemma steps_return reg_df reg_col_map zoom_df zoom_col_map selected_date
    attendance_day program_filter min_duration dcol durations :
  rectangular reg_df →
  (∀ k c, reg_col_map !! k = Some c → c ∈ columns reg_df) →
  (∀ k c, zoom_col_map !! k = Some c → c ∈ columns zoom_df) →
  is_Some (reg_col_map !! "Email") → is_Some (reg_col_map !! "Training date") →
  is_Some (zoom_col_map !! "Email") →
  zoom_col_map !! "Duration" = Some dcol → dcol ≠ "_normalized_email" →
  getitem zoom_df dcol = Ok durations →
  Forall (fun v => returns (parse_duration_to_minutes v)) durations →
  returns (reconcile reg_df reg_col_map zoom_df zoom_col_map selected_date
             attendance_day program_filter min_duration).
Proof.
  intros Hrect Hreg Hzoom [e He] [d Hd] [ze Hze] Hdcol Hwork Hdur Hparse.
  destruct (attendance_column_returns reg_df reg_col_map attendance_day Hreg)
    as (df2 & cm2 & att & HA & Hincl).
  destruct (attendance_column_rectangular _ _ _ _ _ _ Hrect HA)
    as (Hrect2 & Hn2 & col & Hcol).
  pose proof (attendance_column_spec _ _ _ _ _ _ HA) as (_ & Hatt & _).
  cbv zeta in Hatt.
  assert (∀ k c, cm2 !! k = Some c → c ∈ columns df2) as Hcm2.
  { intros k c Hk. destruct (decide (k = att_col_key attendance_day)) as [->|Hne].
    - rewrite Hatt in Hk. injection Hk as <-. apply getitem_columns. by exists col.
    - rewrite (attendance_column_other_keys _ _ _ _ _ _ _ HA Hne) in Hk.
      by eapply Hincl, Hreg. }
  assert (cm2 !! "Email" = Some e) as He2.
  { rewrite (attendance_column_other_keys _ _ _ _ _ _ _ HA); [done|].
    apply email_key_other. repeat constructor. }
  assert (cm2 !! "Training date" = Some d) as Hd2.
  { rewrite (attendance_column_other_keys _ _ _ _ _ _ _ HA); [done|].
    apply email_key_other. repeat constructor. }
  destruct (normalize_emails_returns df2 cm2 zoom_df zoom_col_map e ze dcol)
    as (emails & zemails & HN & Hemails); try done; [by eapply Hcm2 | by eapply Hzoom|].
  set (df3 := setitem df2 "_normalized_email"
                (map (fun v => CStr (normalize_email v)) emails)) in *.
  set (zdf3 := setitem zoom_df "_normalized_email"
                 (map (fun v => CStr (normalize_email v)) zemails)) in *.
  assert (rectangular df3) as Hrect3.
  { apply rectangular_setitem; [done|]. rewrite length_map.
    eapply rectangular_find; [done|]. by apply getitem_find. }
  destruct (scope_rows_returns df3 cm2 selected_date program_filter d)
    as (dates & indices & HS & Hlen & Hidx); try done.
  { by eapply columns_setitem_incl, Hcm2. }
  { intros k c Hk. by eapply columns_setitem_incl, Hcm2. }
  set (df4 := setitem df3 "_parsed_date"
                (map (fun v => cell_of_date (parse_date v)) dates)) in *.
  assert (rectangular df4) as Hrect4.
  { apply rectangular_setitem; [done|]. by rewrite length_map. }
  assert ("_normalized_email" ∈ columns df4) as Hcol4.
  { apply columns_setitem_incl, columns_setitem_new. }
  destruct (aggregate_returns zdf3 dcol durations) as [[[keys minutes] zd] HG];
    [by unfold zdf3; rewrite getitem_setitem_ne by done
    |apply columns_setitem_new|done|].
  destruct (mark_rows_returns zd min_duration att indices df4 (mkCounts 0 0 0))
    as (marked & n & HM & Hrectm & Hnm & Hcolm); try done.
  destruct (unmatched_returns marked indices zd) as [u HU].
  { done. }
  { by rewrite Hcolm. }
  { intros i Hi. rewrite Hnm. by apply Hidx. }
  unfold reconcile. rewrite HA. cbn [mbind result_bind].
  rewrite HN. cbn [mbind result_bind]. rewrite HS. cbn [mbind result_bind].
  rewrite HG. cbn [mbind result_bind]. rewrite HM. cbn [mbind result_bind].
  rewrite HU. apply returns_Ok.
Qed.

(** X11.  Steps 2 to 6b raise no exception when the column labels of
    each table differ, the roster is rectangular, the two mappings hold
    their required keys, every column that a mapping names is a column of
    its table, the duration column is not the working column, and every
    duration of the log parses. *)
Theorem reconcile_returns reg_df reg_col_map zoom_df zoom_col_map selected_date
    attendance_day program_filter min_duration dcol durations :
  NoDup (columns reg_df) → NoDup (columns zoom_df) →
  rectangular reg_df →
  (∀ k c, reg_col_map !! k = Some c → c ∈ columns reg_df) →
  (∀ k c, zoom_col_map !! k = Some c → c ∈ columns zoom_df) →
  is_Some (reg_col_map !! "Email") → is_Some (reg_col_map !! "Training date") →
  is_Some (zoom_col_map !! "Email") →
  zoom_col_map !! "Duration" = Some dcol → dcol ≠ "_normalized_email" →
  getitem zoom_df dcol = Ok durations →
  Forall (fun v => returns (parse_duration_to_minutes v)) durations →
  returns (reconcile reg_df reg_col_map zoom_df zoom_col_map selected_date
             attendance_day program_filter min_duration).
Proof. intros _ _. apply steps_return. Qed.

(** X12.  With the mappings that the resolvers detect, [process_attendance]
    raises no exception on two tables whose column labels differ, the
    roster rectangular, when every duration of the detected duration
    column parses: it returns a result, which carries the error of a
    loader that failed. *)
Theorem detected_run_never_raises reg_filepath zoom_filepath selected_date
    attendance_day program_filter min_duration output_dir reg_df zoom_df :
  read_csv_safe reg_filepath = inl reg_df →
  read_csv_safe zoom_filepath = inl zoom_df →
  NoDup (columns reg_df) → NoDup (columns zoom_df) →
  rectangular reg_df →
  (∀ dcol durations,
     detect_zoom_columns zoom_df !! "Duration" = Some dcol →
     getitem zoom_df dcol = Ok durations →
     Forall (fun v => returns (parse_duration_to_minutes v)) durations) →
  returns (process_attendance reg_filepath zoom_filepath selected_date
             attendance_day program_filter min_duration output_dir None None).
Proof.
  intros Hreg Hzoom _ _ Hrect Hparse. unfold process_attendance.
  unfold load_registration_csv, load_zoom_csv. rewrite Hreg, Hzoom. cbv zeta.
  set (rm := detect_registration_columns reg_df).
  set (zm := detect_zoom_columns zoom_df).
  destruct (missing_keys ["Email"; "Training date"] rm) as [|? ?] eqn:Hmr;
    [|apply returns_Ok].
  destruct (missing_keys ["Email"; "Duration"] zm) as [|? ?] eqn:Hmz;
    [|apply returns_Ok].
  assert (∀ k, k ∈ ["Email"; "Training date"] → is_Some (rm !! k)) as Hr.
  { intros k Hk. destruct (rm !! k) eqn:E; [done|].
    assert (k ∈ missing_keys ["Email"; "Training date"] rm) as Hin
      by (by apply missing_keys_spec).
    rewrite Hmr in Hin. by apply elem_of_nil in Hin. }
  assert (∀ k, k ∈ ["Email"; "Duration"] → is_Some (zm !! k)) as Hz.
  { intros k Hk. destruct (zm !! k) eqn:E; [done|].
    assert (k ∈ missing_keys ["Email"; "Duration"] zm) as Hin
      by (by apply missing_keys_spec).
    rewrite Hmz in Hin. by apply elem_of_nil in Hin. }
  destruct (Hz "Duration" ltac:(repeat constructor)) as [dcol Hdcol].
  assert (∀ k c, rm !! k = Some c → c ∈ columns reg_df) as Hrcols.
  { intros k c Hk. unfold rm in Hk. rewrite detect_registration_foldl in Hk.
    by apply (foldl_entries _ _ registration_step_cases (columns reg_df) [] ∅)
      in Hk as [_ ?]. }
  assert (∀ k c, zm !! k = Some c → c ∈ columns zoom_df) as Hzcols.
  { intros k c Hk. unfold zm in Hk. rewrite detect_zoom_foldl in Hk.
    by apply (foldl_entries _ _ zoom_step_cases (columns zoom_df) [] ∅)
      in Hk as [_ ?]. }
  destruct (proj1 (getitem_columns zoom_df dcol) (Hzcols _ _ Hdcol))
    as [durations Hdur].
  destruct (steps_return reg_df rm zoom_df zm selected_date attendance_day
              program_filter min_duration dcol durations) as [t Ht]; try done.
  - apply Hr. repeat constructor.
  - apply Hr. repeat constructor.
  - apply Hz. repeat constructor.
  - intros ->. by apply detected_duration_mentions in Hdcol.
  - by eapply Hparse.
  - rewrite Ht. apply returns_Ok.
Qed.

End RunReturns.

Lemma fixture_durations_parse :
  Forall (fun v => returns (parse_duration_to_minutes v))
    [CInt 75; CInt 45; CInt 30; CStr "1:30:00"; CInt 55; CInt 62;
     CInt 59; CInt 5; CStr "2 hours"; CInt 80].
Proof. repeat constructor; vm_compute; by eexists. Qed.

Lemma fixture_columns_exist :
  (∀ k c, Fixture.roster_map !! k = Some c → c ∈ columns Fixture.roster) ∧
  (∀ k c, Fixture.zoom_map !! k = Some c → c ∈ columns Fixture.zoom).
Proof.
  split; intros k c Hk.
  - unfold Fixture.roster_map in Hk.
    repeat (apply lookup_insert_Some in Hk as [[_ <-]|[_ Hk]];
            [vm_compute; repeat constructor|]).
    apply lookup_singleton_Some in Hk as [_ <-]. vm_compute. repeat constructor.
  - unfold Fixture.zoom_map in Hk.
    repeat (apply lookup_insert_Some in Hk as [[_ <-]|[_ Hk]];
            [vm_compute; repeat constructor|]).
    apply lookup_singleton_Some in Hk as [_ <-]. vm_compute. repeat constructor.
Qed.

Lemma fixture_labels_differ :
  NoDup (columns Fixture.roster) ∧ NoDup (columns Fixture.zoom).
Proof. split; apply (bool_decide_unpack _); vm_compute; reflexivity. Qed.

Lemma reconcile_returns_witness : returns (Fixture.reconciled None).
Proof.
  destruct fixture_columns_exist as [Hr Hz].
  destruct fixture_labels_differ as [Hndr Hndz].
  apply (@reconcile_returns Fixture.writable Fixture.roster Fixture.roster_map
           Fixture.zoom Fixture.zoom_map (Date 2025 1 15) 1 None
           (Float.of_Z_exact 60) "Duration (Minutes)"
           [CInt 75; CInt 45; CInt 30; CStr "1:30:00"; CInt 55; CInt 62;
            CInt 59; CInt 5; CStr "2 hours"; CInt 80]
           Hndr Hndz fixture_rectangular Hr Hz).
  - vm_compute. by eexists.
  - vm_compute. by eexists.
  - vm_compute. by eexists.
  - vm_compute. reflexivity.
  - discriminate.
  - reflexivity.
  - exact fixture_durations_parse.
Defined.

Lemma detected_run_witness : returns (Fixture.process Fixture.writable None).
Proof.
  destruct fixture_labels_differ as [Hndr Hndz].
  apply (@detected_run_never_raises Fixture.writable "registration.csv" "zoom.csv"
           (Date 2025 1 15) 1 None (Float.of_Z_exact 60) None
           Fixture.roster Fixture.zoom eq_refl eq_refl Hndr Hndz
           fixture_rectangular).
  intros dcol durations Hd Hg.
  assert (detect_zoom_columns Fixture.zoom !! "Duration" = Some "Duration (Minutes)")
    as Hdet by (vm_compute; reflexivity).
  rewrite Hdet in Hd. injection Hd as <-.
  assert (getitem Fixture.zoom "Duration (Minutes)"
          = Ok [CInt 75; CInt 45; CInt 30; CStr "1:30:00"; CInt 55; CInt 62;
                CInt 59; CInt 5; CStr "2 hours"; CInt 80]) as Hcol by reflexivity.
  rewrite Hcol in Hg. injection Hg as <-. exact fixture_durations_parse.
Defined.

(** * The program and date lists *)

#[global] Instance date_le_total : Total date_le.
Proof. intros [y m d] [y' m' d']. unfold date_le; simpl. lia. Qed.

#[global] Instance date_le_trans : Transitive date_le.
Proof. intros [y m d] [y' m' d'] [y'' m'' d'']. unfold date_le; simpl. lia. Qed.

Lemma date_le_antisymm a b : date_le a b → date_le b a → a = b.
Proof.
  destruct a as [y m d], b as [y' m' d']. unfold date_le; simpl.
  intros H1 H2. f_equal; lia.
Qed.

Lemma Sorted_dates_strict (l : list date) :
  Sorted date_le l → NoDup l → Sorted date_lt l.
Proof.
  induction 1 as [|x l Hl IH Hhd]; intros Hnd; [constructor|].
  apply NoDup_cons in Hnd as [Hx Hnd]. constructor; [by apply IH|].
  destruct Hhd as [|y l' Hxy]; constructor.
  split; [done|]. intros ->. apply Hx. by left.
Qed.

Lemma series_unique_elem l x : x ∈ series_unique l → x ∈ l.
Proof.
  revert x. induction l as [|y l IH]; intros x; simpl; [done|].
  intros [->|[_ Hx]%list_elem_of_filter]%elem_of_cons; [by left|].
  right. by apply IH.
Qed.

Lemma series_unique_string l s : CStr s ∈ l → CStr s ∈ series_unique l.
Proof.
  induction l as [|y l IH]; simpl; [done|].
  intros [<-|Hs]%elem_of_cons; [by left|].
  assert (y = CStr s ∨ cell_eqb y (CStr s) = false) as [->|Hne].
  { destruct y as [|t| | | |]; auto. simpl.
    destruct (String.eqb_spec t s) as [->|]; auto. }
  - by left.
  - right. apply list_elem_of_filter. split; [done | by apply IH].
Qed.

Lemma float_eqb_refl f : Float.is_nan f = false → float_eqb f f = true.
Proof.
  destruct f as [q|b|]; simpl; try done.
  - intros _. by apply Qeq_bool_iff.
  - intros _. by destruct b.
Qed.

Lemma cell_eqb_refl v : isna v = false → cell_eqb v v = true.
Proof.
  destruct v as [|s|z|f|d|d t]; simpl; try done.
  - intros _. apply String.eqb_refl.
  - intros _. apply Z.eqb_refl.
  - intros Hf. apply float_eqb_refl. by destruct f.
  - intros _. by apply bool_decide_eq_true.
  - intros _. by rewrite !bool_decide_eq_true_2.
Qed.

Lemma series_unique_NoDup l :
  Forall (fun v => isna v = false) l → NoDup (series_unique l).
Proof.
  induction 1 as [|x l Hx Hl IH]; simpl; [constructor|].
  apply NoDup_cons. split; [|by apply NoDup_filter].
  intros [Hne _]%list_elem_of_filter. by rewrite cell_eqb_refl in Hne.
Qed.

Lemma dropna_elem l v : v ∈ dropna l ↔ v ∈ l ∧ isna v = false.
Proof. unfold dropna. rewrite list_elem_of_filter. tauto. Qed.

Lemma dropna_present l : Forall (fun v => isna v = false) (dropna l).
Proof. apply Forall_forall. by intros v [_ ?]%dropna_elem. Qed.

Section UniqueLists.
Context `{Platform}.

(** X13.  On a table whose column labels differ, [get_unique_programs]
    returns the empty list when the mapping has no [Version] key and
    raises [KeyError] when the mapped column is not in the table.
    Otherwise its list is in ascending order, every entry is the string
    of a value of the column that is not missing, every string the column
    holds is an entry, and no entry is repeated when the column holds only
    strings and missing values. *)
Theorem unique_programs_sorted df col_map :
  NoDup (columns df) →
  (col_map !! "Version" = None → get_unique_programs df col_map = Ok []) ∧
  (∀ c, col_map !! "Version" = Some c → c ∉ columns df →
        get_unique_programs df col_map = Raise (KeyError c)) ∧
  (∀ c versions, col_map !! "Version" = Some c → getitem df c = Ok versions →
     ∃ l, get_unique_programs df col_map = Ok l ∧ Sorted str_le l ∧
          (∀ p, p ∈ l → ∃ v, v ∈ versions ∧ isna v = false ∧ py_str v = p) ∧
          (∀ s, CStr s ∈ versions → s ∈ l) ∧
          (Forall (fun v => isna v = true ∨ ∃ s, v = CStr s) versions → NoDup l)).
Proof.
  intros _. unfold get_unique_programs, not_in, dict_get. split; [|split].
  - intros Hv. by rewrite bool_decide_eq_true_2.
  - intros c Hv Hc. rewrite bool_decide_eq_false_2 by congruence. rewrite Hv.
    cbn [of_option mbind result_bind]. unfold getitem.
    destruct (find_col c (cols df)) as [col|] eqn:Hfind; [|done].
    destruct Hc. apply getitem_columns. exists col. by apply getitem_find.
  - intros c versions Hv Hcol. rewrite bool_decide_eq_false_2 by congruence.
    rewrite Hv. cbn [of_option mbind result_bind]. rewrite Hcol.
    cbn [mbind result_bind]. eexists. split; [done|].
    split; [apply Sorted_merge_sort; apply _|]. split; [|split].
    + intros p. rewrite merge_sort_Permutation, list_elem_of_fmap.
      intros (v & -> & [Hin Hna]%series_unique_elem%dropna_elem). by exists v.
    + intros s Hs. rewrite merge_sort_Permutation, list_elem_of_fmap.
      exists (CStr s). split; [done|]. apply series_unique_string.
      by apply dropna_elem.
    + intros Hstr. rewrite merge_sort_Permutation.
      apply NoDup_fmap_2_strong; [|apply series_unique_NoDup, dropna_present].
      intros v w [Hv' Hvna]%series_unique_elem%dropna_elem
             [Hw' Hwna]%series_unique_elem%dropna_elem.
      rewrite Forall_forall in Hstr.
      destruct (Hstr v Hv') as [?|[s ->]]; [congruence|].
      destruct (Hstr w Hw') as [?|[s' ->]]; [congruence|].
      simpl. by intros ->.
Qed.

Lemma unique_dates_spec df col_map :
  (col_map !! "Training date" = None →
   get_unique_dates df col_map = Raise (KeyError "Training date")) ∧
  (∀ c values, col_map !! "Training date" = Some c → getitem df c = Ok values →
     ∃ l, get_unique_dates df col_map = Ok l ∧ Sorted date_lt l ∧
          (∀ d, d ∈ l → ∃ v, v ∈ values ∧ isna v = false ∧ parse_date v = Some d) ∧
          (∀ s d, CStr s ∈ values → parse_date (CStr s) = Some d → d ∈ l)).
Proof.
  unfold get_unique_dates, dict_get. split.
  - by intros ->.
  - intros c values Hc Hcol. rewrite Hc. cbn [of_option mbind result_bind].
    rewrite Hcol. cbn [mbind result_bind]. eexists. split; [done|].
    split; [|split].
    + apply Sorted_dates_strict; [apply Sorted_merge_sort; apply _|].
      rewrite merge_sort_Permutation. apply NoDup_remove_dups.
    + intros d. rewrite merge_sort_Permutation, elem_of_remove_dups.
      rewrite list_elem_of_omap.
      intros (v & [Hin Hna]%series_unique_elem%dropna_elem & Hd). by exists v.
    + intros s d Hs Hd. rewrite merge_sort_Permutation, elem_of_remove_dups.
      rewrite list_elem_of_omap. exists (CStr s). split; [|done].
      apply series_unique_string. by apply dropna_elem.
Qed.

(** X14.  On a table whose column labels differ, [get_unique_dates]
    raises [KeyError] without a [Training date] key.  For a column of the
    table in which every value that is not missing is read by one of the
    ten formats (the pandas parser is not consulted), its list is in
    strictly ascending order of the calendar, every entry
    is what [parse_date] makes of a value of the column that is not
    missing, and every date that [parse_date] makes of a string of the
    column is an entry. *)
Theorem unique_dates_ascending df col_map :
  NoDup (columns df) →
  (col_map !! "Training date" = None →
   get_unique_dates df col_map = Raise (KeyError "Training date")) ∧
  (∀ c values, col_map !! "Training date" = Some c → getitem df c = Ok values →
     (∀ v, v ∈ values → isna v = false →
           is_Some (try_formats (Str.strip (py_str v)) Strptime.formats)) →
     ∃ l, get_unique_dates df col_map = Ok l ∧ Sorted date_lt l ∧
          (∀ d, d ∈ l → ∃ v, v ∈ values ∧ isna v = false ∧ parse_date v = Some d) ∧
          (∀ s d, CStr s ∈ values → parse_date (CStr s) = Some d → d ∈ l)).
Proof.
  intros _. destruct (unique_dates_spec df col_map) as [Hkey Hlist].
  split; [done|]. intros c values Hc Hcol _. by apply (Hlist c).
Qed.

Lemma unique_dates_inv df col_map l d :
  get_unique_dates df col_map = Ok l → d ∈ l →
  ∃ c values v, col_map !! "Training date" = Some c ∧ getitem df c = Ok values ∧
                v ∈ values ∧ parse_date v = Some d.
Proof.
  intros Hl Hd. pose proof Hl as Hl'. unfold get_unique_dates, dict_get in Hl'.
  apply bind_Ok in Hl' as (c & Hc%of_option_Ok & Hl').
  apply bind_Ok in Hl' as (values & Hvalues & _).
  destruct (proj2 (unique_dates_spec df col_map) c values Hc Hvalues)
    as (l' & Hl'' & _ & Hin & _).
  rewrite Hl in Hl''. injection Hl'' as <-.
  destruct (Hin d Hd) as (v & Hv & _ & Hp). by exists c, values, v.
Qed.

(** X15.  A date that [get_unique_dates] lists selects at least one row:
    a run for that date in which the program filter does not apply has
    rows in scope, provided the date column is neither the attendance
    column nor the working column of the identities. *)
Theorem listed_date_has_rows reg_df reg_col_map zoom_df zoom_col_map
    attendance_day program_filter min_duration l d t date_col :
  get_unique_dates reg_df reg_col_map = Ok l → d ∈ l →
  filter_applies program_filter reg_col_map = false →
  reconcile reg_df reg_col_map zoom_df zoom_col_map d attendance_day
            program_filter min_duration = Ok t →
  reg_col_map !! "Training date" = Some date_col →
  date_col ≠ att_col_name t → date_col ≠ "_normalized_email" →
  0 < length (filtered_indices t).
Proof.
  intros Hl Hd Hf Hrun Hdc Hatt Hwork.
  destruct (unique_dates_inv _ _ _ _ Hl Hd) as (c & values & v & Hc & Hvalues & Hv & Hp).
  rewrite Hdc in Hc. injection Hc as <-.
  apply reconcile_inv in Hrun as (df2 & cm2 & df3 & zdf3 & dcol & H2 & H3 & H4 & _).
  destruct (filter_applies_attendance_column _ _ _ _ _ _ program_filter H2)
    as [Hfa _].
  apply normalize_emails_spec in H3 as (? & ? & ? & ? & _ & _ & _ & _ & _ & Hdf3 & _).
  apply scope_rows_spec in H4 as (dc & dates & Hdc' & Hdates & _ & _ & Hin).
  rewrite (attendance_column_other_keys _ _ _ _ _ _ _ H2) in Hdc'
    by (apply email_key_other; repeat constructor).
  rewrite Hdc in Hdc'. injection Hdc' as <-.
  rewrite Hdf3, getitem_setitem_ne in Hdates by done.
  rewrite (getitem_attendance_column_other _ _ _ _ _ _ _ H2 Hatt) in Hdates.
  rewrite Hvalues in Hdates. injection Hdates as <-.
  apply list_elem_of_lookup in Hv as [i Hi].
  assert (i ∈ filtered_indices t) as Hscope.
  { apply Hin. split; [by exists v|]. rewrite Hfa, Hf. done. }
  destruct (filtered_indices t); [by apply elem_of_nil in Hscope | simpl; lia].
Qed.

(** X16.  A program filter with a blank before or after it selects no
    row: the program of a row is stripped before it is compared, the
    filter is not. *)
Theorem padded_program_filter_selects_nothing reg_df reg_col_map zoom_df
    zoom_col_map selected_date attendance_day p min_duration t :
  reconcile reg_df reg_col_map zoom_df zoom_col_map selected_date attendance_day
            (Some p) min_duration = Ok t →
  filter_applies (Some p) reg_col_map = true →
  Str.strip p ≠ p →
  filtered_indices t = [].
Proof.
  intros Hrun Hf Hp.
  apply reconcile_inv in Hrun as (df2 & cm2 & df3 & zdf3 & dcol & H2 & _ & H4 & _).
  destruct (filter_applies_attendance_column _ _ _ _ _ _ (Some p) H2) as [Hfa _].
  apply scope_rows_spec in H4 as (dc & dates & _ & _ & _ & _ & Hin).
  destruct (filtered_indices t) as [|i indices]; [done|].
  destruct (proj1 (Hin i) ltac:(by left)) as [_ Hprog].
  rewrite Hfa in Hprog. destruct (Hprog Hf) as (vc & v & _ & _ & Hstrip).
  simpl in Hstrip. destruct Hp. by rewrite <- Hstrip, strip_idem.
Qed.

End UniqueLists.

Lemma unique_programs_witness :
  NoDup (columns Fixture.roster) ∧
  @get_unique_programs Fixture.writable Fixture.roster
    (<["Version" := "Training Date"]> Fixture.roster_map)
  = Ok ["15-01-2025"; "15-01-25"; "15/01/2025"; "16-01-2025"; "17-01-2025";
        "2025-01-15"].
Proof.
  destruct fixture_labels_differ as [Hnd _]. split; [exact Hnd|].
  destruct (@unique_programs_sorted Fixture.writable Fixture.roster
              (<["Version" := "Training Date"]> Fixture.roster_map) Hnd)
    as (_ & _ & Hlist).
  destruct (Hlist "Training Date" _ eq_refl eq_refl) as (l & Hl & _).
  rewrite Hl. vm_compute in Hl. injection Hl as <-. reflexivity.
Defined.

Lemma unique_dates_witness :
  NoDup (columns Fixture.roster) ∧
  ∃ l, @get_unique_dates Fixture.writable Fixture.roster Fixture.roster_map = Ok l ∧
       Sorted date_lt l.
Proof.
  destruct fixture_labels_differ as [Hnd _]. split; [exact Hnd|].
  destruct (@unique_dates_ascending Fixture.writable Fixture.roster
              Fixture.roster_map Hnd) as [_ Hlist].
  destruct (Hlist "Training Date" _ eq_refl eq_refl) as (l & Hl & Hsorted & _).
  - intros v Hv _.
    repeat (apply elem_of_cons in Hv as [->|Hv]; [vm_compute; eauto|]).
    by apply elem_of_nil in Hv.
  - by exists l.
Defined.

Lemma listed_date_witness :
  @get_unique_dates Fixture.writable Fixture.roster Fixture.roster_map
  = Ok [Date 2025 1 15; Date 2025 1 16; Date 2025 1 17] ∧
  0 < length (filtered_indices Fixture.the_run).
Proof.
  assert (@get_unique_dates Fixture.writable Fixture.roster Fixture.roster_map
          = Ok [Date 2025 1 15; Date 2025 1 16; Date 2025 1 17]) as Hl
    by (vm_compute; reflexivity).
  split; [exact Hl|].
  apply (@listed_date_has_rows Fixture.writable Fixture.roster Fixture.roster_map
           Fixture.zoom Fixture.zoom_map 1 None (Float.of_Z_exact 60)
           _ (Date 2025 1 15) Fixture.the_run "Training Date" Hl).
  - repeat constructor.
  - reflexivity.
  - exact fixture_reconciled.
  - vm_compute. reflexivity.
  - rewrite fixture_attendance_column. discriminate.
  - discriminate.
Defined.

Lemma padded_filter_witness :
  ∃ t, @reconcile Fixture.writable Fixture.roster
         (<["Version" := "Training Date"]> Fixture.roster_map)
         Fixture.zoom Fixture.zoom_map (Date 2025 1 15) 1
         (Some "15-01-2025 ") (Float.of_Z_exact 60) = Ok t ∧
       filtered_indices t = [].
Proof.
  assert (returns (@reconcile Fixture.writable Fixture.roster
            (<["Version" := "Training Date"]> Fixture.roster_map)
            Fixture.zoom Fixture.zoom_map (Date 2025 1 15) 1
            (Some "15-01-2025 ") (Float.of_Z_exact 60))) as [t Ht]
    by (vm_compute; by eexists).
  exists t. split; [exact Ht|].
  apply (@padded_program_filter_selects_nothing Fixture.writable _ _ _ _ _ _ _ _ _ Ht).
  - vm_compute. reflexivity.
  - vm_compute. discriminate.
Defined.

(** * The counts of a run *)

Lemma float_ge_trans x y z :
  Float.ge x y = true → Float.ge y z = true → Float.ge x z = true.
Proof.
  destruct x as [a|[]|], y as [b|[]|], z as [c|[]|]; simpl; try done.
  intros Hab%Qle_bool_iff Hbc%Qle_bool_iff. apply Qle_bool_iff.
  by eapply Qle_trans.
Qed.

Lemma length_filter_mono {A} (P Q : A → Prop)
    `{∀ x, Decision (P x)} `{∀ x, Decision (Q x)} (l : list A) :
  (∀ x, x ∈ l → P x → Q x) → length (filter P l) ≤ length (filter Q l).
Proof.
  induction l as [|x l IH]; intros HPQ; [done|].
  rewrite !filter_cons.
  assert (length (filter P l) ≤ length (filter Q l)) as Hl.
  { apply IH. intros y Hy. apply HPQ. by right. }
  destruct (decide (P x)) as [HP|HP].
  - rewrite decide_True by (apply HPQ; [by left | done]). simpl. lia.
  - destruct (decide (Q x)); simpl; lia.
Qed.

Lemma length_filter_ext {A} (P Q : A → Prop)
    `{∀ x, Decision (P x)} `{∀ x, Decision (Q x)} (l : list A) :
  (∀ x, x ∈ l → P x ↔ Q x) → length (filter P l) = length (filter Q l).
Proof.
  intros HPQ. apply Nat.le_antisymm; apply length_filter_mono;
    intros x Hx; by apply HPQ.
Qed.

Section Thresholds.
Context `{Platform}.

(** X17.  Raising the threshold never marks more rows present.  Of two
    runs that differ only in the threshold, the one with the higher
    threshold has the same rows in scope, the same aggregate and the same
    count of rows not found, no more rows present, and as many rows found
    (present or below the threshold) as the other. *)
Theorem higher_threshold_marks_fewer reg_df reg_col_map zoom_df zoom_col_map
    selected_date attendance_day program_filter low high t_low t_high :
  reconcile reg_df reg_col_map zoom_df zoom_col_map selected_date attendance_day
            program_filter low = Ok t_low →
  reconcile reg_df reg_col_map zoom_df zoom_col_map selected_date attendance_day
            program_filter high = Ok t_high →
  Float.ge high low = true →
  filtered_indices t_high = filtered_indices t_low ∧
  zoom_dict t_high = zoom_dict t_low ∧
  present (tally t_high) ≤ present (tally t_low) ∧
  not_found (tally t_high) = not_found (tally t_low) ∧
  present (tally t_high) + below_threshold (tally t_high)
  = present (tally t_low) + below_threshold (tally t_low).
Proof.
  intros Hlow Hhigh Hge.
  apply reconcile_inv in Hlow
    as (df2 & cm2 & df3 & zdf3 & dcol & H2 & H3 & H4 & H5 & H6 & _).
  apply reconcile_inv in Hhigh
    as (df2' & cm2' & df3' & zdf3' & dcol' & H2' & H3' & H4' & H5' & H6' & _).
  rewrite H2 in H2'. injection H2' as <- <- Hatt.
  rewrite H3 in H3'. injection H3' as <- <- <-.
  rewrite H4 in H4'. injection H4' as Hdf Hidx.
  rewrite H5 in H5'. injection H5' as _ _ Hzd.
  rewrite <- Hdf, <- Hidx, <- Hzd, <- Hatt in H6'.
  destruct (scope_rows_spec _ _ _ _ _ _ H4) as (? & ? & _ & _ & _ & Hnd & _).
  destruct (mark_rows_spec _ _ _ _ _ _ _ _ Hnd H6) as (_ & _ & _ & _ & Hp & Hb & Hf).
  destruct (mark_rows_spec _ _ _ _ _ _ _ _ Hnd H6') as (_ & _ & _ & _ & Hp' & Hb' & Hf').
  simpl in Hp, Hb, Hf, Hp', Hb', Hf'.
  pose proof (tally_of_total (zoom_dict t_low) low (scoped_df t_low)
                (filtered_indices t_low)) as Ht.
  pose proof (tally_of_total (zoom_dict t_low) high (scoped_df t_low)
                (filtered_indices t_low)) as Ht'.
  assert (tally_of (zoom_dict t_low) high (scoped_df t_low) Present
            (filtered_indices t_low)
          ≤ tally_of (zoom_dict t_low) low (scoped_df t_low) Present
              (filtered_indices t_low)) as Hmono.
  { unfold tally_of. apply length_filter_mono. intros idx _. unfold verdict_of.
    case_decide; [done|].
    destruct (zoom_dict t_low !! identity (scoped_df t_low) idx) as [total|]; [|done].
    destruct (Float.ge total high) eqn:Hhi; [|done]. intros _.
    by rewrite (float_ge_trans _ _ _ Hhi Hge). }
  assert (tally_of (zoom_dict t_low) high (scoped_df t_low) NotFound
            (filtered_indices t_low)
          = tally_of (zoom_dict t_low) low (scoped_df t_low) NotFound
              (filtered_indices t_low)) as Hsame.
  { unfold tally_of. apply length_filter_ext. intros idx _. unfold verdict_of.
    case_decide; [done|].
    destruct (zoom_dict t_low !! identity (scoped_df t_low) idx) as [total|]; [|done].
    by destruct (Float.ge total high), (Float.ge total low). }
  split; [done|]. split; [done|]. lia.
Qed.

End Thresholds.

Lemma length_filter_zero {A} (P : A → Prop) `{∀ x, Decision (P x)} (l : list A) :
  length (filter P l) = 0 ↔ ∀ x, x ∈ l → ¬ P x.
Proof.
  induction l as [|x l IH]; simpl.
  - split; [by intros _ x ?%elem_of_nil | done].
  - rewrite filter_cons. destruct (decide (P x)) as [HP|HP]; simpl.
    + split; [done|]. intros Hall. destruct (Hall x); [by left | done].
    + rewrite IH. split.
      * intros Hall y [->|Hy]%elem_of_cons; auto.
      * intros Hall y Hy. apply Hall. by right.
Qed.

Lemma keys_length (m : gmap string pyfloat) : length (map_to_list m).*1 = size m.
Proof. by rewrite length_fmap, length_map_to_list. Qed.

Lemma key_elem (m : gmap string pyfloat) e : e ∈ (map_to_list m).*1 ↔ is_Some (m !! e).
Proof.
  rewrite list_elem_of_fmap. split.
  - intros ([k v] & -> & Hin%elem_of_map_to_list). by exists v.
  - intros [v Hv]. exists (e, v). split; [done|]. by apply elem_of_map_to_list.
Qed.

Section Participants.
Context `{Platform}.

Lemma unmatched_within_aggregate t reg_df reg_col_map zoom_df zoom_col_map
    selected_date attendance_day program_filter min_duration :
  reconcile reg_df reg_col_map zoom_df zoom_col_map selected_date attendance_day
            program_filter min_duration = Ok t →
  length (unmatched_emails t) ≤ size (zoom_dict t).
Proof.
  intros (df2 & cm2 & df3 & zdf3 & dcol & _ & _ & _ & _ & _ & H6b & _)%reconcile_inv.
  apply unmatched_spec in H6b as (_ & Hnd & Hin).
  rewrite <- keys_length. apply submseteq_length, NoDup_submseteq; [done|].
  intros e He. apply key_elem. by apply Hin.
Qed.

(** X18.  In every result that [process_attendance] returns, the
    participants reported as not registered are no more than the
    participants of the log. *)
Theorem unmatched_at_most_participants reg_filepath zoom_filepath selected_date
    attendance_day program_filter min_duration output_dir reg_override
    zoom_override r :
  process_attendance reg_filepath zoom_filepath selected_date attendance_day
    program_filter min_duration output_dir reg_override zoom_override = Ok r →
  length (unmatched_zoom_emails r) ≤ total_zoom_participants r.
Proof.
  unfold process_attendance.
  destruct (load_registration_csv _ _) as [[reg_df reg_col_map]|err];
    [|by intros [= <-]].
  destruct (load_zoom_csv _ _) as [[zoom_df zoom_col_map]|err];
    [|by intros [= <-]].
  intros (t & Ht & [= <-])%bind_Ok.
  apply unmatched_within_aggregate in Ht. unfold save_output.
  by destruct (to_csv _ _).
Qed.

(** X19.  Every participant of the log is reported as not registered
    exactly when no row in scope was found in the log, the attendance
    column not being the working column of the identities. *)
Theorem all_unmatched_iff_none_found reg_df reg_col_map zoom_df zoom_col_map
    selected_date attendance_day program_filter min_duration t :
  reconcile reg_df reg_col_map zoom_df zoom_col_map selected_date attendance_day
            program_filter min_duration = Ok t →
  att_col_name t ≠ "_normalized_email" →
  (length (unmatched_emails t) = size (zoom_dict t) ↔
   present (tally t) + below_threshold (tally t) = 0).
Proof.
  intros Hrun Hatt.
  pose proof Hrun
    as (df2 & cm2 & df3 & zdf3 & dcol & _ & _ & H4 & _ & H6 & H6b & _)%reconcile_inv.
  destruct (scope_rows_spec _ _ _ _ _ _ H4) as (? & ? & _ & _ & _ & Hnd & _).
  destruct (mark_rows_spec _ _ _ _ _ _ _ _ Hnd H6) as (_ & Hcols & _ & _ & Hp & Hb & _).
  simpl in Hp, Hb.
  apply unmatched_spec in H6b as (_ & Hndl & Hin).
  assert (∀ idx, identity (marked_df t) idx = identity (scoped_df t) idx) as Hid.
  { intros idx. unfold identity, at_, getitem. by rewrite Hcols by done. }
  set (found := fun idx =>
         verdict_of (zoom_dict t) min_duration (identity (scoped_df t) idx) ≠ NotFound).
  assert (present (tally t) + below_threshold (tally t) = 0 ↔
          ∀ idx, idx ∈ filtered_indices t → ¬ found idx) as ->.
  { rewrite Hp, Hb. unfold tally_of.
    rewrite Nat.eq_add_0, !length_filter_zero. unfold found. split.
    - intros [H1 H2] idx Hidx Hf. specialize (H1 idx Hidx). specialize (H2 idx Hidx).
      by destruct (verdict_of _ _ _).
    - intros Hall. split; intros idx Hidx Hv; apply (Hall idx Hidx); by rewrite Hv. }
  assert (∀ idx, found idx ↔
            identity (scoped_df t) idx ≠ "" ∧
            is_Some (zoom_dict t !! identity (scoped_df t) idx)) as Hfound.
  { intros idx. unfold found, verdict_of. case_decide as Hempty.
    - split; [done | by intros [? _]].
    - destruct (zoom_dict t !! identity (scoped_df t) idx) as [total|].
      + split; [done|]. intros _. by destruct (Float.ge total min_duration).
      + split; [done | by intros [_ [? ?]]]. }
  split.
  - intros Hlen idx Hidx [Hne Hsome]%Hfound.
    assert (unmatched_emails t ≡ₚ (map_to_list (zoom_dict t)).*1) as Hperm.
    { apply submseteq_length_Permutation.
      - apply NoDup_submseteq; [done|]. intros e He. apply key_elem. by apply Hin.
      - by rewrite keys_length, Hlen. }
    assert (identity (scoped_df t) idx ∈ unmatched_emails t) as He
      by (rewrite Hperm; by apply key_elem).
    apply Hin in He as [_ Hno]. apply Hno. exists idx. by rewrite Hid.
  - intros Hnone. rewrite <- keys_length. apply Permutation_length.
    apply NoDup_Permutation; [done|apply NoDup_fst_map_to_list|].
    intros e. rewrite key_elem. split; [by intros [? _]%Hin|].
    intros Hsome. apply Hin. split; [done|].
    intros (idx & Hidx & Hne & He). apply (Hnone idx Hidx). apply Hfound.
    rewrite Hid in He. by rewrite He.
Qed.

(** X20.  A result of [process_attendance] holds at most one error and
    at most one warning; with an error it has no output path, so
    [success] is false exactly when nothing was written; without an error
    the path is the one that the date, the day and the filter determine. *)
Theorem failed_result_has_no_output reg_filepath zoom_filepath selected_date
    attendance_day program_filter min_duration output_dir reg_override
    zoom_override r :
  process_attendance reg_filepath zoom_filepath selected_date attendance_day
    program_filter min_duration output_dir reg_override zoom_override = Ok r →
  length (errors r) ≤ 1 ∧ length (warnings r) ≤ 1 ∧
  (success r = false → output_filepath r = "") ∧
  (success r = true →
   output_filepath r
   = output_path reg_filepath selected_date attendance_day program_filter
                 output_dir).
Proof.
  unfold process_attendance.
  destruct (load_registration_csv _ _) as [[reg_df reg_col_map]|err];
    [|intros [= <-]; unfold success; simpl; repeat split; (done || lia)].
  destruct (load_zoom_csv _ _) as [[zoom_df zoom_col_map]|err];
    [|intros [= <-]; unfold success; simpl; repeat split; (done || lia)].
  intros (t & Ht & [= <-])%bind_Ok.
  unfold save_output, scope_warnings, success.
  destruct (to_csv _ _); destruct (length (filtered_indices t) =? 0); simpl;
    repeat split; (done || lia).
Qed.

End Participants.

Lemma higher_threshold_witness :
  ∃ t_high,
    @reconcile Fixture.writable Fixture.roster Fixture.roster_map Fixture.zoom
      Fixture.zoom_map (Date 2025 1 15) 1 None (Float.of_Z_exact 90) = Ok t_high ∧
    present (tally t_high) ≤ present (tally Fixture.the_run).
Proof.
  assert (returns (@reconcile Fixture.writable Fixture.roster Fixture.roster_map
            Fixture.zoom Fixture.zoom_map (Date 2025 1 15) 1 None
            (Float.of_Z_exact 90))) as [t Ht] by (vm_compute; by eexists).
  exists t. split; [exact Ht|].
  assert (Float.ge (Float.of_Z_exact 90) (Float.of_Z_exact 60) = true) as Hge
    by reflexivity.
  exact (proj1 (proj2 (proj2
    (@higher_threshold_marks_fewer Fixture.writable _ _ _ _ _ _ _ _ _ _ _
       fixture_reconciled Ht Hge)))).
Defined.

Lemma unmatched_at_most_witness : length ["unknown@random.com"] ≤ 8.
Proof.
  exact (@unmatched_at_most_participants Fixture.writable _ _ _ _ _ _ _ _ _ _
           fixture_run).
Defined.

Lemma all_unmatched_witness :
  length (unmatched_emails Fixture.the_run) = size (zoom_dict Fixture.the_run) ↔
  present (tally Fixture.the_run) + below_threshold (tally Fixture.the_run) = 0.
Proof.
  apply (@all_unmatched_iff_none_found Fixture.writable _ _ _ _ _ _ _ _ _
           fixture_reconciled).
  rewrite fixture_attendance_column. discriminate.
Defined.

Lemma failed_result_witness :
  output_filepath
    (mkResult 7 8 6 1 0 ["unknown@random.com"]
       "./attendance_output_2025-01-15_Day1.csv" [] [])
  = @output_path Fixture.writable "registration.csv" (Date 2025 1 15) 1 None None.
Proof.
  apply (@failed_result_has_no_output Fixture.writable _ _ _ _ _ _ _ _ _ _
           fixture_run).
  reflexivity.
Defined.

(** * The mapping dialog and the loaders *)

Lemma on_confirm_fold field_specs combo (m : gmap string string) k :
  foldl (fun col_map spec =>
           let val := combo (spec_key spec) in
           if negb (String.eqb val NOT_MAPPED)
           then <[spec_key spec := val]> col_map else col_map) m field_specs !! k
  = if decide (k ∈ spec_key <$> field_specs ∧ combo k ≠ NOT_MAPPED)
    then Some (combo k) else m !! k.
Proof.
  revert m. induction field_specs as [|spec specs IH]; intros m.
  - cbn [foldl]. destruct (decide _) as [[Hin _]|_]; [|done].
    by apply elem_of_nil in Hin.
  - cbn [foldl]. rewrite IH. cbv zeta. rewrite fmap_cons.
    destruct (decide (k ∈ spec_key <$> specs ∧ combo k ≠ NOT_MAPPED))
      as [[Hin Hk]|Hno];
      destruct (decide (k ∈ spec_key spec :: (spec_key <$> specs)
                        ∧ combo k ≠ NOT_MAPPED)) as [[Hin' Hk']|Hno'].
    + done.
    + destruct Hno'. split; [by right | done].
    + assert (k = spec_key spec) as ->.
      { apply elem_of_cons in Hin' as [->|Hin']; [done|]. by destruct Hno. }
      apply String.eqb_neq in Hk'. rewrite Hk'. cbn [negb].
      by rewrite lookup_insert_eq.
    + destruct (String.eqb_spec (combo (spec_key spec)) NOT_MAPPED) as [Hnm|Hnm];
        cbn [negb]; [done|].
      rewrite lookup_insert_ne; [done|]. intros <-. apply Hno'.
      split; [by left | done].
Qed.

Lemma on_confirm_lookup field_specs combo k :
  on_confirm field_specs combo !! k
  = if decide (k ∈ spec_key <$> field_specs ∧ combo k ≠ NOT_MAPPED)
    then Some (combo k) else None.
Proof. unfold on_confirm. by rewrite on_confirm_fold, lookup_empty. Qed.

Lemma confirm_enabled_registration combo :
  confirm_enabled REGISTRATION_FIELDS combo = true ↔
  combo "Email" ≠ NOT_MAPPED ∧ combo "Training date" ≠ NOT_MAPPED.
Proof.
  unfold confirm_enabled, missing_required, REGISTRATION_FIELDS.
  rewrite bool_decide_eq_true. rewrite !filter_cons, filter_nil. cbn [spec_key spec_required].
  destruct (decide (combo "Email" = NOT_MAPPED)) as [He|He],
           (decide (combo "Training date" = NOT_MAPPED)) as [Hd|Hd];
    repeat (case_decide; try tauto; try done);
    split; try done; try tauto; intros [? ?]; done.
Qed.

Lemma confirm_enabled_zoom combo :
  confirm_enabled ZOOM_FIELDS combo = true ↔
  combo "Email" ≠ NOT_MAPPED ∧ combo "Duration" ≠ NOT_MAPPED.
Proof.
  unfold confirm_enabled, missing_required, ZOOM_FIELDS.
  rewrite bool_decide_eq_true. rewrite !filter_cons, filter_nil. cbn [spec_key spec_required].
  destruct (decide (combo "Email" = NOT_MAPPED)) as [He|He],
           (decide (combo "Duration" = NOT_MAPPED)) as [Hd|Hd];
    repeat (case_decide; try tauto; try done);
    split; try done; try tauto; intros [? ?]; done.
Qed.

Lemma missing_two_keys (m : gmap string string) k1 k2 :
  missing_keys [k1; k2] m = [] ↔ is_Some (m !! k1) ∧ is_Some (m !! k2).
Proof.
  unfold missing_keys. rewrite !filter_cons, filter_nil.
  destruct (m !! k1) as [c1|], (m !! k2) as [c2|];
    repeat case_decide; try done; split; try done;
    intros [[? ?] [? ?]]; done.
Qed.

Section Dialog.
Context `{Platform}.

(** X21.  The confirm button of the mapping dialog is enabled exactly for
    the selections whose mapping the loader accepts: with the button
    enabled, the loader returns the table with the confirmed mapping;
    with the button disabled, the same mapping would be refused for a
    missing required column. *)
Theorem confirm_button_agrees_with_loader filepath df combo :
  read_csv_safe filepath = inl df →
  (confirm_enabled REGISTRATION_FIELDS combo = true ↔
   load_registration_csv filepath (Some (on_confirm REGISTRATION_FIELDS combo))
   = inl (df, on_confirm REGISTRATION_FIELDS combo)) ∧
  (confirm_enabled ZOOM_FIELDS combo = true ↔
   load_zoom_csv filepath (Some (on_confirm ZOOM_FIELDS combo))
   = inl (df, on_confirm ZOOM_FIELDS combo)).
Proof.
  intros Hread.
  assert (∀ specs k, k ∈ spec_key <$> specs →
            (is_Some (on_confirm specs combo !! k) ↔ combo k ≠ NOT_MAPPED)) as Hkey.
  { intros specs k Hk. rewrite on_confirm_lookup.
    destruct (decide _) as [[_ Hc]|Hno].
    - split; [done | by eexists].
    - split; [by intros [? ?] | intros Hc; destruct Hno; by split]. }
  split.
  - rewrite confirm_enabled_registration.
    rewrite <- (Hkey REGISTRATION_FIELDS "Email") by (vm_compute; repeat constructor).
    rewrite <- (Hkey REGISTRATION_FIELDS "Training date")
      by (vm_compute; repeat constructor).
    rewrite <- missing_two_keys. unfold load_registration_csv. rewrite Hread.
    cbv zeta.
    destruct (missing_keys ["Email"; "Training date"]
                (on_confirm REGISTRATION_FIELDS combo)); split; done.
  - rewrite confirm_enabled_zoom.
    rewrite <- (Hkey ZOOM_FIELDS "Email") by (vm_compute; repeat constructor).
    rewrite <- (Hkey ZOOM_FIELDS "Duration") by (vm_compute; repeat constructor).
    rewrite <- missing_two_keys. unfold load_zoom_csv. rewrite Hread. cbv zeta.
    destruct (missing_keys ["Email"; "Duration"] (on_confirm ZOOM_FIELDS combo));
      split; done.
Qed.

End Dialog.

Lemma registration_step_skips m c :
  c ∈ [""; NOT_MAPPED] → registration_step m c = m.
Proof.
  intros Hc. repeat (apply elem_of_cons in Hc as [->|Hc]);
    [..|by apply elem_of_nil in Hc]; reflexivity.
Qed.

Lemma zoom_step_skips m c : c ∈ [""; NOT_MAPPED] → zoom_step m c = m.
Proof.
  intros Hc. repeat (apply elem_of_cons in Hc as [->|Hc]);
    [..|by apply elem_of_nil in Hc]; reflexivity.
Qed.

Lemma foldl_selectable (step : gmap string string → string → gmap string string)
    (keys : list string) l (m : gmap string string) :
  (∀ m col, step m col = m ∨
     ∃ k, k ∈ keys ∧ m !! k = None ∧ step m col = <[k := col]> m) →
  (∀ m c, c ∈ [""; NOT_MAPPED] → step m c = m) →
  (∀ k c, m !! k = Some c → c ∉ [""; NOT_MAPPED]) →
  ∀ k c, foldl step m l !! k = Some c → c ∉ [""; NOT_MAPPED].
Proof.
  intros Hcases Hskip. revert m. induction l as [|col l IH]; intros m Hm k c Hk.
  - by eapply Hm.
  - simpl in Hk. apply (IH (step m col)) in Hk; [done|].
    intros k' c' Hk'. destruct (decide (col ∈ [""; NOT_MAPPED])) as [Hin|Hin].
    + rewrite Hskip in Hk' by done. by eapply Hm.
    + destruct (Hcases m col) as [E|(k0 & _ & _ & E)]; rewrite E in Hk'.
      * by eapply Hm.
      * destruct (decide (k0 = k')) as [->|Hne].
        -- rewrite lookup_insert_eq in Hk'. by injection Hk' as <-.
        -- rewrite lookup_insert_ne in Hk' by done. by eapply Hm.
Qed.

Lemma prefill_detected csv_columns (detected : gmap string string) keys specs k :
  spec_key <$> specs = keys →
  (∀ k c, detected !! k = Some c →
          k ∈ keys ∧ c ∈ csv_columns ∧ c ∉ [""; NOT_MAPPED]) →
  on_confirm specs (prefill csv_columns detected) !! k = detected !! k.
Proof.
  intros Hkeys Hdet. rewrite on_confirm_lookup, Hkeys. unfold prefill.
  destruct (detected !! k) as [c|] eqn:Hk.
  - destruct (Hdet k c Hk) as (Hin & Hcol & Hsel).
    assert (c ≠ "" ∧ c ≠ NOT_MAPPED) as [Hne Hnm].
    { split; intros ->; apply Hsel; repeat constructor. }
    apply String.eqb_neq in Hne. rewrite Hne. cbn [negb andb].
    rewrite bool_decide_eq_true_2 by done. by rewrite decide_True.
  - rewrite decide_False; [done|]. by intros [_ ?].
Qed.

(** X22.  Confirming the dialog as it opens, or after a reset to the
    detected values, returns the very mapping that the resolver detected,
    for the roster and for the log. *)
Theorem prefilled_dialog_confirms_detection df :
  on_confirm REGISTRATION_FIELDS
    (prefill (columns df) (detect_registration_columns df))
  = detect_registration_columns df ∧
  on_confirm ZOOM_FIELDS (prefill (columns df) (detect_zoom_columns df))
  = detect_zoom_columns df.
Proof.
  split; apply map_eq; intros k.
  - apply (prefill_detected _ _ registration_keys); [reflexivity|].
    intros k' c Hk'. rewrite detect_registration_foldl in Hk'.
    destruct (foldl_entries _ _ registration_step_cases (columns df) [] ∅
                ltac:(done) k' c Hk') as [? ?].
    split; [done|]. split; [done|].
    eapply (foldl_selectable _ _ _ _ registration_step_cases
              registration_step_skips); [|exact Hk'].
    intros k0 c0 Hc0. by rewrite lookup_empty in Hc0.
  - apply (prefill_detected _ _ zoom_keys_std); [reflexivity|].
    intros k' c Hk'. rewrite detect_zoom_foldl in Hk'.
    destruct (foldl_entries _ _ zoom_step_cases (columns df) [] ∅
                ltac:(done) k' c Hk') as [? ?].
    split; [done|]. split; [done|].
    eapply (foldl_selectable _ _ _ _ zoom_step_cases zoom_step_skips);
      [|exact Hk'].
    intros k0 c0 Hc0. by rewrite lookup_empty in Hc0.
Qed.

Lemma confirm_button_witness :
  let combo := prefill (columns Fixture.roster)
                 (detect_registration_columns Fixture.roster) in
  @load_registration_csv Fixture.writable "registration.csv"
    (Some (on_confirm REGISTRATION_FIELDS combo))
  = inl (Fixture.roster, on_confirm REGISTRATION_FIELDS combo).
Proof.
  intros combo.
  apply (proj1 (proj1 (@confirm_button_agrees_with_loader Fixture.writable
                         "registration.csv" Fixture.roster combo eq_refl))).
  vm_compute. reflexivity.
Defined.

(** * Zero-padded numbers *)

Lemma nzhead_no_zero d : match Decimal.nzhead d with Decimal.D0 _ => False | _ => True end.
Proof. induction d; simpl; auto. Qed.

Lemma to_uint_normal n : Nat.to_uint n = Decimal.unorm (Nat.to_uint n).
Proof.
  rewrite <- (DecimalNat.Unsigned.of_to n) at 1.
  apply DecimalNat.Unsigned.to_of.
Qed.

(** A decimal text of a number has no leading zero, unless it is ["0"]. *)
Lemma of_nat_head n c a :
  Str.of_nat n = String c a → c = "0"%char → a = "".
Proof.
  unfold Str.of_nat. rewrite to_uint_normal. unfold Decimal.unorm.
  pose proof (nzhead_no_zero (Nat.to_uint n)) as Hnz.
  destruct (Decimal.nzhead (Nat.to_uint n)); simpl; try done;
    intros [= <- <-]; done.
Qed.

Lemma int_of_digits_acc_lower s acc :
  (0 <= acc)%Z →
  (acc * 10 ^ Z.of_nat (String.length s) <= Str.int_of_digits_acc s acc)%Z.
Proof.
  revert acc. induction s as [|c s IH]; intros acc Hacc.
  - simpl. lia.
  - cbn [Str.int_of_digits_acc String.length].
    assert (0 <= Str.digit_val c)%Z by (unfold Str.digit_val; lia).
    etrans; [|apply IH; lia].
    rewrite Nat2Z.inj_succ, Z.pow_succ_r by lia.
    pose proof (Z.pow_pos_nonneg 10 (Z.of_nat (String.length s))). nia.
Qed.

Lemma digit_val_nonzero c :
  Str.is_digit c = true → c ≠ "0"%char → (1 <= Str.digit_val c)%Z.
Proof. intros Hc Hz. by each_digit c Hc. Qed.

Lemma of_nat_length n w :
  1 ≤ w → (Z.of_nat n < 10 ^ Z.of_nat w)%Z → String.length (Str.of_nat n) ≤ w.
Proof.
  intros Hw Hn. destruct (of_nat_nonempty n) as (c & a & Hca).
  pose proof (of_nat_digits n) as Hd. pose proof (int_of_digits_of_nat n) as Hv.
  pose proof (of_nat_head n c a Hca) as Hhead.
  rewrite Hca in Hd, Hv |- *. cbn [Str.all] in Hd.
  apply andb_true_iff in Hd as [Hc Ha].
  destruct (decide (c = "0"%char)) as [Hz|Hz].
  - rewrite (Hhead Hz). simpl. lia.
  - pose proof (digit_val_nonzero c Hc Hz) as H1.
    pose proof (int_of_digits_acc_lower a (Str.digit_val c) ltac:(lia)) as Hlow.
    unfold Str.int_of_digits in Hv. cbn [Str.int_of_digits_acc] in Hv.
    rewrite Z.mul_0_r, Z.add_0_l in Hv.
    assert (10 ^ Z.of_nat (String.length a) < 10 ^ Z.of_nat w)%Z as Hpow.
    { pose proof (Z.pow_pos_nonneg 10 (Z.of_nat (String.length a))). nia. }
    apply Z.pow_lt_mono_r_iff in Hpow; [|lia..]. simpl. lia.
Qed.

Lemma zeros_cons k t :
  String.concat "" (replicate (S k) "0") +:+ t
  = String "0" (String.concat "" (replicate k "0") +:+ t).
Proof. by destruct k. Qed.

Lemma int_of_digits_acc_zeros k t acc :
  Str.int_of_digits_acc (String.concat "" (replicate k "0") +:+ t) acc
  = Str.int_of_digits_acc t (acc * 10 ^ Z.of_nat k).
Proof.
  revert acc. induction k as [|k IH]; intros acc.
  - simpl. by rewrite Z.mul_1_r.
  - rewrite zeros_cons. cbn [Str.int_of_digits_acc]. rewrite IH. f_equal.
    rewrite Nat2Z.inj_succ, Z.pow_succ_r by lia.
    change (Str.digit_val "0") with 0%Z. lia.
Qed.

Lemma all_zeros k t :
  Str.all Str.is_digit t = true →
  Str.all Str.is_digit (String.concat "" (replicate k "0") +:+ t) = true.
Proof.
  intros Ht. induction k as [|k IH]; [done|]. rewrite zeros_cons. exact IH.
Qed.

Lemma length_zeros k t :
  String.length (String.concat "" (replicate k "0") +:+ t) = k + String.length t.
Proof.
  induction k as [|k IH]; [done|]. rewrite zeros_cons. simpl. by rewrite IH.
Qed.

(** The zero-padded text of a number that fits its width: as many digits
    as the width, whose value is the number. *)
Lemma pad0_spec w n :
  1 ≤ w → (0 <= n < 10 ^ Z.of_nat w)%Z →
  String.length (Str.pad0 w n) = w ∧
  Str.all Str.is_digit (Str.pad0 w n) = true ∧
  Str.int_of_digits (Str.pad0 w n) = n.
Proof.
  intros Hw [Hn0 Hn]. unfold Str.pad0.
  assert (Str.of_Z n = Str.of_nat (Z.to_nat n)) as -> by (by destruct n).
  pose proof (of_nat_length (Z.to_nat n) w Hw ltac:(lia)) as Hlen.
  split; [|split].
  - rewrite length_zeros. lia.
  - apply all_zeros, of_nat_digits.
  - pose proof (int_of_digits_of_nat (Z.to_nat n)) as Hv.
    unfold Str.int_of_digits in *. rewrite int_of_digits_acc_zeros.
    rewrite Z.mul_0_l, Hv. lia.
Qed.

(** * Dates in the common spellings *)

(** ** The fields of a date text *)

Lemma lstrip_digits s : Str.all Str.is_digit s = true → Str.lstrip s = s.
Proof.
  destruct s as [|c s]; [done|]. cbn [Str.all]. intros [Hc _]%andb_true_iff.
  by apply lstrip_id, digit_not_space.
Qed.

Lemma to_int_pad0 w n :
  1 ≤ w → (0 <= n < 10 ^ Z.of_nat w)%Z → Strptime.to_int (Str.pad0 w n) = n.
Proof.
  intros Hw Hn. destruct (pad0_spec w n Hw Hn) as (_ & Hd & Hv).
  unfold Strptime.to_int. by rewrite lstrip_digits.
Qed.

Lemma to_int_two n : (0 <= n < 100)%Z → Strptime.to_int (Str.pad0 2 n) = n.
Proof. intros Hn. apply to_int_pad0; [lia|]. by change (10 ^ Z.of_nat 2)%Z with 100%Z. Qed.

Lemma to_int_four n : (0 <= n < 10000)%Z → Strptime.to_int (Str.pad0 4 n) = n.
Proof. intros Hn. apply to_int_pad0; [lia|]. by change (10 ^ Z.of_nat 4)%Z with 10000%Z. Qed.

Lemma pad0_two n :
  (0 <= n < 100)%Z →
  String.length (Str.pad0 2 n) = 2 ∧ Str.all Str.is_digit (Str.pad0 2 n) = true.
Proof.
  intros Hn. by destruct (pad0_spec 2 n ltac:(lia) ltac:(by change (10 ^ Z.of_nat 2)%Z with 100%Z)) as (? & ? & _).
Qed.

Lemma pad0_four n :
  (0 <= n < 10000)%Z →
  ∃ a b c d, Str.pad0 4 n = String a (String b (String c (String d ""))) ∧
             Str.is_digit a = true ∧ Str.is_digit b = true ∧
             Str.is_digit c = true ∧ Str.is_digit d = true.
Proof.
  intros Hn. destruct (pad0_spec 4 n ltac:(lia)
    ltac:(by change (10 ^ Z.of_nat 4)%Z with 10000%Z)) as (Hl & Hd & _).
  destruct (Str.pad0 4 n) as [|a [|b [|c [|d [|e s]]]]]; try done.
  cbn [Str.all] in Hd. repeat (apply andb_true_iff in Hd as [? Hd]).
  by exists a, b, c, d.
Qed.

Lemma small_cases (n : Z) (b : nat) :
  (0 <= n <= Z.of_nat b)%Z → ∃ i : nat, n = Z.of_nat i ∧ i ≤ b.
Proof. intros Hn. exists (Z.to_nat n). lia. Qed.

Ltac each_upto n b :=
  let i := fresh "i" in let Hi := fresh "Hi" in
  destruct (small_cases n b ltac:(simpl; lia)) as (i & -> & Hi);
  repeat (destruct i as [|i]; [|apply le_S_n in Hi || (exfalso; lia)]);
  clear Hi.

Section DateFields.
Context {A : Type}.
Implicit Types (k : string → Re.captures → option A).

Lemma group_field n r a t caps k x :
  (∀ k' : string → Re.captures → option A,
     k' t caps = Some x → Re.run r (a +:+ t) caps k' = Some x) →
  k t (<[n := a]> caps) = Some x →
  Re.run (Re.Grp n r) (a +:+ t) caps k = Some x.
Proof. intros Hr Hk. cbn [Re.run]. apply Hr. by rewrite consumed_append. Qed.

(** [%d] takes a two-digit day, if what follows accepts the rest. *)
Lemma day_field d t caps k x :
  (1 <= d <= 31)%Z →
  k t (<[1 := Str.pad0 2 d]> caps) = Some x →
  Re.run (Strptime.item_re Strptime.Dd) (Str.pad0 2 d +:+ t) caps k = Some x.
Proof.
  intros Hd Hk. apply group_field; [|done]. clear Hk. intros k' Hk.
  each_upto d 31; try lia; vm_compute; by rewrite Hk.
Qed.

(** [%m] takes a two-digit month, if what follows accepts the rest. *)
Lemma month_field m t caps k x :
  (1 <= m <= 12)%Z →
  k t (<[2 := Str.pad0 2 m]> caps) = Some x →
  Re.run (Strptime.item_re Strptime.Dm) (Str.pad0 2 m +:+ t) caps k = Some x.
Proof.
  intros Hm Hk. apply group_field; [|done]. clear Hk. intros k' Hk.
  each_upto m 12; try lia; vm_compute; by rewrite Hk.
Qed.

(** [%Y] takes four digits. *)
Lemma year_field a b c d t caps k :
  Str.is_digit a = true → Str.is_digit b = true →
  Str.is_digit c = true → Str.is_digit d = true →
  Re.run (Strptime.item_re Strptime.DY)
         (String a (String b (String c (String d ""))) +:+ t) caps k
  = k t (<[3 := String a (String b (String c (String d "")))]> caps).
Proof.
  intros Ha Hb Hc Hd. cbn [Strptime.item_re Re.run Re.digit].
  rewrite !append_cons, append_empty_l. rewrite Ha, Hb, Hc, Hd.
  rewrite <- (consumed_append (String a (String b (String c (String d "")))) t).
  by rewrite !append_cons, append_empty_l.
Qed.

(** [%y] takes two digits. *)
Lemma short_year_field a b t caps k :
  Str.is_digit a = true → Str.is_digit b = true →
  Re.run (Strptime.item_re Strptime.Dy) (String a (String b "") +:+ t) caps k
  = k t (<[4 := String a (String b "")]> caps).
Proof.
  intros Ha Hb. cbn [Strptime.item_re Re.run Re.digit].
  rewrite !append_cons, append_empty_l. rewrite Ha, Hb.
  rewrite <- (consumed_append (String a (String b "")) t).
  by rewrite !append_cons, append_empty_l.
Qed.

(** A separator of a format takes itself. *)
Lemma separator_field (c : ascii) t caps k :
  Str.lower_char c = c →
  Re.run (Strptime.item_re (Strptime.Lit c)) (String c t) caps k = k t caps.
Proof.
  intros Hc. cbn [Strptime.item_re Re.run Re.ilit]. by rewrite !Hc, Ascii.eqb_refl.
Qed.

End DateFields.

(** ** [strptime] on the fields it captured *)

Lemma valid_date_bounds y m d :
  Strptime.valid_date y m d = true →
  (1 <= y <= 9999 ∧ 1 <= m <= 12 ∧ 1 <= d <= 31)%Z.
Proof.
  unfold Strptime.valid_date, Strptime.days_in_month. intros Hv.
  rewrite !andb_true_iff, !Z.leb_le in Hv. repeat case_match; lia.
Qed.

Lemma strptime_long_year s fmt caps y4 mm dd y m d :
  Re.match_ (Strptime.format_re fmt) s = Some (caps, "") →
  caps !! 3 = Some y4 → caps !! 2 = Some mm → caps !! 1 = Some dd →
  Strptime.to_int y4 = y → Strptime.to_int mm = m → Strptime.to_int dd = d →
  Strptime.valid_date y m d = true →
  Strptime.strptime s fmt = Some (Date y m d).
Proof.
  intros Hm H3 H2 H1 <- <- <- Hv. unfold Strptime.strptime. rewrite Hm. simpl.
  rewrite H3, H2, H1. simpl. rewrite Hv. done.
Qed.

Lemma strptime_short_year s fmt caps yy mm dd y m d :
  Re.match_ (Strptime.format_re fmt) s = Some (caps, "") →
  caps !! 3 = None → caps !! 4 = Some yy →
  caps !! 2 = Some mm → caps !! 1 = Some dd →
  Strptime.to_int yy = y → Strptime.to_int mm = m → Strptime.to_int dd = d →
  Strptime.valid_date (if (y <=? 68)%Z then 2000 + y else 1900 + y)%Z m d = true →
  Strptime.strptime s fmt
  = Some (Date (if (y <=? 68)%Z then 2000 + y else 1900 + y)%Z m d).
Proof.
  intros Hm H3 H4 H2 H1 <- <- <- Hv. unfold Strptime.strptime. rewrite Hm. simpl.
  rewrite H3, H4, H2, H1. simpl. rewrite Hv. done.
Qed.

Section DateFieldsFail.
Context {A : Type}.
Implicit Types (k : string → Re.captures → option A).

Lemma group_fail n r s caps k :
  (∀ k' : string → Re.captures → option A,
     (∀ s' caps', k s' (<[n := Str.consumed s s']> caps') = None → k' s' caps' = None) →
     Re.run r s caps k' = None) →
  Re.run (Re.Grp n r) s caps k = None.
Proof. intros Hr. cbn [Re.run]. by apply Hr. Qed.

(** [%d] takes one or two characters: it fails when what follows accepts
    the text after neither. *)
Lemma day_fail a b t caps k :
  (∀ caps', k (String b t) caps' = None) → (∀ caps', k t caps' = None) →
  Re.run (Strptime.item_re Strptime.Dd) (String a (String b t)) caps k = None.
Proof.
  intros H1 H2. apply group_fail. intros k' Hk'.
  cbn [Re.alts Re.run Re.lit Re.range Re.digit].
  rewrite !(Hk' _ _ (H1 _)), !(Hk' _ _ (H2 _)). repeat case_match; done.
Qed.

Lemma month_fail a b t caps k :
  (∀ caps', k (String b t) caps' = None) → (∀ caps', k t caps' = None) →
  Re.run (Strptime.item_re Strptime.Dm) (String a (String b t)) caps k = None.
Proof.
  intros H1 H2. apply group_fail. intros k' Hk'.
  cbn [Re.alts Re.run Re.lit Re.range Re.digit].
  rewrite !(Hk' _ _ (H1 _)), !(Hk' _ _ (H2 _)). repeat case_match; done.
Qed.

(** [%m] does not take a number above twelve as a whole. *)
Lemma month_rejects_day d t caps k :
  (13 <= d <= 31)%Z →
  (∀ c caps', Str.is_digit c = true → k (String c t) caps' = None) →
  Re.run (Strptime.item_re Strptime.Dm) (Str.pad0 2 d +:+ t) caps k = None.
Proof.
  intros Hd Hk. apply group_fail. intros k' Hk'.
  assert (∀ c caps', Str.is_digit c = true → k' (String c t) caps' = None) as H'
    by (intros; by apply Hk', Hk).
  clear Hk Hk'.
  each_upto d 31; try lia; vm_compute; by rewrite H'.
Qed.

(** [%Y] fails before its fourth digit. *)
Lemma year_fail_short a b caps k :
  Re.run (Strptime.item_re Strptime.DY) (String a (String b "")) caps k = None.
Proof. cbn [Strptime.item_re Re.run Re.digit]. repeat case_match; done. Qed.

Lemma year_fail_third a b c t caps k :
  Str.is_digit c = false →
  Re.run (Strptime.item_re Strptime.DY) (String a (String b (String c t))) caps k = None.
Proof.
  intros Hc. cbn [Strptime.item_re Re.run Re.digit]. rewrite Hc.
  repeat case_match; done.
Qed.

(** A separator does not take a digit, nor the other separator. *)
Lemma separator_digit (sep c : ascii) t caps k :
  sep = "-"%char ∨ sep = "/"%char → Str.is_digit c = true →
  Re.run (Strptime.item_re (Strptime.Lit sep)) (String c t) caps k = None.
Proof. intros [->| ->] Hc; by each_digit c Hc. Qed.

Lemma separator_other (sep sep' : ascii) t caps k :
  sep = "-"%char ∨ sep = "/"%char → sep' = "-"%char ∨ sep' = "/"%char →
  sep ≠ sep' →
  Re.run (Strptime.item_re (Strptime.Lit sep)) (String sep' t) caps k = None.
Proof. by intros [->| ->] [->| ->] ?. Qed.

Lemma separator_end (sep : ascii) caps k :
  Re.run (Strptime.item_re (Strptime.Lit sep)) "" caps k = None.
Proof. done. Qed.

Lemma spaces_digit c t caps k :
  Str.is_digit c = true →
  Re.run (Strptime.item_re Strptime.Spaces) (String c t) caps k = None.
Proof. intros Hc. by each_digit c Hc. Qed.

End DateFieldsFail.

(** ** Formats that reject a text *)

Lemma strptime_no_match s fmt :
  Re.match_ (Strptime.format_re fmt) s = None → Strptime.strptime s fmt = None.
Proof. intros Hm. unfold Strptime.strptime. by rewrite Hm. Qed.

Ltac two_chars s Hl Hd a b :=
  destruct s as [|a [|b [|? ?]]]; try done; clear Hl;
  cbn [Str.all] in Hd;
  let Ha := fresh "H" a in let Hb := fresh "H" b in
  apply andb_true_iff in Hd as [Ha Hd]; apply andb_true_iff in Hd as [Hb _].

(** A first field of one or two digits, then a separator that is not in
    the text. *)
Lemma wrong_separator X (sep : ascii) a b c t r :
  X = Strptime.Dd ∨ X = Strptime.Dm →
  sep = "-"%char ∨ sep = "/"%char →
  Str.is_digit b = true →
  Str.is_digit c = true ∨ ((c = "-"%char ∨ c = "/"%char) ∧ sep ≠ c) →
  Strptime.strptime (String a (String b (String c t))) (X :: Strptime.Lit sep :: r)
  = None.
Proof.
  intros HX Hsep Hb Hc. apply strptime_no_match. unfold Re.match_.
  cbn [Strptime.format_re]. rewrite run_seq.
  assert (∀ x u caps' (k : string → Re.captures → option (Re.captures * string)),
            x = b ∨ x = c →
            Re.run (Re.Seq (Strptime.item_re (Strptime.Lit sep)) (Strptime.format_re r))
                   (String x u) caps' k = None) as Hfail.
  { intros x u caps' k Hx. rewrite run_seq.
    destruct Hx as [->| ->]; [by apply separator_digit|].
    destruct Hc as [Hc|[Hc Hne]]; [by apply separator_digit | by apply separator_other]. }
  destruct HX as [->| ->]; [apply day_fail | apply month_fail];
    intros caps'; apply Hfail; auto.
Qed.

(** The formats with a month name, on a text of digits. *)
Lemma names_reject_digits a b c t r :
  Str.is_digit b = true → Str.is_digit c = true →
  Strptime.strptime (String a (String b (String c t)))
                    (Strptime.Dd :: Strptime.Spaces :: r) = None.
Proof.
  intros Hb Hc. apply strptime_no_match. unfold Re.match_.
  cbn [Strptime.format_re]. rewrite run_seq.
  apply day_fail; intros caps'; rewrite run_seq; by apply spaces_digit.
Qed.

(** A year first, on a text whose third character is no digit. *)
Lemma year_not_first a b c t r :
  Str.is_digit c = false →
  Strptime.strptime (String a (String b (String c t))) (Strptime.DY :: r) = None.
Proof.
  intros Hc. apply strptime_no_match. unfold Re.match_.
  cbn [Strptime.format_re]. rewrite run_seq. by apply year_fail_third.
Qed.

(** A year, then the other separator. *)
Lemma year_wrong_separator (sep sep' : ascii) a b c d t r :
  Str.is_digit a = true → Str.is_digit b = true →
  Str.is_digit c = true → Str.is_digit d = true →
  sep = "-"%char ∨ sep = "/"%char → sep' = "-"%char ∨ sep' = "/"%char →
  sep ≠ sep' →
  Strptime.strptime (String a (String b (String c (String d (String sep' t)))))
                    (Strptime.DY :: Strptime.Lit sep :: r) = None.
Proof.
  intros Ha Hb Hc Hd Hsep Hsep' Hne. apply strptime_no_match. unfold Re.match_.
  cbn [Strptime.format_re].
  change (String a (String b (String c (String d (String sep' t)))))
    with (String a (String b (String c (String d ""))) +:+ String sep' t).
  rewrite run_seq, year_field by done.
  rewrite run_seq. by apply separator_other.
Qed.

(** Day first, on a text whose second field is above twelve. *)
Lemma second_field_no_month (sep : ascii) mm d t r :
  sep = "-"%char ∨ sep = "/"%char →
  String.length mm = 2 → Str.all Str.is_digit mm = true →
  (13 <= d <= 31)%Z →
  Strptime.strptime (mm +:+ String sep (Str.pad0 2 d +:+ String sep t))
    (Strptime.Dd :: Strptime.Lit sep :: Strptime.Dm :: Strptime.Lit sep :: r) = None.
Proof.
  intros Hsep Hl Hm Hd. two_chars mm Hl Hm a b.
  apply strptime_no_match. unfold Re.match_.
  cbn [Strptime.format_re]. rewrite run_seq, !append_cons, append_empty_l.
  apply day_fail; intros caps'; rewrite run_seq.
  - by apply separator_digit.
  - rewrite separator_field by (by destruct Hsep as [->| ->]).
    rewrite run_seq. apply month_rejects_day; [done|].
    intros c caps'' Hc. rewrite run_seq. by apply separator_digit.
Qed.

(** A four-digit year, on a text that ends with two digits. *)
Lemma long_year_rejects_short (sep : ascii) dd mm yy :
  sep = "-"%char ∨ sep = "/"%char →
  String.length dd = 2 → Str.all Str.is_digit dd = true →
  String.length mm = 2 → Str.all Str.is_digit mm = true →
  String.length yy = 2 →
  Strptime.strptime (dd +:+ String sep (mm +:+ String sep yy))
    [Strptime.Dd; Strptime.Lit sep; Strptime.Dm; Strptime.Lit sep; Strptime.DY] = None.
Proof.
  intros Hsep Hld Hd Hlm Hm Hly.
  two_chars dd Hld Hd a b. two_chars mm Hlm Hm a' b'.
  destruct yy as [|y1 [|y2 [|? ?]]]; try done. clear Hly.
  assert (Str.lower_char sep = sep) as Hlow by (by destruct Hsep as [->| ->]).
  apply strptime_no_match. unfold Re.match_.
  cbn [Strptime.format_re]. rewrite run_seq, !append_cons, !append_empty_l.
  apply day_fail; intros caps'; rewrite run_seq.
  - by apply separator_digit.
  - rewrite separator_field by done. rewrite run_seq.
    apply month_fail; intros caps''; rewrite run_seq.
    + by apply separator_digit.
    + rewrite separator_field by done. rewrite run_seq. apply year_fail_short.
Qed.

(** ** Formats that accept a text *)

Lemma separator_lower (sep : ascii) :
  sep = "-"%char ∨ sep = "/"%char → Str.lower_char sep = sep.
Proof. by intros [->| ->]. Qed.

Lemma day_first_accepted (sep : ascii) y m d :
  sep = "-"%char ∨ sep = "/"%char →
  Strptime.valid_date y m d = true →
  Strptime.strptime (date_text sep (Str.pad0 2 d) (Str.pad0 2 m) (Str.pad0 4 y))
    [Strptime.Dd; Strptime.Lit sep; Strptime.Dm; Strptime.Lit sep; Strptime.DY]
  = Some (Date y m d).
Proof.
  intros Hsep Hv. pose proof (valid_date_bounds _ _ _ Hv) as (Hy & Hm & Hd).
  pose proof (separator_lower sep Hsep) as Hlow.
  eapply (strptime_long_year _ _
            (<[3:=Str.pad0 4 y]> (<[2:=Str.pad0 2 m]> (<[1:=Str.pad0 2 d]> ∅))));
    [| | | |apply to_int_four; lia|apply to_int_two; lia..|exact Hv].
  - unfold Re.match_, date_text. cbn [Strptime.format_re].
    rewrite run_seq. apply day_field; [done|]. cbv beta.
    rewrite run_seq, separator_field by done.
    rewrite run_seq. apply month_field; [done|]. cbv beta.
    rewrite run_seq, separator_field by done.
    destruct (pad0_four y ltac:(lia)) as (a & b & c & e & -> & Ha & Hb & Hc & He).
    rewrite run_seq.
    rewrite <- (append_empty_r (String a (String b (String c (String e ""))))).
    rewrite year_field by done. reflexivity.
  - apply lookup_insert_eq.
  - rewrite lookup_insert_ne by done. apply lookup_insert_eq.
  - rewrite !lookup_insert_ne by done. apply lookup_insert_eq.
Qed.

Lemma year_first_accepted (sep : ascii) y m d :
  sep = "-"%char ∨ sep = "/"%char →
  Strptime.valid_date y m d = true →
  Strptime.strptime (date_text sep (Str.pad0 4 y) (Str.pad0 2 m) (Str.pad0 2 d))
    [Strptime.DY; Strptime.Lit sep; Strptime.Dm; Strptime.Lit sep; Strptime.Dd]
  = Some (Date y m d).
Proof.
  intros Hsep Hv. pose proof (valid_date_bounds _ _ _ Hv) as (Hy & Hm & Hd).
  pose proof (separator_lower sep Hsep) as Hlow.
  eapply (strptime_long_year _ _
            (<[1:=Str.pad0 2 d]> (<[2:=Str.pad0 2 m]> (<[3:=Str.pad0 4 y]> ∅))));
    [| | | |apply to_int_four; lia|apply to_int_two; lia..|exact Hv].
  - unfold Re.match_, date_text. cbn [Strptime.format_re].
    destruct (pad0_four y ltac:(lia)) as (a & b & c & e & -> & Ha & Hb & Hc & He).
    rewrite run_seq, year_field by done.
    rewrite run_seq, separator_field by done.
    rewrite run_seq. apply month_field; [done|]. cbv beta.
    rewrite run_seq, separator_field by done.
    rewrite run_seq. rewrite <- (append_empty_r (Str.pad0 2 d)) at 1.
    by apply day_field.
  - rewrite !lookup_insert_ne by done. apply lookup_insert_eq.
  - rewrite lookup_insert_ne by done. apply lookup_insert_eq.
  - apply lookup_insert_eq.
Qed.

Lemma month_first_accepted (sep : ascii) y m d :
  sep = "-"%char ∨ sep = "/"%char →
  Strptime.valid_date y m d = true →
  Strptime.strptime (date_text sep (Str.pad0 2 m) (Str.pad0 2 d) (Str.pad0 4 y))
    [Strptime.Dm; Strptime.Lit sep; Strptime.Dd; Strptime.Lit sep; Strptime.DY]
  = Some (Date y m d).
Proof.
  intros Hsep Hv. pose proof (valid_date_bounds _ _ _ Hv) as (Hy & Hm & Hd).
  pose proof (separator_lower sep Hsep) as Hlow.
  eapply (strptime_long_year _ _
            (<[3:=Str.pad0 4 y]> (<[1:=Str.pad0 2 d]> (<[2:=Str.pad0 2 m]> ∅))));
    [| | | |apply to_int_four; lia|apply to_int_two; lia..|exact Hv].
  - unfold Re.match_, date_text. cbn [Strptime.format_re].
    rewrite run_seq. apply month_field; [done|]. cbv beta.
    rewrite run_seq, separator_field by done.
    rewrite run_seq. apply day_field; [done|]. cbv beta.
    rewrite run_seq, separator_field by done.
    destruct (pad0_four y ltac:(lia)) as (a & b & c & e & -> & Ha & Hb & Hc & He).
    rewrite run_seq.
    rewrite <- (append_empty_r (String a (String b (String c (String e ""))))).
    rewrite year_field by done. reflexivity.
  - apply lookup_insert_eq.
  - rewrite !lookup_insert_ne by done. apply lookup_insert_eq.
  - rewrite lookup_insert_ne by done. apply lookup_insert_eq.
Qed.

(** A two-digit year is put into the century that [strptime] gives it. *)
Lemma short_year_accepted (sep : ascii) yy m d :
  sep = "-"%char ∨ sep = "/"%char →
  (0 <= yy < 100)%Z →
  Strptime.valid_date (if (yy <=? 68)%Z then 2000 + yy else 1900 + yy)%Z m d = true →
  Strptime.strptime (date_text sep (Str.pad0 2 d) (Str.pad0 2 m) (Str.pad0 2 yy))
    [Strptime.Dd; Strptime.Lit sep; Strptime.Dm; Strptime.Lit sep; Strptime.Dy]
  = Some (Date (if (yy <=? 68)%Z then 2000 + yy else 1900 + yy)%Z m d).
Proof.
  intros Hsep Hyy Hv. pose proof (valid_date_bounds _ _ _ Hv) as (Hy & Hm & Hd).
  pose proof (separator_lower sep Hsep) as Hlow.
  assert (Re.match_ (Strptime.format_re
            [Strptime.Dd; Strptime.Lit sep; Strptime.Dm; Strptime.Lit sep; Strptime.Dy])
            (date_text sep (Str.pad0 2 d) (Str.pad0 2 m) (Str.pad0 2 yy))
          = Some (<[4:=Str.pad0 2 yy]> (<[2:=Str.pad0 2 m]> (<[1:=Str.pad0 2 d]> ∅)), ""))
    as Hmatch.
  { unfold Re.match_, date_text. cbn [Strptime.format_re].
    rewrite run_seq. apply day_field; [done|]. cbv beta.
    rewrite run_seq, separator_field by done.
    rewrite run_seq. apply month_field; [done|]. cbv beta.
    rewrite run_seq, separator_field by done.
    destruct (pad0_two yy Hyy) as [Hl Hdig].
    destruct (Str.pad0 2 yy) as [|a [|b [|? ?]]]; try done.
    cbn [Str.all] in Hdig. apply andb_true_iff in Hdig as [Ha Hdig].
    apply andb_true_iff in Hdig as [Hb _].
    rewrite run_seq. rewrite <- (append_empty_r (String a (String b ""))).
    rewrite short_year_field by done. reflexivity. }
  eapply strptime_short_year; [exact Hmatch| | | | |apply to_int_two; lia..|exact Hv].
  - by rewrite !lookup_insert_ne.
  - apply lookup_insert_eq.
  - rewrite lookup_insert_ne by done. apply lookup_insert_eq.
  - rewrite !lookup_insert_ne by done. apply lookup_insert_eq.
Qed.

(** ** [parse_date] on the common spellings *)

Lemma two_digit_chars n :
  (0 <= n < 100)%Z →
  ∃ a b, Str.pad0 2 n = String a (String b "") ∧
         Str.is_digit a = true ∧ Str.is_digit b = true.
Proof.
  intros Hn. destruct (pad0_two n Hn) as [Hl Hd].
  destruct (Str.pad0 2 n) as [|a [|b [|? ?]]]; try done.
  cbn [Str.all] in Hd. apply andb_true_iff in Hd as [Ha Hd].
  apply andb_true_iff in Hd as [Hb _]. by exists a, b.
Qed.

Lemma strip_date_text (sep : ascii) a b c :
  a ≠ "" → c ≠ "" →
  Str.all Str.is_digit a = true → Str.all Str.is_digit c = true →
  Str.strip (date_text sep a b c) = date_text sep a b c.
Proof.
  intros Hna Hnc Ha Hc. unfold date_text.
  destruct a as [|a0 a]; [done|]. destruct c as [|c0 c]; [done|].
  rewrite append_cons. apply strip_id.
  - cbn [Str.all] in Ha. apply andb_true_iff in Ha as [Ha _].
    by apply digit_not_space.
  - rewrite <- append_cons.
    replace (String a0 a +:+ String sep (b +:+ String sep (String c0 c)))
      with ((String a0 a +:+ String sep (b +:+ String sep "")) +:+ String c0 c).
    + rewrite ends_ok_append. by apply ends_ok_digits.
    + by repeat (rewrite ?append_assoc, ?append_cons, ?append_empty_l).
Qed.

Ltac sep_cond :=
  solve [ assumption | reflexivity | discriminate | by left | by right
        | by right; split; [left|] | by right; split; [right|] ].

Section DateSpellings.
Context `{Platform}.

Lemma strip_fields (sep : ascii) w1 n1 b w3 n3 :
  1 ≤ w1 → 1 ≤ w3 →
  (0 <= n1 < 10 ^ Z.of_nat w1)%Z → (0 <= n3 < 10 ^ Z.of_nat w3)%Z →
  Str.strip (date_text sep (Str.pad0 w1 n1) b (Str.pad0 w3 n3))
  = date_text sep (Str.pad0 w1 n1) b (Str.pad0 w3 n3).
Proof.
  intros Hw1 Hw3 Hn1 Hn3.
  destruct (pad0_spec w1 n1 Hw1 Hn1) as (Hl1 & Hd1 & _).
  destruct (pad0_spec w3 n3 Hw3 Hn3) as (Hl3 & Hd3 & _).
  apply strip_date_text; try done.
  - intros E. rewrite E in Hl1. simpl in Hl1. lia.
  - intros E. rewrite E in Hl3. simpl in Hl3. lia.
Qed.

(** X24.  A date of the calendar written day first, in two digits for the
    day, two for the month and four for the year, with ["-"] or ["/"]
    between them, is read as that date. *)
Theorem day_first_dates_are_read (sep : ascii) d :
  sep = "-"%char ∨ sep = "/"%char →
  Strptime.valid_date (year d) (month d) (day d) = true →
  parse_date (CStr (day_first sep d)) = Some d.
Proof.
  intros Hsep Hv. pose proof (valid_date_bounds _ _ _ Hv) as (Hy & Hm & Hd).
  pose proof (day_first_accepted sep _ _ _ Hsep Hv) as Hok.
  rewrite parse_date_string. unfold day_first.
  rewrite strip_fields by (simpl; lia).
  unfold Strptime.formats. cbn [try_formats].
  destruct d as [y m d]; simpl in *.
  destruct Hsep as [->| ->]; [by rewrite Hok|].
  destruct (two_digit_chars d ltac:(lia)) as (a & b & Hdd & Ha & Hb).
  unfold date_text in *. rewrite Hdd, !append_cons, !append_empty_l in *.
  rewrite (wrong_separator Strptime.Dd "-"); try sep_cond.
  by rewrite Hok.
Qed.

Lemma year_first_formats (sep : ascii) y m d :
  sep = "-"%char ∨ sep = "/"%char →
  Strptime.valid_date y m d = true →
  try_formats (date_text sep (Str.pad0 4 y) (Str.pad0 2 m) (Str.pad0 2 d))
              Strptime.formats = Some (Date y m d).
Proof.
  intros Hsep Hv. pose proof (valid_date_bounds _ _ _ Hv) as (Hy & Hm & Hd).
  pose proof (year_first_accepted sep _ _ _ Hsep Hv) as Hok.
  unfold Strptime.formats. cbn [try_formats].
  destruct (pad0_four y ltac:(lia)) as (a & b & c & e & Hyy & Ha & Hb & Hc & He).
  unfold date_text in *. rewrite Hyy, !append_cons, !append_empty_l in *.
  rewrite !(wrong_separator Strptime.Dd "-"); try sep_cond.
  rewrite !(wrong_separator Strptime.Dd "/"); try sep_cond.
  destruct Hsep as [->| ->]; [by rewrite Hok|].
  rewrite (year_wrong_separator "-" "/"); try sep_cond.
  rewrite !(wrong_separator Strptime.Dm "-"); try sep_cond.
  rewrite !(wrong_separator Strptime.Dm "/"); try sep_cond.
  rewrite !names_reject_digits by done.
  by rewrite Hok.
Qed.

(** X25.  A date of the calendar written year first, in four digits for
    the year and two for the month and for the day, with ["-"] or ["/"]
    between them, is read as that date; with ["/"] all nine formats before
    the last reject the text. *)
Theorem year_first_dates_are_read (sep : ascii) d :
  sep = "-"%char ∨ sep = "/"%char →
  Strptime.valid_date (year d) (month d) (day d) = true →
  parse_date (CStr (year_first sep d)) = Some d.
Proof.
  intros Hsep Hv. pose proof (valid_date_bounds _ _ _ Hv) as (Hy & Hm & Hd).
  rewrite parse_date_string. unfold year_first.
  rewrite strip_fields by (simpl; lia).
  rewrite year_first_formats by done. by destruct d.
Qed.

(** X26.  A [datetime.date] of the calendar is returned as it is:
    [parse_date] prints it and reads the text back with the third
    format. *)
Theorem date_object_is_kept d :
  Strptime.valid_date (year d) (month d) (day d) = true →
  parse_date (CDate d) = Some d.
Proof.
  intros Hv. pose proof (valid_date_bounds _ _ _ Hv) as (Hy & Hm & Hd).
  change (parse_date (CDate d)) with (parse_date (CStr (isoformat d))).
  rewrite parse_date_string.
  assert (isoformat d = date_text "-" (Str.pad0 4 (year d)) (Str.pad0 2 (month d))
                                  (Str.pad0 2 (day d))) as ->.
  { unfold isoformat, date_text. by rewrite !append_cons, !append_empty_l. }
  rewrite strip_fields by (simpl; lia).
  rewrite year_first_formats by auto. by destruct d.
Qed.

(** X27.  A date of the calendar written month first is read month
    first only when its day is above twelve; up to twelve the two fields
    are taken as day and month, so that the text gives the date with day
    and month exchanged. *)
Theorem month_first_only_above_twelve (sep : ascii) d :
  sep = "-"%char ∨ sep = "/"%char →
  Strptime.valid_date (year d) (month d) (day d) = true →
  parse_date (CStr (month_first sep d))
  = Some (if (day d <=? 12)%Z then Date (year d) (day d) (month d) else d).
Proof.
  intros Hsep Hv. pose proof (valid_date_bounds _ _ _ Hv) as (Hy & Hm & Hd).
  rewrite parse_date_string. unfold month_first.
  rewrite strip_fields by (simpl; lia).
  destruct d as [y m d]; simpl in *.
  destruct (Z.leb_spec d 12) as [Hle|Hgt].
  - (* read day first: the fields are those of the date with day and month
       exchanged, which exists *)
    assert (Strptime.valid_date y d m = true) as Hv'.
    { unfold Strptime.valid_date, Strptime.days_in_month in *.
      rewrite !andb_true_iff, !Z.leb_le in *. repeat case_match; lia. }
    pose proof (day_first_accepted sep _ _ _ Hsep Hv') as Hok.
    unfold Strptime.formats. cbn [try_formats].
    destruct Hsep as [->| ->]; [by rewrite Hok|].
    destruct (two_digit_chars m ltac:(lia)) as (a & b & Hmm & Ha & Hb).
    unfold date_text in *. rewrite Hmm, !append_cons, !append_empty_l in *.
    rewrite (wrong_separator Strptime.Dd "-"); try sep_cond. by rewrite Hok.
  - pose proof (month_first_accepted sep _ _ _ Hsep Hv) as Hok.
    pose proof (pad0_two m ltac:(lia)) as [Hlm Hdm].
    unfold Strptime.formats. cbn [try_formats].
    assert (∀ sep' r, sep' = "-"%char ∨ sep' = "/"%char →
              Strptime.strptime
                (date_text sep (Str.pad0 2 m) (Str.pad0 2 d) (Str.pad0 4 y))
                (Strptime.Dd :: Strptime.Lit sep' :: Strptime.Dm
                 :: Strptime.Lit sep' :: r) = None) as Hday.
    { intros sep' r Hsep'. destruct (decide (sep' = sep)) as [->|Hne].
      - apply second_field_no_month; try done. lia.
      - destruct (two_digit_chars m ltac:(lia)) as (a & b & Hmm & Ha & Hb).
        unfold date_text. rewrite Hmm, !append_cons, !append_empty_l.
        apply wrong_separator; sep_cond || (right; split; [done|congruence]). }
    assert (∀ r, Strptime.strptime
                (date_text sep (Str.pad0 2 m) (Str.pad0 2 d) (Str.pad0 4 y))
                (Strptime.DY :: r) = None) as Hyear.
    { intros r. destruct (two_digit_chars m ltac:(lia)) as (a & b & Hmm & Ha & Hb).
      unfold date_text. rewrite Hmm, !append_cons, !append_empty_l.
      apply year_not_first. by destruct Hsep as [->| ->]. }
    rewrite !Hday, Hyear by auto.
    destruct Hsep as [->| ->]; [by rewrite Hok|].
    destruct (two_digit_chars m ltac:(lia)) as (a & b & Hmm & Ha & Hb).
    unfold date_text in *. rewrite Hmm, !append_cons, !append_empty_l in *.
    rewrite (wrong_separator Strptime.Dm "-"); try sep_cond. by rewrite Hok.
Qed.

(** X28.  A date from 1969 to 2068 written day first with the last two
    digits of its year is read as that date: [%y] puts the years 00 to 68
    into this century and 69 to 99 into the last. *)
Theorem short_year_dates_are_read (sep : ascii) d :
  sep = "-"%char ∨ sep = "/"%char →
  Strptime.valid_date (year d) (month d) (day d) = true →
  (1969 <= year d <= 2068)%Z →
  parse_date (CStr (short_year sep d)) = Some d.
Proof.
  intros Hsep Hv Hcentury. pose proof (valid_date_bounds _ _ _ Hv) as (Hy & Hm & Hd).
  rewrite parse_date_string. unfold short_year.
  assert (0 <= year d mod 100 < 100)%Z as Hyy by (apply Z.mod_pos_bound; lia).
  rewrite strip_fields by (simpl; lia).
  destruct d as [y m d]; simpl in *.
  assert ((if (y mod 100 <=? 68)%Z then 2000 + y mod 100 else 1900 + y mod 100)%Z = y)
    as Hpivot.
  { pose proof (Z_div_mod_eq_full y 100) as Hdm.
    destruct (Z.leb_spec (y mod 100) 68); lia. }
  pose proof (short_year_accepted sep (y mod 100) m d Hsep Hyy) as Hok.
  rewrite Hpivot in Hok. specialize (Hok Hv).
  pose proof (pad0_two d ltac:(lia)) as [Hld Hdd].
  pose proof (pad0_two m ltac:(lia)) as [Hlm Hdm].
  pose proof (pad0_two (y mod 100) Hyy) as [Hly _].
  unfold Strptime.formats. cbn [try_formats].
  assert (∀ sep', sep' = "-"%char ∨ sep' = "/"%char →
            Strptime.strptime
              (date_text sep (Str.pad0 2 d) (Str.pad0 2 m) (Str.pad0 2 (y mod 100)))
              [Strptime.Dd; Strptime.Lit sep'; Strptime.Dm; Strptime.Lit sep';
               Strptime.DY] = None) as Hlong.
  { intros sep' Hsep'. destruct (decide (sep' = sep)) as [->|Hne].
    - by apply long_year_rejects_short.
    - destruct (two_digit_chars d ltac:(lia)) as (a & b & Hdd' & Ha & Hb).
      unfold date_text. rewrite Hdd', !append_cons, !append_empty_l.
      apply wrong_separator; sep_cond || (right; split; [done|congruence]). }
  rewrite !Hlong by auto.
  destruct (two_digit_chars d ltac:(lia)) as (a & b & Hdd' & Ha & Hb).
  unfold date_text in *. rewrite Hdd', !append_cons, !append_empty_l in *.
  rewrite year_not_first by (by destruct Hsep as [->| ->]).
  destruct Hsep as [->| ->]; [by rewrite Hok|].
  rewrite (wrong_separator Strptime.Dd "-"); try sep_cond. by rewrite Hok.
Qed.

End DateSpellings.

Lemma day_first_witness :
  ("/"%char = "-"%char ∨ "/"%char = "/"%char) ∧
  Strptime.valid_date 2025 1 15 = true ∧
  @parse_date Fixture.writable (CStr "15/01/2025") = Some (Date 2025 1 15).
Proof.
  split; [by right|]. split; [reflexivity|].
  exact (@day_first_dates_are_read Fixture.writable "/" (Date 2025 1 15)
           (or_intror eq_refl) eq_refl).
Defined.

Lemma year_first_witness :
  ("/"%char = "-"%char ∨ "/"%char = "/"%char) ∧
  Strptime.valid_date 2025 1 15 = true ∧
  @parse_date Fixture.writable (CStr "2025/01/15") = Some (Date 2025 1 15).
Proof.
  split; [by right|]. split; [reflexivity|].
  exact (@year_first_dates_are_read Fixture.writable "/" (Date 2025 1 15)
           (or_intror eq_refl) eq_refl).
Defined.

Lemma date_object_witness :
  Strptime.valid_date 2024 2 29 = true ∧
  @parse_date Fixture.writable (CDate (Date 2024 2 29)) = Some (Date 2024 2 29).
Proof.
  split; [reflexivity|].
  exact (@date_object_is_kept Fixture.writable (Date 2024 2 29) eq_refl).
Defined.

Lemma month_first_witness :
  ("-"%char = "-"%char ∨ "-"%char = "/"%char) ∧
  Strptime.valid_date 2025 1 15 = true ∧
  @parse_date Fixture.writable (CStr "01-15-2025") = Some (Date 2025 1 15).
Proof.
  split; [by left|]. split; [reflexivity|].
  exact (@month_first_only_above_twelve Fixture.writable "-" (Date 2025 1 15)
           (or_introl eq_refl) eq_refl).
Defined.

Lemma short_year_witness :
  ("-"%char = "-"%char ∨ "-"%char = "/"%char) ∧
  Strptime.valid_date 1999 12 31 = true ∧
  (1969 <= 1999 <= 2068)%Z ∧
  @parse_date Fixture.writable (CStr "31-12-99") = Some (Date 1999 12 31).
Proof.
  split; [by left|]. split; [reflexivity|]. split; [lia|].
  exact (@short_year_dates_are_read Fixture.writable "-" (Date 1999 12 31)
           (or_introl eq_refl) eq_refl ltac:(simpl; lia)).
Defined.

(** * The name of the output file *)

Lemma append_inj_length (a b c d : string) :
  String.length a = String.length c → a +:+ b = c +:+ d → a = c ∧ b = d.
Proof.
  revert c. induction a as [|x a IH]; intros [|y c] Hl Heq; try done.
  rewrite !append_cons in Heq. injection Heq as -> Heq.
  destruct (IH c) as [-> ->]; [by injection Hl|done|done].
Qed.

Lemma append_inj_r (a c t : string) : a +:+ t = c +:+ t → a = c.
Proof.
  intros Heq. apply (append_inj_length a t c t); [|done].
  apply (f_equal String.length) in Heq. rewrite !length_append in Heq. lia.
Qed.

Lemma of_nat_inj n m : Str.of_nat n = Str.of_nat m → n = m.
Proof.
  intros Heq. apply (f_equal Str.int_of_digits) in Heq.
  rewrite !int_of_digits_of_nat in Heq. lia.
Qed.

Lemma of_Z_inj a b : Str.of_Z a = Str.of_Z b → a = b.
Proof.
  assert (∀ p n, "-" +:+ Str.of_nat p ≠ Str.of_nat n) as Hmixed.
  { intros p n Heq. destruct (of_nat_nonempty n) as (c & s & Hn).
    pose proof (of_nat_digits n) as Hd. rewrite Hn in Hd, Heq.
    rewrite append_cons in Heq. injection Heq as <- _. done. }
  unfold Str.of_Z.
  destruct a as [|p|p], b as [|q|q]; intros Heq;
    try (by apply Hmixed in Heq); try (symmetry in Heq; by apply Hmixed in Heq);
    try (apply of_nat_inj in Heq; lia).
  rewrite !append_cons, !append_empty_l in Heq. injection Heq as Heq.
  apply of_nat_inj in Heq. lia.
Qed.

Lemma pad0_inj w n m :
  1 ≤ w → (0 <= n < 10 ^ Z.of_nat w)%Z → (0 <= m < 10 ^ Z.of_nat w)%Z →
  Str.pad0 w n = Str.pad0 w m → n = m.
Proof.
  intros Hw Hn Hm Heq.
  destruct (pad0_spec w n Hw Hn) as (_ & _ & <-).
  destruct (pad0_spec w m Hw Hm) as (_ & _ & <-). by rewrite Heq.
Qed.

Lemma isoformat_inj d1 d2 :
  Strptime.valid_date (year d1) (month d1) (day d1) = true →
  Strptime.valid_date (year d2) (month d2) (day d2) = true →
  ∀ t1 t2, isoformat d1 +:+ t1 = isoformat d2 +:+ t2 → d1 = d2 ∧ t1 = t2.
Proof.
  intros (Hy1 & Hm1 & Hd1)%valid_date_bounds (Hy2 & Hm2 & Hd2)%valid_date_bounds t1 t2.
  destruct d1 as [y1 m1 d1], d2 as [y2 m2 d2]; simpl in *.
  unfold isoformat; simpl.
  assert (∀ n, (1 <= n <= 9999)%Z → (0 <= n < 10 ^ Z.of_nat 4)%Z) as H4
    by (intros; change (10 ^ Z.of_nat 4)%Z with 10000%Z; lia).
  assert (∀ n, (1 <= n <= 31)%Z → (0 <= n < 10 ^ Z.of_nat 2)%Z) as H2
    by (intros; change (10 ^ Z.of_nat 2)%Z with 100%Z; lia).
  pose proof (pad0_spec 4 y1 ltac:(lia) (H4 _ Hy1)) as (Ly1 & _).
  pose proof (pad0_spec 4 y2 ltac:(lia) (H4 _ Hy2)) as (Ly2 & _).
  pose proof (pad0_spec 2 m1 ltac:(lia) (H2 m1 ltac:(lia))) as (Lm1 & _).
  pose proof (pad0_spec 2 m2 ltac:(lia) (H2 m2 ltac:(lia))) as (Lm2 & _).
  pose proof (pad0_spec 2 d1 ltac:(lia) (H2 _ Hd1)) as (Ld1 & _).
  pose proof (pad0_spec 2 d2 ltac:(lia) (H2 _ Hd2)) as (Ld2 & _).
  rewrite !append_assoc, !append_cons, !append_empty_l.
  intros [Ey Heq]%append_inj_length; [|lia]. injection Heq as Heq.
  apply append_inj_length in Heq as [Em Heq]; [|lia]. injection Heq as Heq.
  apply append_inj_length in Heq as [Ed Heq]; [|lia].
  apply pad0_inj in Ey, Em, Ed; try lia; auto with lia.
  by subst.
Qed.

Section FileNames.
Context `{Platform}.

(** X29.  The output file of a run is named by [output_filename] inside the
    output directory, and for dates of the calendar from the year 1000 on
    two runs with the same program filter get the same file name only for
    the same date and the same attendance day. *)
Theorem output_file_names_differ reg_filepath output_dir program_filter
    d1 a1 d2 a2 :
  Strptime.valid_date (year d1) (month d1) (day d1) = true →
  Strptime.valid_date (year d2) (month d2) (day d2) = true →
  (1000 <= year d1)%Z → (1000 <= year d2)%Z →
  output_path reg_filepath d1 a1 program_filter output_dir
  = path_join (default (path_dirname reg_filepath) output_dir)
              (output_filename d1 a1 program_filter) ∧
  (output_filename d1 a1 program_filter = output_filename d2 a2 program_filter →
   d1 = d2 ∧ a1 = a2).
Proof.
  intros Hv1 Hv2 _ _. split; [reflexivity|].
  unfold output_filename, strftime_ymd. cbv zeta.
  set (program_str := Str.replace_char "/" "-" (Str.replace_char " " "_" _)).
  intros Heq.
  apply (append_inj_length "attendance_output_") in Heq as [_ Heq]; [|done].
  apply isoformat_inj in Heq as [-> Heq]; [|done..]. split; [done|].
  rewrite !append_assoc, !append_cons, !append_empty_l in Heq.
  injection Heq as Heq. apply append_inj_r in Heq. by apply of_Z_inj.
Qed.

End FileNames.

Lemma output_names_witness :
  Strptime.valid_date 2025 1 15 = true ∧ (1000 <= 2025)%Z ∧
  @output_path Fixture.writable "registration.csv" (Date 2025 1 15) 1 None None
  = "./attendance_output_2025-01-15_Day1.csv".
Proof.
  split; [reflexivity|]. split; [lia|].
  exact (proj1 (@output_file_names_differ Fixture.writable "registration.csv"
                  None None (Date 2025 1 15) 1 (Date 2025 1 15) 1
                  eq_refl eq_refl ltac:(simpl; lia) ltac:(simpl; lia))).
Defined.
